(** * LAN sharing tool: a shallow embedding of [share.py]

    The development follows the HTTP core of [share.py]: the namespace
    resolver ([FileShareHandler.translate_path]), the range engine
    ([range_request], [copyfile], [copyfile_range]), the two HTML views
    ([list_shared_dirs], [list_directory]), the JSON API branches of
    [do_POST] and the background [shutdown_monitor].

    Conventions.
    - A Python [str] is a Rocq [string], read as the UTF-8 bytes of the
      text.  Byte order on UTF-8 agrees with code point order, so
      comparisons are those of Python.  [str.strip] removes the white
      space of Python, ASCII or not; the other character classes used by
      the code ([\d], [str.isdigit], [str.lower]) are taken on ASCII, and
      the theorems that depend on them say so; headers are latin-1 in
      [http.server], where [\d] is [0-9].
    - Python integers are [Z]; [int] of a string of digits is its value.
      Recent interpreters refuse a string of more than 4300 digits; the
      statements that depend on it keep the digits within that limit.
    - [os.path] is [posixpath].
    - The file system is a finite map from path strings to nodes.  Names
      given relative to the working directory (the sentinel and mailbox
      files) are kept as they are written; absolute names are normalised
      as the kernel would resolve them in a tree without symbolic links.
      There are no permissions: an operation fails only for a missing
      file, a missing directory or a directory in the place of a file.
    - A request body reaches a handler as the result of [json.loads],
      which is a value or the exception raised. *)

From Stdlib Require Import ZArith Lia Bool Ascii String List.
From stdpp Require Import base option list gmap strings sorting.

Open Scope string_scope.
Open Scope Z_scope.

(* ------------------------------------------------------------------ *)
(** ** Python string primitives *)

Module PyStr.

Definition dq : string := String (ascii_of_nat 34) EmptyString.
Definition bs : string := String (ascii_of_nat 92) EmptyString.
Definition nl : ascii := ascii_of_nat 10.

(** [s.startswith(p)] *)
Definition startswith (s p : string) : bool := String.prefix p s.

(** [s.endswith(p)] *)
Definition endswith (s p : string) : bool :=
  let n := String.length s in
  let k := String.length p in
  if (k <=? n)%nat then String.eqb (String.substring (n - k) k s) p else false.

(** [p in s] for strings: [p] occurs in [s] *)
Fixpoint contains (s p : string) : bool :=
  String.prefix p s ||
  match s with
  | EmptyString => false
  | String _ s' => contains s' p
  end.

(** [s.split(c, 1)[0]]: the text before the first [c] *)
Fixpoint before_first (c : ascii) (s : string) : string :=
  match s with
  | EmptyString => EmptyString
  | String a s' => if Ascii.eqb a c then EmptyString else String a (before_first c s')
  end.

Definition is_digit (c : ascii) : bool :=
  let n := nat_of_ascii c in ((48 <=? n) && (n <=? 57))%nat.

Definition digit_val (c : ascii) : Z := Z.of_nat (nat_of_ascii c) - 48.

(** [s.isdigit()] on ASCII text: non-empty and every character a digit *)
Definition isdigit (s : string) : bool :=
  match s with
  | EmptyString => false
  | _ => forallb is_digit (list_ascii_of_string s)
  end.

(** [int(s)] on a string of ASCII digits within the length that [int]
    takes (the only use in the code) *)
Definition int_of (s : string) : Z :=
  fold_left (fun acc c => 10 * acc + digit_val c) (list_ascii_of_string s) 0.

(** [str(n)] for an integer *)
Definition digit_char (d : Z) : ascii := ascii_of_nat (Z.to_nat (48 + d)).

Fixpoint str_pos_go (fuel : nat) (n : Z) (acc : string) : string :=
  match fuel with
  | O => acc
  | S fuel' =>
      let acc' := String (digit_char (n mod 10)) acc in
      if n <? 10 then acc' else str_pos_go fuel' (n / 10) acc'
  end.

Definition str_of_Z (n : Z) : string :=
  if n <? 0 then String "-" (str_pos_go (Z.to_nat (Z.log2 (- n)) + 1) (- n) "")
  else str_pos_go (Z.to_nat (Z.log2 n) + 1) n "".

(** whitespace removed by [str.strip()]: the ASCII characters *)
Definition is_space (c : ascii) : bool :=
  let n := nat_of_ascii c in
  (((9 <=? n) && (n <=? 13)) || ((28 <=? n) && (n <=? 32)))%nat.

(** the characters that [str.strip()] removes beyond ASCII, as the bytes
    of their UTF-8 form: U+0085 and U+00A0 take two bytes *)
Definition is_space2 (a b : ascii) : bool :=
  let a := nat_of_ascii a in
  let b := nat_of_ascii b in
  ((a =? 194) && ((b =? 133) || (b =? 160)))%nat.

(** U+1680, U+2000 to U+200A, U+2028, U+2029, U+202F, U+205F and U+3000
    take three bytes *)
Definition is_space3 (a b c : ascii) : bool :=
  let a := nat_of_ascii a in
  let b := nat_of_ascii b in
  let c := nat_of_ascii c in
  (((a =? 225) && (b =? 154) && (c =? 128))
   || ((a =? 226) && (b =? 128)
       && (((128 <=? c) && (c <=? 138)) || (c =? 168) || (c =? 169) || (c =? 175)))
   || ((a =? 226) && (b =? 129) && (c =? 159))
   || ((a =? 227) && (b =? 128) && (c =? 128)))%nat.

(** [s.lstrip()] *)
Fixpoint lstrip (s : string) : string :=
  match s with
  | EmptyString => EmptyString
  | String a s1 =>
      if is_space a then lstrip s1
      else
        match s1 with
        | EmptyString => s
        | String b s2 =>
            if is_space2 a b then lstrip s2
            else
              match s2 with
              | EmptyString => s
              | String c s3 => if is_space3 a b c then lstrip s3 else s
              end
        end
  end.

(** the same from the end, on the reversed list of bytes *)
Fixpoint rstrip_rev (l : list ascii) : list ascii :=
  match l with
  | [] => []
  | a :: l1 =>
      if is_space a then rstrip_rev l1
      else
        match l1 with
        | [] => l
        | b :: l2 =>
            if is_space2 b a then rstrip_rev l2
            else
              match l2 with
              | [] => l
              | c :: l3 => if is_space3 c b a then rstrip_rev l3 else l
              end
        end
  end.

(** [s.rstrip()] *)
Definition rstrip (s : string) : string :=
  string_of_list_ascii (rev (rstrip_rev (rev (list_ascii_of_string s)))).

(** [s.strip()] *)
Definition strip (s : string) : string := rstrip (lstrip s).

(** Characters on the UTF-8 form of a text: a byte of the form 10xxxxxx
    continues a character, any other byte starts one. *)
Definition continues (c : ascii) : bool :=
  let n := nat_of_ascii c in ((128 <=? n) && (n <? 192))%nat.

(** [len(s)]: the number of characters *)
Definition len (s : string) : nat :=
  List.length (List.filter (fun c => negb (continues c)) (list_ascii_of_string s)).

(** what is left of the character whose first byte was just passed *)
Fixpoint skip_continued (s : string) : string :=
  match s with
  | EmptyString => EmptyString
  | String c s' => if continues c then skip_continued s' else s
  end.

(** [s[n:]] for [n >= 0] *)
Fixpoint drop_chars (n : nat) (s : string) : string :=
  match n with
  | O => s
  | S n' =>
      match s with
      | EmptyString => EmptyString
      | String _ s' => drop_chars n' (skip_continued s')
      end
  end.

(** [s[:n]] for [n >= 0] *)
Fixpoint take_chars (n : nat) (s : string) : string :=
  match s with
  | EmptyString => EmptyString
  | String c s' =>
      if continues c then String c (take_chars n s')
      else
        match n with
        | O => EmptyString
        | S n' => String c (take_chars n' s')
        end
  end.

(** [s.lower()] on ASCII text *)
Definition lower_char (c : ascii) : ascii :=
  let n := nat_of_ascii c in
  if ((65 <=? n) && (n <=? 90))%nat then ascii_of_nat (n + 32) else c.

Fixpoint lower (s : string) : string :=
  match s with
  | EmptyString => EmptyString
  | String a s' => String (lower_char a) (lower s')
  end.

(** the longest prefix of digits, and what follows it *)
Fixpoint span_digits (s : string) : string * string :=
  match s with
  | EmptyString => (EmptyString, EmptyString)
  | String a s' =>
      if is_digit a then
        let (d, r) := span_digits s' in (String a d, r)
      else (EmptyString, s)
  end.

(** [s] without a given prefix *)
Fixpoint strip_prefix (p s : string) : option string :=
  match p, s with
  | EmptyString, _ => Some s
  | String a p', String b s' => if Ascii.eqb a b then strip_prefix p' s' else None
  | String _ _, EmptyString => None
  end.

(** [sep.join(l)] *)
Definition join (sep : string) (l : list string) : string := String.concat sep l.

(** [s.split(sep)] for a one-character separator *)
Fixpoint split (c : ascii) (s : string) : list string :=
  match s with
  | EmptyString => [EmptyString]
  | String a s' =>
      if Ascii.eqb a c then EmptyString :: split c s'
      else match split c s' with
           | x :: xs => String a x :: xs
           | [] => [String a EmptyString]
           end
  end.

End PyStr.




(* ------------------------------------------------------------------ *)
(** ** [posixpath] *)

Module PosixPath.
Import PyStr.

Definition isabs (p : string) : bool := startswith p "/".

(** [os.path.join(a, b)] *)
Definition join (a b : string) : string :=
  if startswith b "/" then b
  else if String.eqb a "" || endswith a "/" then a ++ b
  else a ++ "/" ++ b.

(** the loop of [normpath] over the components *)
Fixpoint norm_comps (initial_slashes : bool) (new_comps : list string)
    (comps : list string) : list string :=
  match comps with
  | [] => new_comps
  | comp :: rest =>
      if String.eqb comp "" || String.eqb comp "." then
        norm_comps initial_slashes new_comps rest
      else if negb (String.eqb comp "..")
              || (negb initial_slashes && match new_comps with [] => true | _ => false end)
              || match last new_comps with
                 | Some l => String.eqb l ".."
                 | None => false
                 end
      then norm_comps initial_slashes (new_comps ++ [comp]) rest
      else norm_comps initial_slashes (removelast new_comps) rest
  end.

(** [os.path.normpath(path)] *)
Definition normpath (path : string) : string :=
  if String.eqb path "" then "."
  else
    let initial_slashes : nat :=
      if startswith path "/" then
        if startswith path "//" && negb (startswith path "///") then 2%nat else 1%nat
      else 0%nat in
    let comps := norm_comps (negb (Nat.eqb initial_slashes 0)) [] (split "/" path) in
    let p := PyStr.join "/" comps in
    let p := match initial_slashes with
             | O => p
             | S O => "/" ++ p
             | _ => "//" ++ p
             end in
    if String.eqb p "" then "." else p.

(** [os.path.abspath(path)], with the working directory as a parameter *)
Definition abspath (cwd path : string) : string :=
  normpath (if isabs path then path else join cwd path).

(** [os.path.basename(p)]: what follows the last slash *)
Definition basename (p : string) : string :=
  match last (split "/" p) with
  | Some b => b
  | None => ""
  end.

Fixpoint rstrip_sep (s : string) : string :=
  match s with
  | EmptyString => EmptyString
  | String a s' =>
      match rstrip_sep s' with
      | EmptyString => if Ascii.eqb a "/" then EmptyString else String a EmptyString
      | r => String a r
      end
  end.

(** [os.path.dirname(p)]: up to the last slash, without trailing
    slashes unless there is nothing else *)
Definition dirname (p : string) : string :=
  let parts := split "/" p in
  match parts with
  | [] | [_] => ""
  | _ =>
      let head := PyStr.join "/" (removelast parts) ++ "/" in
      if forallb (Ascii.eqb "/") (list_ascii_of_string head) then head
      else rstrip_sep head
  end.

End PosixPath.


(* ------------------------------------------------------------------ *)
(** ** [urllib.parse.unquote] *)

Module Url.
Import PyStr.

Definition hex_val (c : ascii) : option nat :=
  let n := nat_of_ascii c in
  if ((48 <=? n) && (n <=? 57))%nat then Some (n - 48)%nat
  else if ((65 <=? n) && (n <=? 70))%nat then Some (n - 55)%nat
  else if ((97 <=? n) && (n <=? 102))%nat then Some (n - 87)%nat
  else None.

(** [unquote(s, errors='surrogatepass')] on a text whose escapes decode
    to well-formed UTF-8; on other escapes Python raises
    [UnicodeDecodeError].  [%XX] becomes the byte [XX]; a [%] not
    followed by two hex digits stays.  The decoded bytes are the UTF-8
    form of the result.  After a
    decoded [%XX] the two hex digits are dropped from [unquote s'], which
    starts with them since they are not percent signs. *)
Fixpoint unquote (s : string) : string :=
  match s with
  | EmptyString => EmptyString
  | String c s' =>
      let keep := String c (unquote s') in
      if Ascii.eqb c "%" then
        match s' with
        | String h (String l s'') =>
            match hex_val h, hex_val l with
            | Some a, Some b =>
                String (ascii_of_nat (16 * a + b))
                  (match unquote s' with
                   | String _ (String _ r) => r
                   | r => r
                   end)
            | _, _ => keep
            end
        | _ => keep
        end
      else keep
  end.

End Url.


(* ------------------------------------------------------------------ *)
(** ** The three regular expressions of the code, as matchers *)

Module Re.
Import PyStr.

(** Any text to the end, as the last item of a pattern: the dot does
    not match a newline, and the end anchor matches at the end or before
    a final newline.  Returns the text matched. *)
Fixpoint dot_star_end (s : string) : option string :=
  match s with
  | EmptyString => Some EmptyString
  | String c s' =>
      if Ascii.eqb c nl then
        match s' with
        | EmptyString => Some EmptyString
        | _ => None
        end
      else option_map (String c) (dot_star_end s')
  end.

(** The pattern of [translate_path] and [list_directory]: [^/share],
    one or more digits (group 1), a slash, then any text to the end
    (group 2).  The digits are the ASCII ones, which are all the digits
    of a request line. *)
Definition match_share (s : string) : option (string * string) :=
  match strip_prefix "/share" s with
  | None => None
  | Some r =>
      let (digits, r1) := span_digits r in
      match digits, r1 with
      | String _ _, String c r2 =>
          if Ascii.eqb c "/" then option_map (pair digits) (dot_star_end r2) else None
      | _, _ => None
      end
  end.

(** The pattern applied to the [Referer] header: any text, then group 1,
    which is [/share], digits, a slash and any text to the end.  The
    leading any-text is greedy, so the last position where the group
    matches wins. *)
Fixpoint match_referer (s : string) : option string :=
  match s with
  | EmptyString => None
  | String c s' =>
      let later := if Ascii.eqb c nl then None else match_referer s' in
      match later with
      | Some g => Some g
      | None =>
          match match_share s with
          | Some (digits, rest) => Some ("/share" ++ digits ++ "/" ++ rest)
          | None => None
          end
      end
  end.

(** The pattern of [range_request] and [copyfile]: [bytes=], one or
    more digits (group 1), a dash, then zero or more digits (group 2).
    [re.match] anchors at the start only: what follows the second group
    is not looked at. *)
Definition match_range (s : string) : option (string * string) :=
  match strip_prefix "bytes=" s with
  | None => None
  | Some r =>
      let (d1, r1) := span_digits r in
      match d1, r1 with
      | String _ _, String c r2 =>
          if Ascii.eqb c "-" then Some (d1, fst (span_digits r2)) else None
      | _, _ => None
      end
  end.

End Re.


(* ------------------------------------------------------------------ *)
(** ** Namespace resolver: [FileShareHandler.translate_path] *)

Section Resolver.
Import PyStr.

(** [os.getcwd()] and the global [shared_dirs] *)
Variable cwd : string.
Variable shared_dirs : list string.

(** [None] is Python's [None]; the root is the marker ['/__root__']. *)
Definition translate_path (path : string) : option string :=
  let path := before_first "?" path in
  let path := before_first "#" path in
  let path := Url.unquote path in
  if String.eqb path "/" || String.eqb path "" then Some "/__root__"
  else
    match Re.match_share path with
    | Some (g1, sub_path) =>
        let share_index := int_of g1 - 1 in
        if (0 <=? share_index) && (share_index <? Z.of_nat (length shared_dirs)) then
          match shared_dirs !! Z.to_nat share_index with
          | Some share_dir =>
              let full_path := PosixPath.join share_dir sub_path in
              let full_path := PosixPath.abspath cwd full_path in
              if startswith full_path (PosixPath.abspath cwd share_dir)
              then Some full_path
              else None
          | None => None
          end
        else None
    | None => None
    end.

End Resolver.

(** The sandbox property of the specification, in its words: the share
    root is a prefix of [p] that ends at a path-segment boundary. *)
Definition segment_prefix (root p : string) : bool :=
  String.eqb p root
  || PyStr.startswith p (if PyStr.endswith root "/" then root else root ++ "/").

(* ------------------------------------------------------------------ *)
(** ** Exceptions, file objects and the connection *)

Inductive exn :=
| ValueError          (* I/O operation on closed file; int() of a non-number *)
| AttributeError      (* a method missing on a JSON value of another type *)
| TypeError
| JSONDecodeError
| FileNotFoundError
| IsADirectoryError
| BrokenPipeError
| ConnectionResetError
| OSError (errno : Z).

Inductive exc (A : Type) :=
| Ok (a : A)
| Raise (e : exn).
Arguments Ok {A} a.
Arguments Raise {A} e.

(** What a handler sends on its connection, in order. *)
Inductive out :=
| SendResponse (code : Z)
| SendHeader (keyword value : string)
| EndHeaders
| SendError (code : Z) (message : string)   (* status, headers and error page *)
| Write (data : list Byte.byte).            (* [wfile.write(data)] *)

(** The connection: what was sent, and how many more body bytes the peer
    takes before it closes the connection ([None]: it stays). *)
Record conn := {
  sent : list out;
  peer_takes : option nat
}.

Definition emit (o : out) (c : conn) : conn :=
  {| sent := sent c ++ [o]; peer_takes := peer_takes c |}.

(** [outputfile.write(buf)] *)
Definition wfile_write (buf : list Byte.byte) (c : conn) : exc conn :=
  match peer_takes c with
  | None => Ok (emit (Write buf) c)
  | Some n =>
      if (length buf <=? n)%nat
      then Ok {| sent := sent c ++ [Write buf]; peer_takes := Some (n - length buf)%nat |}
      else Raise BrokenPipeError
  end.

(** An open binary file: its bytes, the position, and whether it was closed. *)
Record fileobj := {
  f_data : list Byte.byte;
  f_pos : nat;
  f_closed : bool
}.

Definition f_open (data : list Byte.byte) : fileobj :=
  {| f_data := data; f_pos := 0; f_closed := false |}.

Definition f_close (f : fileobj) : fileobj :=
  {| f_data := f_data f; f_pos := f_pos f; f_closed := true |}.

(** [f.seek(n)] *)
Definition f_seek (n : Z) (f : fileobj) : exc fileobj :=
  if f_closed f then Raise ValueError
  else Ok {| f_data := f_data f; f_pos := Z.to_nat n; f_closed := false |}.

(** [f.read(n)] *)
Definition f_read (n : Z) (f : fileobj) : exc (list Byte.byte * fileobj) :=
  if f_closed f then Raise ValueError
  else
    let buf := firstn (Z.to_nat n) (skipn (f_pos f) (f_data f)) in
    Ok (buf, {| f_data := f_data f; f_pos := (f_pos f + length buf)%nat; f_closed := false |}).

(** [os.fstat(f.fileno()).st_size] *)
Definition f_size (f : fileobj) : exc Z :=
  if f_closed f then Raise ValueError else Ok (Z.of_nat (length (f_data f))).

(** A positional argument of a logging call. *)
Inductive log_arg :=
| LogText (s : string)
| LogInt (n : Z).

(** [FileShareHandler.log_message(format, *args)]: the first argument is
    passed to [urllib.parse.unquote], which raises [TypeError] on a value
    that is not text; the line itself goes to the standard error stream,
    which the model does not keep.  Without arguments the request path is
    decoded instead.  [send_response] logs through [log_request], whose
    first argument is the request line, a text: it goes on, and the model
    of a status line is the event [SendResponse] alone. *)
Definition log_message (args : list log_arg) : exc unit :=
  match args with
  | LogInt _ :: _ => Raise TypeError
  | _ => Ok tt
  end.

(** The inherited [send_error(code, message)] on a connection: it starts
    with [log_error("code %d, message %s", code, message)], which is
    [log_message] with the integer code as first argument; the status
    line, the headers and the error page come after it. *)
Definition send_error_on (code : Z) (message : string) (c : conn) : exc conn :=
  match log_message [LogInt code; LogText message] with
  | Raise e => Raise e
  | Ok _ => Ok (emit (SendError code message) c)
  end.

(* ------------------------------------------------------------------ *)
(** ** Streaming transfer engine *)

Section Transfer.
Import PyStr.

(** [self.headers.get('Range')], the guessed content type and the
    formatted modification time of the file *)
Variable range_header : option string.
Variable ctype : string.
Variable last_modified : string.

Definition bufsize : Z := 64 * 1024.

(** [range_request(f, fs, ctype)], with [file_size = fs[6]]: the result,
    the file object and the connection *)
Definition range_request (f : fileobj) (file_size : Z) (c : conn)
    : exc unit * fileobj * conn :=
  match range_header with
  | None | Some EmptyString => (Ok tt, f, c)
  | Some h =>
      match Re.match_range h with
      | None =>
          match send_error_on 416 "Requested Range Not Satisfiable" c with
          | Raise e => (Raise e, f, c)
          | Ok c => (Ok tt, f_close f, c)
          end
      | Some (g1, g2) =>
          let start := int_of g1 in
          let end_ := if String.eqb g2 "" then file_size - 1 else int_of g2 in
          if (start >=? file_size) || (end_ >=? file_size) || (start >? end_) then
            match send_error_on 416 "Requested Range Not Satisfiable" c with
            | Raise e => (Raise e, f, c)
            | Ok c => (Ok tt, f_close f, c)
            end
          else
            let length := end_ - start + 1 in
            match f_seek start f with
            | Raise e => (Raise e, f, c)
            | Ok f =>
                let c := emit (SendResponse 206) c in
                let c := emit (SendHeader "Content-type" ctype) c in
                let c := emit (SendHeader "Accept-Ranges" "bytes") c in
                let c := emit (SendHeader "Content-Range"
                                 ("bytes " ++ str_of_Z start ++ "-" ++ str_of_Z end_
                                  ++ "/" ++ str_of_Z file_size)) c in
                let c := emit (SendHeader "Content-Length" (str_of_Z length)) c in
                let c := emit (SendHeader "Last-Modified" last_modified) c in
                (Ok tt, f, emit EndHeaders c)
            end
      end
  end.

(** The loop of [copyfile_range]; every turn moves at least one byte, so
    [length] turns are enough. *)
Fixpoint copy_range_loop (fuel : nat) (length : Z) (source : fileobj) (c : conn)
    : exc unit * fileobj * conn :=
  match fuel with
  | O => (Ok tt, source, c)
  | S fuel' =>
      if length >? 0 then
        let to_read := Z.min bufsize length in
        match f_read to_read source with
        | Raise e => (Raise e, source, c)
        | Ok (buf, source') =>
            match buf with
            | [] => (Ok tt, source', c)
            | _ =>
                match wfile_write buf c with
                | Raise e => (Raise e, source', c)
                | Ok c' => copy_range_loop fuel' (length - Z.of_nat (List.length buf)) source' c'
                end
            end
        end
      else (Ok tt, source, c)
  end.

(** the [except] clauses shared by [copyfile] and [copyfile_range] *)
Definition absorb_disconnect (r : exc unit) : exc unit :=
  match r with
  | Raise ConnectionResetError | Raise BrokenPipeError => Ok tt
  | Raise (OSError errno) =>
      if (errno =? 10054) || (errno =? 32) then Ok tt else Raise (OSError errno)
  | r => r
  end.

(** [copyfile_range(source, outputfile, length)] *)
Definition copyfile_range (length : Z) (source : fileobj) (c : conn)
    : exc unit * fileobj * conn :=
  let '(r, source, c) := copy_range_loop (Z.to_nat length) length source c in
  (absorb_disconnect r, source, c).

(** [shutil.copyfileobj], the body of the inherited [copyfile] *)
Fixpoint copyfileobj (fuel : nat) (source : fileobj) (c : conn)
    : exc unit * fileobj * conn :=
  match fuel with
  | O => (Ok tt, source, c)
  | S fuel' =>
      match f_read bufsize source with
      | Raise e => (Raise e, source, c)
      | Ok (buf, source') =>
          match buf with
          | [] => (Ok tt, source', c)
          | _ =>
              match wfile_write buf c with
              | Raise e => (Raise e, source', c)
              | Ok c' => copyfileobj fuel' source' c'
              end
          end
      end
  end.

(** [copyfile(source, outputfile)] *)
Definition copyfile (source : fileobj) (c : conn) : exc unit * fileobj * conn :=
  let plain :=
    let '(r, source', c') :=
      copyfileobj (S (List.length (f_data source) - f_pos source)) source c in
    (absorb_disconnect r, source', c') in
  match range_header with
  | Some h =>
      match Re.match_range h with
      | Some (g1, g2) =>
          let start := int_of g1 in
          let end_ := if String.eqb g2 "" then
                        match f_size source with
                        | Ok size => Ok (size - 1)
                        | Raise e => Raise e
                        end
                      else Ok (int_of g2) in
          match end_ with
          | Raise e => (Raise e, source, c)
          | Ok end_ => copyfile_range (end_ - start + 1) source c
          end
      | None => plain
      end
  | None => plain
  end.

(** [send_head] from [open(path, 'rb')] on, for a path that resolved to
    a regular file with the bytes [data]; an exception closes the file
    and is raised again *)
Definition send_head_file (data : list Byte.byte) (c : conn)
    : exc unit * fileobj * conn :=
  let f := f_open data in
  let file_size := Z.of_nat (List.length data) in
  match range_header with
  | Some _ =>
      match range_request f file_size c with
      | (Raise e, f, c) => (Raise e, f_close f, c)
      | r => r
      end
  | None =>
      let c := emit (SendResponse 200) c in
      let c := emit (SendHeader "Content-type" ctype) c in
      let c := emit (SendHeader "Content-Length" (str_of_Z file_size)) c in
      let c := emit (SendHeader "Last-Modified" last_modified) c in
      (Ok tt, f, emit EndHeaders c)
  end.

(** The inherited [do_GET] on such a path: [send_head], then [copyfile]
    and [f.close()]; an exception of [send_head] ends the handler. *)
Definition do_GET_file (data : list Byte.byte) (c : conn) : exc unit * conn :=
  match send_head_file data c with
  | (Raise e, _, c) => (Raise e, c)
  | (Ok _, f, c) =>
      let '(r, _, c) := copyfile f c in
      (r, c)
  end.

End Transfer.

(** the file bytes a handler wrote, and the status codes it sent *)
Fixpoint body_of (o : list out) : list Byte.byte :=
  match o with
  | [] => []
  | Write d :: o' => d ++ body_of o'
  | _ :: o' => body_of o'
  end.

Fixpoint statuses_of (o : list out) : list Z :=
  match o with
  | [] => []
  | SendResponse n :: o' => n :: statuses_of o'
  | SendError n _ :: o' => n :: statuses_of o'
  | _ :: o' => statuses_of o'
  end.

Fixpoint headers_of (o : list out) : list (string * string) :=
  match o with
  | [] => []
  | SendHeader k v :: o' => (k, v) :: headers_of o'
  | _ :: o' => headers_of o'
  end.

Definition fresh_conn : conn := {| sent := []; peer_takes := None |}.

(* ------------------------------------------------------------------ *)
(** ** The file system *)

Inductive node :=
| File (content : string)
| Dir.

(** The key of a path: an absolute path is normalised, a name relative to
    the working directory is kept. *)
Definition fs_key (p : string) : string :=
  if PosixPath.isabs p then PosixPath.normpath p else p.

Section FileSystem.
Variable fs : gmap string node.

(** [os.path.exists(p)] *)
Definition os_path_exists (p : string) : bool :=
  match fs !! fs_key p with
  | Some _ => true
  | None => false
  end.

(** [os.path.isdir(p)] *)
Definition os_path_isdir (p : string) : bool :=
  match fs !! fs_key p with
  | Some Dir => true
  | _ => false
  end.

(** [os.listdir('.')]: the names in the working directory, in the
    order the system gives them *)
Definition os_listdir_cwd : list string :=
  filter (fun k => PyStr.contains k "/" = false) (elements (dom fs)).

(** [open(p, 'r').read()] *)
Definition read_text (p : string) : exc string :=
  match fs !! fs_key p with
  | Some (File content) => Ok content
  | Some Dir => Raise IsADirectoryError
  | None => Raise FileNotFoundError
  end.

(** [open(p, 'w')]: the file is created or emptied; the directory that
    holds an absolute path has to exist. *)
Definition open_w (p : string) : exc (gmap string node) :=
  let k := fs_key p in
  match fs !! k with
  | Some Dir => Raise IsADirectoryError
  | _ =>
      if PosixPath.isabs k then
        match fs !! PosixPath.dirname k with
        | Some Dir => Ok (<[k := File ""]> fs)
        | Some (File _) => Raise (OSError 20)
        | None => Raise FileNotFoundError
        end
      else Ok (<[k := File ""]> fs)
  end.

(** [os.remove(p)] *)
Definition os_remove (p : string) : exc (gmap string node) :=
  match fs !! fs_key p with
  | Some (File _) => Ok (delete (fs_key p) fs)
  | Some Dir => Raise IsADirectoryError
  | None => Raise FileNotFoundError
  end.

End FileSystem.

(** [with open(p, 'w') as f: f.write(content)] *)
Definition write_text (fs : gmap string node) (p content : string) : exc (gmap string node) :=
  match open_w fs p with
  | Ok fs' => Ok (<[fs_key p := File content]> fs')
  | Raise e => Raise e
  end.

(* ------------------------------------------------------------------ *)
(** ** Listing renderer *)

Module Html.
Import PyStr.

(** [html.escape(s)], with [quote=True] *)
Fixpoint escape (s : string) : string :=
  match s with
  | EmptyString => EmptyString
  | String c s' =>
      (if Ascii.eqb c "&" then "&amp;"
       else if Ascii.eqb c "<" then "&lt;"
       else if Ascii.eqb c ">" then "&gt;"
       else if Ascii.eqb c (ascii_of_nat 34) then "&quot;"
       else if Ascii.eqb c "'" then "&#x27;"
       else String c EmptyString) ++ escape s'
  end.

(** the characters that [escape] replaces *)
Definition is_markup (c : ascii) : bool :=
  Ascii.eqb c "<" || Ascii.eqb c ">" || Ascii.eqb c (ascii_of_nat 34) || Ascii.eqb c "'".

(** [s.replace(c, rep)] for a one-character [c] *)
Fixpoint replace_char (c : ascii) (rep : string) (s : string) : string :=
  match s with
  | EmptyString => EmptyString
  | String a s' =>
      (if Ascii.eqb a c then rep else String a EmptyString) ++ replace_char c rep s'
  end.

Definition hex_digit (n : nat) : ascii :=
  if (n <? 10)%nat then ascii_of_nat (48 + n) else ascii_of_nat (55 + n).

Definition always_safe (c : ascii) : bool :=
  let n := nat_of_ascii c in
  (((65 <=? n) && (n <=? 90)) || ((97 <=? n) && (n <=? 122))
   || ((48 <=? n) && (n <=? 57)))%nat
  || Ascii.eqb c "_" || Ascii.eqb c "." || Ascii.eqb c "-" || Ascii.eqb c "~".

(** [urllib.parse.quote(s, safe='/')] *)
Fixpoint quote (s : string) : string :=
  match s with
  | EmptyString => EmptyString
  | String c s' =>
      if always_safe c || Ascii.eqb c "/" then String c (quote s')
      else
        let n := nat_of_ascii c in
        String "%" (String (hex_digit (n / 16)) (String (hex_digit (n mod 16)) (quote s')))
  end.

(** [os.path.splitext(name)[1]]: from the last dot of the base name on,
    when a character other than a dot comes before that dot *)
Definition splitext_ext (p : string) : string :=
  let parts := split "." (PosixPath.basename p) in
  match last parts with
  | Some e =>
      let stem := String.concat "." (removelast parts) in
      if (2 <=? length parts)%nat
         && negb (forallb (Ascii.eqb ".") (list_ascii_of_string stem))
      then "." ++ e
      else ""
  | None => ""
  end.

End Html.

Definition PREVIEW_EXTENSIONS : list string :=
  [ ".txt"; ".log"; ".py"; ".js"; ".css"; ".html"; ".htm"; ".json"; ".xml"; ".md";
    ".ini"; ".cfg"; ".yml"; ".yaml";
    ".png"; ".jpg"; ".jpeg"; ".gif"; ".bmp"; ".webp"; ".svg";
    ".mp3"; ".wav"; ".ogg"; ".aac";
    ".mp4"; ".webm"; ".mov"; ".avi"; ".mkv"; ".flv" ].

Section Views.
Import PyStr.

Variable shared_dirs : list string.
Variable fs : gmap string node.

(** *** The root view: the loop of [list_shared_dirs] over the shares *)

Definition share_card (i : nat) (dir_path : string) : list string :=
  let dir_name :=
    if String.eqb (PosixPath.basename dir_path) "" then dir_path
    else PosixPath.basename dir_path in
  let display_path :=
    if (50 <? len dir_path)%nat
    then "..." ++ drop_chars (len dir_path - 47) dir_path
    else dir_path in
  [ "<a href=" ++ dq ++ "/share" ++ str_of_Z (Z.of_nat i) ++ "/" ++ dq
      ++ " class=" ++ dq ++ "dir-item" ++ dq ++ ">";
    "<div class=" ++ dq ++ "folder-icon" ++ dq ++ "></div>";
    "<div class=" ++ dq ++ "dir-info" ++ dq ++ ">";
    "<div class=" ++ dq ++ "dir-name" ++ dq ++ ">" ++ dir_name ++ "</div>";
    "<div class=" ++ dq ++ "dir-path" ++ dq ++ ">" ++ display_path ++ "</div>";
    "</div>";
    "<div class=" ++ dq ++ "arrow" ++ dq ++ ">→</div>";
    "</a>" ].

Fixpoint share_cards_from (i : nat) (dirs : list string) : list string :=
  match dirs with
  | [] => []
  | dir_path :: rest => share_card i dir_path ++ share_cards_from (S i) rest
  end.

(** [for i, dir_path in enumerate(shared_dirs, 1): ...] *)
Definition list_shared_dirs_cards : list string := share_cards_from 1 shared_dirs.

(** *** The directory view *)

(** the sort key of [list_directory] *)
Definition sort_key (path a : string) : bool * string :=
  (negb (os_path_isdir fs (PosixPath.join path a)), lower a).

(** [<] on the key tuples *)
Definition key_lt (k1 k2 : bool * string) : bool :=
  match fst k1, fst k2 with
  | false, true => true
  | true, false => false
  | _, _ => String.ltb (snd k1) (snd k2)
  end.

(** [names.sort(key=...)]: a stable sort, here by insertion; an element
    goes before the first one whose key is not smaller than its own. *)
Fixpoint sort_insert (path a : string) (sorted : list string) : list string :=
  match sorted with
  | [] => [a]
  | b :: rest =>
      if key_lt (sort_key path b) (sort_key path a)
      then b :: sort_insert path a rest
      else a :: b :: rest
  end.

Fixpoint sort_names (path : string) (names : list string) : list string :=
  match names with
  | [] => []
  | a :: rest => sort_insert path a (sort_names path rest)
  end.

(** the body of the loop [for name in names] *)
Definition entry_line (path name : string) : string :=
  let fullname := PosixPath.join path name in
  let is_dir := os_path_isdir fs fullname in
  let display_name := if is_dir then name ++ "/" else name in
  let linkname := if is_dir then name ++ "/" else name in
  let quoted_link := Html.quote linkname in
  let ext := lower (Html.splitext_ext name) in
  let escaped_display_name := Html.escape display_name in
  if is_dir then
    "<li><a href=" ++ dq ++ quoted_link ++ dq ++ ">" ++ escaped_display_name ++ "</a></li>"
  else if bool_decide (ext ∈ PREVIEW_EXTENSIONS) then
    "<li><a href=" ++ dq ++ quoted_link ++ dq ++ ">" ++ escaped_display_name ++ "</a></li>"
  else
    let js_escaped :=
      Html.replace_char (ascii_of_nat 34) (bs ++ dq)
        (Html.replace_char "'" (bs ++ "'") escaped_display_name) in
    "<li><a href=" ++ dq ++ quoted_link ++ dq
      ++ " onclick=" ++ dq ++ "return confirmDownload('" ++ js_escaped ++ "')" ++ dq ++ ">"
      ++ escaped_display_name ++ "</a></li>".

(** the path shown in the heading, and the share index as text *)
Definition display_of (current_url : string) : string * string :=
  match Re.match_share current_url with
  | Some (share_index, g2) =>
      let rel_path := Url.unquote g2 in
      (if String.eqb rel_path "" then "share" ++ share_index ++ "/"
       else "share" ++ share_index ++ "/" ++ rel_path,
       share_index)
  | None => (Url.unquote current_url, "1")
  end.

(** [list_directory(path)] for the request path [current_url], from the
    sort to the end of the file list; [names] is what [os.listdir(path)]
    returned. *)
Definition list_directory_listing (path current_url : string) (names : list string)
    : list string :=
  let names := sort_names path names in
  let (displaypath, share_index) := display_of current_url in
  [ "<div class=" ++ dq ++ "file-list" ++ dq ++ ">";
    "<h2>目录：" ++ displaypath ++ "</h2>";
    "<ul>" ]
  ++ (if String.eqb displaypath ("share" ++ share_index ++ "/") then []
      else ["<li><a href=" ++ dq ++ "../" ++ dq ++ ">../</a></li>"])
  ++ map (entry_line path) names
  ++ [ "</ul>"; "</div>" ].

End Views.

(* ------------------------------------------------------------------ *)
(** ** The process state and a monad for code that changes it *)

(** The globals and the outside world that the server code touches. *)
Record world := {
  w_fs : gmap string node;          (* the file system *)
  w_shutdown_status : string;       (* the global [shutdown_status] *)
  w_cmds : list (list string);      (* argument lists given to [subprocess.run] *)
  w_stdout : list string            (* lines written by [print] *)
}.

(** A computation on a state [S] that returns or raises; what it did
    before raising stays done. *)
Definition M (S A : Type) : Type := S -> exc A * S.

Definition ret {S A} (a : A) : M S A := fun s => (Ok a, s).

Definition bind {S A B} (m : M S A) (k : A -> M S B) : M S B :=
  fun s =>
    match m s with
    | (Ok a, s') => k a s'
    | (Raise e, s') => (Raise e, s')
    end.

Definition raise {S A} (e : exn) : M S A := fun s => (Raise e, s).

(** [try: m  except Exception as e: h e] *)
Definition try_except {S A} (m : M S A) (h : exn -> M S A) : M S A :=
  fun s =>
    match m s with
    | (Ok a, s') => (Ok a, s')
    | (Raise e, s') => h e s'
    end.

(** the notations [x ← m; k] and [m ;; k] of stdpp *)
Global Instance M_ret {S} : MRet (M S) := fun A a => ret a.
Global Instance M_bind {S} : MBind (M S) := fun A B k m => bind m k.

(** a result computed outside the state *)
Definition lift_exc {S A} (r : exc A) : M S A :=
  match r with
  | Ok a => ret a
  | Raise e => raise e
  end.

(** *** Operations on the world *)

Definition set_fs (fs : gmap string node) (w : world) : world :=
  {| w_fs := fs; w_shutdown_status := w_shutdown_status w;
     w_cmds := w_cmds w; w_stdout := w_stdout w |}.

(** [print(line)] *)
Definition print (line : string) : M world unit :=
  fun w => (Ok tt, {| w_fs := w_fs w; w_shutdown_status := w_shutdown_status w;
                      w_cmds := w_cmds w; w_stdout := w_stdout w ++ [line] |}).

Definition set_status (s : string) : M world unit :=
  fun w => (Ok tt, {| w_fs := w_fs w; w_shutdown_status := s;
                      w_cmds := w_cmds w; w_stdout := w_stdout w |}).

Definition get_status : M world string := fun w => (Ok (w_shutdown_status w), w).

(** a file operation that yields a new file system *)
Definition fs_update (op : gmap string node -> exc (gmap string node)) : M world unit :=
  fun w =>
    match op (w_fs w) with
    | Ok fs' => (Ok tt, set_fs fs' w)
    | Raise e => (Raise e, w)
    end.

(** a file operation that only looks *)
Definition fs_query {A} (q : gmap string node -> A) : M world A :=
  fun w => (Ok (q (w_fs w)), w).

Definition remove (p : string) : M world unit := fs_update (fun fs => os_remove fs p).

(** [with open(p, 'w') as f: f.write(content)].  Opening creates or
    empties the file; the write raises [TypeError] when the content is
    not text, and the emptied file stays. *)
Definition write_file (p : string) (content : exc string) : M world unit :=
  fs_update (fun fs => open_w fs p) ;;
  text ← lift_exc content;
  fs_update (fun fs => Ok (<[fs_key p := File text]> fs)).

Definition read_file (p : string) : M world string :=
  fun w => (read_text (w_fs w) p, w).

(* ------------------------------------------------------------------ *)
(** ** Control channel: [cancel_shutdown], [schedule_shutdown],
       [shutdown_monitor] *)

Section ControlChannel.
Import PyStr.

(** [sys.platform]; what [subprocess.run] gives for an argument list,
    the return code and the error text, or the exception it raises;
    [str(e)] for an exception *)
Variable platform : string.
Variable run_result : list string -> exc (Z * string).
Variable str_exn : exn -> string.

(** [subprocess.run(argv, capture_output=True, text=True)] *)
Definition subprocess_run (argv : list string) : M world (Z * string) :=
  fun w =>
    (run_result argv,
     {| w_fs := w_fs w; w_shutdown_status := w_shutdown_status w;
        w_cmds := w_cmds w ++ [argv]; w_stdout := w_stdout w |}).

Definition is_unix : bool :=
  String.eqb platform "darwin" || String.eqb platform "linux"
  || String.eqb platform "linux2".

(** the pattern of [glob.glob] in [cancel_shutdown] *)
Definition legacy_prefix : string := "电脑将于".
Definition legacy_suffix : string := "秒后关机.txt".

Definition is_legacy_name (name : string) : bool :=
  startswith name legacy_prefix && endswith name legacy_suffix
  && (String.length legacy_prefix + String.length legacy_suffix <=? String.length name)%nat.

(** the loop over the legacy files *)
Fixpoint remove_legacy (names : list string) : M world unit :=
  match names with
  | [] => ret tt
  | f :: rest =>
      try_except
        (remove f ;; print ("已删除提示文件：" ++ f))
        (fun e => print ("删除提示文件失败 " ++ f ++ ": " ++ str_exn e)) ;;
      remove_legacy rest
  end.

(** [cancel_shutdown()] *)
Definition cancel_shutdown : M world bool :=
  try_except
    ((if String.eqb platform "win32" then
        result ← subprocess_run ["shutdown"; "/a"];
        if fst result =? 0 then print "Windows 关机已取消。"
        else if contains (snd result) "There is no shutdown in progress"
             then print "没有正在进行的关机计划。"
             else print ("取消失败: " ++ snd result)
      else if is_unix then print "Linux/macos: 取消关机（依赖文件信号）"
      else print "不支持的操作系统，无法取消关机。") ;;
     names ← fs_query (fun fs => filter (fun n => is_legacy_name n = true) (os_listdir_cwd fs));
     remove_legacy names ;;
     ret true)
    (fun e => print ("取消关机时出错: " ++ str_exn e) ;; ret false).

(** [schedule_shutdown(seconds)] *)
Definition schedule_shutdown (seconds : Z) : M world bool :=
  try_except
    (if String.eqb platform "win32" then
       result ← subprocess_run ["shutdown"; "/s"; "/t"; str_of_Z seconds];
       if fst result =? 0 then
         print ("Windows 将在 " ++ str_of_Z seconds ++ " 秒后关机") ;; ret true
       else
         print ("Windows 关机失败: " ++ snd result) ;; ret false
     else if is_unix then
       print ("Linux/macos: 计划 " ++ str_of_Z seconds ++ " 秒后关机（需权限）") ;; ret true
     else
       print "不支持的操作系统" ;; ret false)
    (fun e => print ("安排关机失败: " ++ str_exn e) ;; ret false).

(** [is_positive_integer(s)] *)
Definition is_positive_integer (s : string) : bool :=
  isdigit s && (int_of s >? 0).

Definition cancel_file : string := "取消关机.txt".
Definition schedule_file : string := "关机.txt".

(** the first [if] of the loop body: the cancel sentinel *)
Definition monitor_cancel (files : list string) : M world unit :=
  if bool_decide (cancel_file ∈ files) then
    print "检测到 取消关机.txt" ;;
    cancel_shutdown ;;
    try_except
      (remove cancel_file ;; print "已删除 取消关机.txt")
      (fun e => print ("删除 取消关机.txt 失败: " ++ str_exn e))
  else ret tt.

(** the second [if] of the loop body: the schedule sentinel *)
Definition monitor_schedule (files : list string) : M world unit :=
  if bool_decide (schedule_file ∈ files) then
    try_except
      (text ← read_file schedule_file;
       let content := strip text in
       print ("读取到关机指令: '" ++ content ++ "'") ;;
       if is_positive_integer content then
         let seconds := int_of content in
         print ("安排 " ++ str_of_Z seconds ++ " 秒后关机...") ;;
         ok ← schedule_shutdown seconds;
         if ok : bool then
           remove schedule_file ;; print "已删除 关机.txt"
         else print "关机安排失败！"
       else print "内容不是有效的正整数，忽略。")
      (fun e => print ("处理 关机.txt 出错: " ++ str_exn e))
  else ret tt.

(** one turn of the loop of [shutdown_monitor], up to [time.sleep(5)] *)
Definition shutdown_monitor_cycle : M world unit :=
  try_except
    (files ← fs_query os_listdir_cwd;
     monitor_cancel files ;;
     monitor_schedule files)
    (fun e => print ("监控线程异常: " ++ str_exn e)).

(** the world after one turn, and after [n] turns *)
Definition after_cycle (w : world) : world := snd (shutdown_monitor_cycle w).

Definition after_cycles (n : nat) (w : world) : world := Nat.iter n after_cycle w.

End ControlChannel.

(* ------------------------------------------------------------------ *)
(** ** JSON values and the Python operations applied to them *)

#[warnings="-register-all"] Inductive json :=
| JNull
| JBool (b : bool)
| JInt (n : Z)
| JFloat (repr : string)
| JStr (s : string)
| JArr (items : list json)
| JObj (members : list (string * json)).   (* in the order parsed; the last of equal keys counts *)

Module Py.

(** [data.get(key, default)]; only a [dict] has the method *)
Definition dict_get (data : json) (key : string) (default : json) : exc json :=
  match data with
  | JObj members =>
      Ok (fold_left (fun acc kv => if String.eqb (fst kv) key then snd kv else acc)
            members default)
  | _ => Raise AttributeError
  end.

(** [v.strip()]; only a [str] has the method *)
Definition strip (v : json) : exc string :=
  match v with
  | JStr s => Ok (PyStr.strip s)
  | _ => Raise AttributeError
  end.

(** the text that [f.write(v)] accepts *)
Definition text_of (v : json) : exc string :=
  match v with
  | JStr s => Ok s
  | _ => Raise TypeError
  end.

(** for an instance of [int], booleans included, its value and [str(v)] *)
Definition as_int (v : json) : option (Z * string) :=
  match v with
  | JInt n => Some (n, PyStr.str_of_Z n)
  | JBool true => Some (1, "True")
  | JBool false => Some (0, "False")
  | _ => None
  end.

End Py.

(* ------------------------------------------------------------------ *)
(** ** Request dispatcher: the API branches of [do_POST], and the mailbox *)

(** A handler works on its connection and on the world. *)
Definition on_world {A} (m : M world A) : M (conn * world) A :=
  fun s =>
    let (r, w') := m (snd s) in (r, (fst s, w')).

Definition send (o : out) : M (conn * world) unit :=
  fun s => (Ok tt, (emit o (fst s), snd s)).

(** [self.send_error(code, message)] in a handler *)
Definition send_error (code : Z) (message : string) : M (conn * world) unit :=
  fun s =>
    match send_error_on code message (fst s) with
    | Raise e => (Raise e, s)
    | Ok c => (Ok tt, (c, snd s))
    end.

(** [self.wfile.write(data)] *)
Definition wfile_write_h (data : list Byte.byte) : M (conn * world) unit :=
  fun s =>
    match wfile_write data (fst s) with
    | Ok c' => (Ok tt, (c', snd s))
    | Raise e => (Raise e, s)
    end.

Definition mailbox_to_mobile : string := "text_message.json".
Definition mailbox_to_server : string := "mobile_text_message.json".

Section Api.
Import PyStr.

(** [os.getcwd()], the global [shared_dirs], [str(e)], [json.dumps] and
    [json.load], [time.time()] and [get_local_ip()] *)
Variable cwd : string.
Variable shared_dirs : list string.
Variable str_exn : exn -> string.
Variable json_dumps : json -> string.
Variable json_loads : string -> exc json.
Variable now : json.
Variable local_ip : string.

(** [send_response(code)], the JSON content type, [end_headers()] and
    the body *)
Definition reply_json (code : Z) (body : json) : M (conn * world) unit :=
  send (SendResponse code) ;;
  send (SendHeader "Content-type" "application/json") ;;
  send EndHeaders ;;
  wfile_write_h (list_byte_of_string (json_dumps body)).

Definition success : json := JObj [("status", JStr "success")].

(** *** Mailbox *)

(** [FolderShareWindow.save_text_message(text, sender_type)], the
    send-text action of the desktop window *)
Definition save_text_message (text sender_type : string) : M world unit :=
  try_except
    (write_file mailbox_to_mobile
       (Ok (json_dumps (JObj [("text", JStr text); ("sender_type", JStr sender_type);
                              ("timestamp", now); ("sender_ip", JStr local_ip)]))) ;;
     print ("文本消息已保存到文件: " ++ str_of_Z (Z.of_nat (len text)) ++ " 字符"))
    (fun e => print ("保存文本消息失败: " ++ str_exn e)).

(** [FolderShareWindow.check_messages()], the poll of the desktop
    window; it returns the message it shows, if any *)
Definition check_messages : M world (option json) :=
  try_except
    (present ← fs_query (fun fs => os_path_exists fs mailbox_to_server);
     if present : bool then
       content ← read_file mailbox_to_server;
       message_data ← lift_exc (json_loads content);
       remove mailbox_to_server ;;
       ret (Some message_data)
     else ret None)
    (fun e => ret None).

(** [/api/send_text] *)
Definition api_send_text (parsed : exc json) (client_ip : string) : M (conn * world) unit :=
  try_except
    (data ← lift_exc parsed;
     v ← lift_exc (Py.dict_get data "text" (JStr ""));
     text ← lift_exc (Py.strip v);
     if String.eqb text "" then send_error 400 "文本内容不能为空"
     else
       on_world (write_file mailbox_to_server
         (Ok (json_dumps (JObj [("text", JStr text); ("sender_ip", JStr client_ip);
                                ("timestamp", now); ("sender_type", JStr "mobile")])))) ;;
       on_world (print ("收到来自 " ++ client_ip ++ " 的文本消息: "
                        ++ take_chars 50 text ++ "...")) ;;
       reply_json 200 success)
    (fun e => send_error 500 (str_exn e)).

(** [/api/check_message] *)
Definition api_check_message : M (conn * world) unit :=
  try_except
    (present ← on_world (fs_query (fun fs => os_path_exists fs mailbox_to_mobile));
     response ←
       (if present : bool then
          content ← on_world (read_file mailbox_to_mobile);
          message_data ← lift_exc (json_loads content);
          text ← lift_exc (Py.dict_get message_data "text" (JStr ""));
          sender_ip ← lift_exc (Py.dict_get message_data "sender_ip" (JStr "未知IP"));
          ret (JObj [("has_message", JBool true); ("text", text); ("sender_ip", sender_ip)])
        else ret (JObj [("has_message", JBool false)]));
     reply_json 200 response)
    (fun e => send_error 500 (str_exn e)).

(** [/api/confirm_message] *)
Definition api_confirm_message : M (conn * world) unit :=
  try_except
    (present ← on_world (fs_query (fun fs => os_path_exists fs mailbox_to_mobile));
     (if present : bool then
        on_world (remove mailbox_to_mobile) ;;
        on_world (print "文本消息已确认接收")
      else ret tt) ;;
     reply_json 200 success)
    (fun e => send_error 500 (str_exn e)).

(** *** Shutdown *)

(** [/api/shutdown] *)
Definition api_shutdown (parsed : exc json) : M (conn * world) unit :=
  try_except
    (data ← lift_exc parsed;
     seconds ← lift_exc (Py.dict_get data "seconds" JNull);
     match Py.as_int seconds with
     | None => send_error 400 "秒数必须是正整数"
     | Some (n, text) =>
         if n <=? 0 then send_error 400 "秒数必须是正整数"
         else
           on_world (write_file schedule_file (Ok text)) ;;
           on_world (set_status ("电脑端将于" ++ text ++ "秒后关机")) ;;
           reply_json 200 success
     end)
    (fun e => send_error 500 (str_exn e)).

(** [/api/cancel_shutdown] *)
Definition api_cancel_shutdown : M (conn * world) unit :=
  try_except
    (on_world (write_file cancel_file (Ok "")) ;;
     on_world (set_status "电脑端已取消关机") ;;
     reply_json 200 success)
    (fun e => send_error 500 (str_exn e)).

(** [/api/shutdown_status] *)
Definition api_shutdown_status : M (conn * world) unit :=
  status ← on_world get_status;
  reply_json 200 (JObj [("status", JStr status)]).

(** *** Files *)

(** The target of [create_file], [create_dir] and [upload], written out
    in each of the three branches: the directory named by the [Referer]
    header, or the first share.  [inr] carries the message given to
    [send_error(400, ...)]. *)
Definition target_path (fs : gmap string node) (referer name : string) : string + string :=
  match Re.match_referer referer with
  | Some current_path =>
      match translate_path cwd shared_dirs current_path with
      | Some path =>
          if negb (String.eqb path "") && os_path_isdir fs path
          then inl (PosixPath.join path name)
          else inr "Invalid current directory"
      | None => inr "Invalid current directory"
      end
  | None =>
      match shared_dirs with
      | first :: _ => inl (PosixPath.join first name)
      | [] => inr "No shared directories available"
      end
  end.

(** the two tests on the file name *)
Definition bad_extension (filename : string) : bool := negb (endswith filename ".txt").

Definition bad_name (filename : string) : bool :=
  contains filename ".." || contains filename "/" || contains filename bs.

(** [/api/create_file]; [referer] is [self.headers.get('Referer', '')] *)
Definition api_create_file (parsed : exc json) (referer : string) : M (conn * world) unit :=
  try_except
    (data ← lift_exc parsed;
     v ← lift_exc (Py.dict_get data "filename" (JStr ""));
     filename ← lift_exc (Py.strip v);
     content ← lift_exc (Py.dict_get data "content" (JStr ""));
     if bad_extension filename then send_error 400 "Only .txt files are allowed."
     else if bad_name filename then send_error 400 "Invalid filename."
     else
       target ← on_world (fs_query (fun fs => target_path fs referer filename));
       match target with
       | inr message => send_error 400 message
       | inl filepath =>
           present ← on_world (fs_query (fun fs => os_path_exists fs filepath));
           if present : bool then send_error 409 "File already exists."
           else
             on_world (write_file filepath (Py.text_of content)) ;;
             reply_json 201 success
       end)
    (fun e => send_error 500 (str_exn e)).

End Api.

(* ------------------------------------------------------------------ *)
(** ** Vocabulary of the statements *)

(** every character is a digit (the empty string included) *)
Definition all_digits (s : string) : bool :=
  forallb PyStr.is_digit (list_ascii_of_string s).

(** every character is ASCII *)
Definition ascii_text (s : string) : bool :=
  forallb (fun c => (nat_of_ascii c <? 128)%nat) (list_ascii_of_string s).

(** Recent interpreters make [int] raise [ValueError] on a text of more
    than 4300 digits; a text within the limit is converted. *)
Definition int_max_str_digits : nat := 4300.

Definition within_int_limit (s : string) : bool :=
  (String.length s <=? int_max_str_digits)%nat.

(** a continuation byte of UTF-8 *)
Definition utf8_cont (c : ascii) : bool :=
  let n := nat_of_ascii c in ((128 <=? n) && (n <=? 191))%nat.

(** the bytes are well-formed UTF-8: the text of a Python [str] *)
Fixpoint utf8_text (s : string) : bool :=
  match s with
  | EmptyString => true
  | String a s1 =>
      let n := nat_of_ascii a in
      if (n <? 128)%nat then utf8_text s1
      else
        match s1 with
        | EmptyString => false
        | String b s2 =>
            let m := nat_of_ascii b in
            if ((194 <=? n) && (n <=? 223))%nat then utf8_cont b && utf8_text s2
            else
              match s2 with
              | EmptyString => false
              | String c s3 =>
                  if ((224 <=? n) && (n <=? 239))%nat then
                    (if (n =? 224)%nat then ((160 <=? m) && (m <=? 191))%nat
                     else if (n =? 237)%nat then ((128 <=? m) && (m <=? 159))%nat
                     else utf8_cont b)
                    && utf8_cont c && utf8_text s3
                  else
                    match s3 with
                    | EmptyString => false
                    | String d s4 =>
                        ((240 <=? n) && (n <=? 244))%nat
                        && (if (n =? 240)%nat then ((144 <=? m) && (m <=? 191))%nat
                            else if (n =? 244)%nat then ((128 <=? m) && (m <=? 143))%nat
                            else utf8_cont b)
                        && utf8_cont c && utf8_cont d && utf8_text s4
                    end
              end
        end
  end.

(** A request path or [Referer] value that the code decodes as the model
    does: it is written in ASCII (the request line and the headers are
    read as latin-1), its escapes decode to well-formed UTF-8 (on other
    bytes [unquote] raises [UnicodeDecodeError]), and it is short enough
    for [int] to convert any run of digits in it. *)
Definition well_formed_url (s : string) : bool :=
  ascii_text s && utf8_text (Url.unquote s) && within_int_limit s.

(** [r] does not go on with a digit *)
Definition no_digit_ahead (r : string) : Prop :=
  match r with
  | EmptyString => True
  | String c _ => PyStr.is_digit c = false
  end.

(** an open file at a position *)
Definition open_at (data : list Byte.byte) (pos : nat) : fileobj :=
  {| f_data := data; f_pos := pos; f_closed := false |}.

(** the status line and headers of a partial-content response *)
Definition head_206 (ctype last_modified : string) (start end_ file_size : Z) : list out :=
  [ SendResponse 206;
    SendHeader "Content-type" ctype;
    SendHeader "Accept-Ranges" "bytes";
    SendHeader "Content-Range"
      ("bytes " ++ PyStr.str_of_Z start ++ "-" ++ PyStr.str_of_Z end_
       ++ "/" ++ PyStr.str_of_Z file_size);
    SendHeader "Content-Length" (PyStr.str_of_Z (end_ - start + 1));
    SendHeader "Last-Modified" last_modified;
    EndHeaders ].

(** the bytes of [data] from offset [start] to offset [end_], both included *)
Definition byte_range (data : list Byte.byte) (start end_ : Z) : list Byte.byte :=
  firstn (Z.to_nat (end_ - start + 1)) (skipn (Z.to_nat start) data).

(** the test of [range_request] that leads to [send_error(416, ...)] *)
Definition bad_range (start end_ size : Z) : bool :=
  (start >=? size) || (end_ >=? size) || (start >? end_).

(** the connection after a 206 response that carried [chunks] *)
Definition partial_content (c : conn) (ctype last_modified : string)
    (start end_ size : Z) (chunks : list (list Byte.byte)) : conn :=
  {| sent := sent c ++ head_206 ctype last_modified start end_ size ++ map Write chunks;
     peer_takes := None |}.








(** the lines of the file list that come before the entries *)
Definition listing_head (current_url : string) : list string :=
  let (displaypath, share_index) := display_of current_url in
  [ "<div class=" ++ PyStr.dq ++ "file-list" ++ PyStr.dq ++ ">";
    "<h2>目录：" ++ displaypath ++ "</h2>";
    "<ul>" ]
  ++ (if String.eqb displaypath ("share" ++ share_index ++ "/") then []
      else ["<li><a href=" ++ PyStr.dq ++ "../" ++ PyStr.dq ++ ">../</a></li>"]).

(** whether [schedule_shutdown(seconds)] reports success, and the
    commands it runs *)
Definition schedule_reports_success (platform : string)
    (run_result : list string -> exc (Z * string)) (seconds : Z) : bool :=
  if String.eqb platform "win32" then
    match run_result ["shutdown"; "/s"; "/t"; PyStr.str_of_Z seconds] with
    | Ok (returncode, _) => returncode =? 0
    | Raise _ => false
    end
  else is_unix platform.

Definition schedule_commands (platform : string) (seconds : Z) : list (list string) :=
  if String.eqb platform "win32"
  then [["shutdown"; "/s"; "/t"; PyStr.str_of_Z seconds]]
  else [].

(** a computation takes every world to one related to it by [R] *)
Definition preserves {A} (R : world -> world -> Prop) (m : M world A) : Prop :=
  forall w, R w (snd (m w)).

(** the schedule sentinel is as it was *)
Definition same_sentinel (w w' : world) : Prop :=
  w_fs w' !! schedule_file = w_fs w !! schedule_file.

(** the only commands run in between are cancellations *)
Definition only_cancelled (w w' : world) : Prop :=
  forall argv, argv ∈ w_cmds w' -> argv ∈ w_cmds w \/ argv = ["shutdown"; "/a"].

Definition keeps_sentinel {A} (m : M world A) : Prop := preserves same_sentinel m.

(** a computation does not raise *)
Definition never_raises {A} (m : M world A) : Prop :=
  forall w, exists a, fst (m w) = Ok a.

(** worlds for the examples: a working directory that holds the schedule
    sentinel with the text [text] *)
Definition world_with_sentinel (text : string) : world :=
  {| w_fs := <[schedule_file := File text]> ∅; w_shutdown_status := "";
     w_cmds := []; w_stdout := [] |}.

Definition run_ok (argv : list string) : exc (Z * string) := Ok (0, "").
Definition run_denied (argv : list string) : exc (Z * string) := Ok (5, "Access is denied.").
Definition exn_name (e : exn) : string := "error".

(** [open(p, 'w')] succeeds: [p] is not a directory and the directory
    that is to hold it exists *)
Definition can_create (fs : gmap string node) (p : string) : bool :=
  match open_w fs p with
  | Ok _ => true
  | Raise _ => false
  end.

(** a name fails one of the two tests of [create_file] *)
Definition invalid_filename (filename : string) : bool :=
  bad_extension filename || bad_name filename.

(** the world of the examples before anything happened *)
Definition empty_world : world :=
  {| w_fs := ∅; w_shutdown_status := ""; w_cmds := []; w_stdout := [] |}.

(** a compact printer of JSON values for the examples; strings are not
    escaped *)
Fixpoint sample_dumps (j : json) : string :=
  match j with
  | JNull => "null"
  | JBool true => "true"
  | JBool false => "false"
  | JInt n => PyStr.str_of_Z n
  | JFloat repr => repr
  | JStr s => PyStr.dq ++ s ++ PyStr.dq
  | JArr items => "[" ++ String.concat ", " (map sample_dumps items) ++ "]"
  | JObj members =>
      "{" ++ String.concat ", "
               (map (fun kv => let '(k, v) := kv in
                               PyStr.dq ++ k ++ PyStr.dq ++ ": " ++ sample_dumps v)
                    members)
          ++ "}"
  end.

Definition sample_now : json := JFloat "1700000000.5".

(** what a handler answered: the status codes it sent on a connection *)
Definition codes {A} (r : exc A * (conn * world)) : list Z :=
  statuses_of (sent (fst (snd r))).

Definition world_of {A} (r : exc A * (conn * world)) : world := snd (snd r).

(** a small tree for the examples: a share [/srv/pub] with two
    directories and three files *)
Definition sample_tree : gmap string node :=
  <["/srv" := Dir]> (<["/srv/pub" := Dir]> (<["/srv/pub/music" := Dir]>
  (<["/srv/pub/Books" := Dir]> (<["/srv/pub/b.txt" := File "b"]>
  (<["/srv/pub/A.bin" := File "a"]> (<["/srv/pub/<i>c.txt" := File "c"]> ∅)))))).

Definition sample_world : world :=
  {| w_fs := sample_tree; w_shutdown_status := ""; w_cmds := []; w_stdout := [] |}.

Definition sample_notes : json :=
  JObj [("filename", JStr "notes.txt"); ("content", JStr "hi")].

(** a forty-byte file for the examples *)
Definition sample40 : list Byte.byte :=
  list_byte_of_string "0123456789abcdefghijklmnopqrstuvwxyzABCD".

(* ------------------------------------------------------------------ *)
(** ** Request dispatcher: [create_dir], [upload] and [do_POST] *)

(** [os.path.split(p)] *)
Definition os_path_split (p : string) : string * string :=
  (PosixPath.dirname p, PosixPath.basename p).

(** [os.mkdir(p)]; [OSError 17] is [FileExistsError], [OSError 20] is
    [NotADirectoryError] *)
Definition os_mkdir (fs : gmap string node) (p : string) : exc (gmap string node) :=
  let k := fs_key p in
  match fs !! k with
  | Some _ => Raise (OSError 17)
  | None =>
      if PosixPath.isabs k then
        match fs !! PosixPath.dirname k with
        | Some Dir => Ok (<[k := Dir]> fs)
        | Some (File _) => Raise (OSError 20)
        | None => Raise FileNotFoundError
        end
      else Ok (<[k := Dir]> fs)
  end.

Definition mkdir (p : string) : M world unit := fs_update (fun fs => os_mkdir fs p).

(** [os.makedirs(name)], with [exist_ok] false.  The recursion is on the
    head of the name, which is shorter; the fuel counts the calls. *)
Fixpoint makedirs (fuel : nat) (name : string) : M world unit :=
  match fuel with
  | O => raise (OSError 0)
  | S fuel' =>
      let (head0, tail0) := os_path_split name in
      let (head, tail) := if String.eqb tail0 "" then os_path_split head0 else (head0, tail0) in
      missing ← fs_query (fun fs => negb (String.eqb head "") && negb (String.eqb tail "")
                                     && negb (os_path_exists fs head));
      if missing : bool then
        try_except (makedirs fuel' head)
          (fun e => match e with
                    | OSError errno => if errno =? 17 then ret tt else raise e
                    | _ => raise e
                    end) ;;
        if String.eqb tail "." then ret tt else mkdir name
      else mkdir name
  end.

Definition os_makedirs (name : string) : M world unit :=
  makedirs (S (String.length name)) name.

(** a value of a form field: [parse_multipart] gives text for a plain
    field and bytes for a field sent as a file *)
Inductive form_value :=
| FText (s : string)
| FBytes (b : list Byte.byte).

(** whitespace removed by [bytes.strip()] *)
Definition byte_is_space (b : Byte.byte) : bool :=
  let n := Byte.to_nat b in ((9 <=? n) && (n <=? 13) || (n =? 32))%nat.

(** [not v.strip()] for a field value *)
Definition blank_value (v : form_value) : bool :=
  match v with
  | FText s => String.eqb (PyStr.strip s) ""
  | FBytes b => forallb byte_is_space b
  end.

(** the stripped text of a field value; the string tests that follow
    raise [TypeError] on bytes *)
Definition text_value (v : form_value) : exc string :=
  match v with
  | FText s => Ok (PyStr.strip s)
  | FBytes _ => Raise TypeError
  end.

(** what [f.write(v)] accepts on a file opened in binary mode *)
Definition bytes_value (v : form_value) : exc string :=
  match v with
  | FBytes b => Ok (string_of_list_byte b)
  | FText _ => Raise TypeError
  end.

(** A request as the handler sees it. *)
Record request := {
  rq_path : string;                       (* [self.path] *)
  rq_body : exc json;                     (* [json.loads] of the body *)
  rq_referer : string;                    (* [headers.get('Referer', '')] *)
  rq_client_ip : string;                  (* [client_address[0]] *)
  rq_content_type : string;               (* [headers.get('Content-Type', '')] *)
  rq_form : exc (gmap string (list form_value))
                                          (* [parse_header] and [parse_multipart] *)
}.

Section Dispatcher.
Import PyStr.

Variable cwd : string.
Variable shared_dirs : list string.
Variable str_exn : exn -> string.
Variable json_dumps : json -> string.
Variable json_loads : string -> exc json.
Variable now : json.

(** [/api/create_dir] *)
Definition api_create_dir (parsed : exc json) (referer : string) : M (conn * world) unit :=
  try_except
    (data ← lift_exc parsed;
     v ← lift_exc (Py.dict_get data "dirname" (JStr ""));
     dirname ← lift_exc (Py.strip v);
     if String.eqb dirname "" then send_error 400 "Directory name cannot be empty."
     else if bad_name dirname then send_error 400 "Invalid directory name."
     else
       target ← on_world (fs_query (fun fs => target_path cwd shared_dirs fs referer dirname));
       match target with
       | inr message => send_error 400 message
       | inl dirpath =>
           present ← on_world (fs_query (fun fs => os_path_exists fs dirpath));
           if present : bool then send_error 409 "Directory already exists."
           else
             on_world (os_makedirs dirpath) ;;
             reply_json json_dumps 201 success
       end)
    (fun e => send_error 500 (str_exn e)).

(** [/api/upload] *)
Definition api_upload (content_type : string)
    (parsed : exc (gmap string (list form_value))) (referer : string)
    : M (conn * world) unit :=
  if negb (contains content_type "multipart/form-data")
  then send_error 400 "Invalid content type"
  else
    try_except
      (form_data ← lift_exc parsed;
       match form_data !! "file", form_data !! "filename" with
       | Some (file_content :: _), Some (first_name :: _) =>
           if blank_value first_name then send_error 400 "Empty filename"
           else
             filename ← lift_exc (text_value first_name);
             if bad_name filename then send_error 400 "Invalid filename"
             else
               target ← on_world (fs_query (fun fs =>
                                    target_path cwd shared_dirs fs referer filename));
               match target with
               | inr message => send_error 400 message
               | inl filepath =>
                   present ← on_world (fs_query (fun fs => os_path_exists fs filepath));
                   if present : bool then send_error 409 "File already exists"
                   else
                     on_world (write_file filepath (bytes_value file_content)) ;;
                     reply_json json_dumps 201 success
               end
       | _, _ => send_error 400 "No file uploaded"
       end)
      (fun e => send_error 500 (str_exn e)).

(** the six paths that pass the guard of [do_POST] *)
Definition guarded_api_paths : list string :=
  [ "/api/shutdown"; "/api/cancel_shutdown"; "/api/create_file";
    "/api/create_dir"; "/api/upload"; "/api/shutdown_status" ].

(** the chain of [if] and [elif] after the guard; [send_error(404)]
    sends the standard phrase *)
Definition dispatch (rq : request) : M (conn * world) unit :=
  let path := rq_path rq in
  if String.eqb path "/api/shutdown" then api_shutdown str_exn json_dumps (rq_body rq)
  else if String.eqb path "/api/cancel_shutdown" then api_cancel_shutdown str_exn json_dumps
  else if String.eqb path "/api/create_file"
       then api_create_file cwd shared_dirs str_exn json_dumps (rq_body rq) (rq_referer rq)
  else if String.eqb path "/api/create_dir" then api_create_dir (rq_body rq) (rq_referer rq)
  else if String.eqb path "/api/upload"
       then api_upload (rq_content_type rq) (rq_form rq) (rq_referer rq)
  else if String.eqb path "/api/shutdown_status" then api_shutdown_status json_dumps
  else send_error 404 "Not Found".

(** [do_POST()] *)
Definition do_POST (rq : request) : M (conn * world) unit :=
  let path := rq_path rq in
  if String.eqb path "/api/send_text"
  then api_send_text str_exn json_dumps now (rq_body rq) (rq_client_ip rq)
  else if String.eqb path "/api/check_message"
  then api_check_message str_exn json_dumps json_loads
  else if String.eqb path "/api/confirm_message"
  then api_confirm_message str_exn json_dumps
  else if bool_decide (path ∈ guarded_api_paths) then dispatch rq
  else
    match translate_path cwd shared_dirs path with
    | Some p =>
        if String.eqb p "/__root__"
        then send_error 403 "Cannot perform this operation at root level"
        else dispatch rq
    | None => send_error 403 "Cannot perform this operation at root level"
    end.

End Dispatcher.

(* ------------------------------------------------------------------ *)
(** ** Configuration files and the port dialog *)

Definition CONFIG_FILE : string := "shared_folders.json".
Definition PORT_CONFIG_FILE : string := "port_config.json".

(** the number of characters of a text held as UTF-8 *)
Definition utf8_len (s : string) : Z := Z.of_nat (PyStr.len s).

(** [len(v)] for a value read from JSON *)
Definition py_len (v : json) : exc Z :=
  match v with
  | JStr s => Ok (utf8_len s)
  | JArr items => Ok (Z.of_nat (List.length items))
  | JObj members => Ok (Z.of_nat (List.length (remove_dups (map fst members))))
  | _ => Raise TypeError
  end.

Section Config.
Import PyStr.

(** [str(e)]; [json.dump] with the indentation of the code, [json.load],
    and [str(v)] of a value in an f-string *)
Variable str_exn : exn -> string.
Variable json_dump : json -> string.
Variable json_load : string -> exc json.
Variable str_json : json -> string.

(** [save_shared_folders_config(folders)] *)
Definition save_shared_folders_config (folders : list string) : M world bool :=
  try_except
    (write_file CONFIG_FILE (Ok (json_dump (JArr (map JStr folders)))) ;;
     print ("已保存 " ++ str_of_Z (Z.of_nat (List.length folders))
            ++ " 个共享文件夹配置到 " ++ CONFIG_FILE) ;;
     ret true)
    (fun e => print ("保存配置文件失败: " ++ str_exn e) ;; ret false).

(** [load_shared_folders_config()] *)
Definition load_shared_folders_config : M world json :=
  try_except
    (present ← fs_query (fun fs => os_path_exists fs CONFIG_FILE);
     if present : bool then
       content ← read_file CONFIG_FILE;
       folders ← lift_exc (json_load content);
       n ← lift_exc (py_len folders);
       print ("从 " ++ CONFIG_FILE ++ " 加载了 " ++ str_of_Z n ++ " 个共享文件夹配置") ;;
       ret folders
     else
       print ("配置文件 " ++ CONFIG_FILE ++ " 不存在，将创建新配置") ;;
       ret (JArr []))
    (fun e => print ("加载配置文件失败: " ++ str_exn e) ;; ret (JArr [])).

(** [save_port_config(port)] *)
Definition save_port_config (port : Z) : M world bool :=
  try_except
    (write_file PORT_CONFIG_FILE (Ok (json_dump (JObj [("port", JInt port)]))) ;;
     print ("已保存端口配置: " ++ str_of_Z port) ;;
     ret true)
    (fun e => print ("保存端口配置失败: " ++ str_exn e) ;; ret false).

(** [load_port_config()] *)
Definition load_port_config : M world json :=
  try_except
    (present ← fs_query (fun fs => os_path_exists fs PORT_CONFIG_FILE);
     if present : bool then
       content ← read_file PORT_CONFIG_FILE;
       config ← lift_exc (json_load content);
       port ← lift_exc (Py.dict_get config "port" (JInt 20261));
       print ("从 " ++ PORT_CONFIG_FILE ++ " 加载端口配置: " ++ str_json port) ;;
       ret port
     else
       print ("端口配置文件 " ++ PORT_CONFIG_FILE ++ " 不存在，使用默认端口20261") ;;
       ret (JInt 20261))
    (fun e => print ("加载端口配置失败: " ++ str_exn e) ;; ret (JInt 20261)).

End Config.

(** [PortConfigDialog.validate_and_accept()] on the text of the input
    field: the port accepted, or the text of the validation label *)
Definition validate_and_accept (input : string) : string + Z :=
  let port_text := PyStr.strip input in
  if negb (PyStr.isdigit port_text) then inl "请输入数字！"
  else
    let port := PyStr.int_of port_text in
    if (port <? 80) || (port >? 65535) then inl "端口范围必须在80-65535之间！"
    else inr port.

(* ------------------------------------------------------------------ *)
(** ** The share list of the desktop window *)

(** What the code keeps of [FolderShareWindow]: the list of paths, the
    items of the list widget and the text of the status label. *)
Record window := {
  shared_paths : list string;
  list_widget : list string;
  status_label : string
}.

Definition set_label (text : string) (win : window) : window :=
  {| shared_paths := shared_paths win; list_widget := list_widget win;
     status_label := text |}.

(** [l.remove(x)] for an [x] that is in [l]: the first one goes *)
Fixpoint remove_first (x : string) (l : list string) : list string :=
  match l with
  | [] => []
  | y :: l' => if String.eqb y x then l' else y :: remove_first x l'
  end.

(** [update_list_widget()] *)
Definition update_list_widget (win : window) : window :=
  {| shared_paths := shared_paths win; list_widget := shared_paths win;
     status_label := status_label win |}.

(** the body of the loop of [dropEvent], for one dropped path *)
Definition drop_one (fs : gmap string node) (win : window) (path : string) : window :=
  if os_path_isdir fs path then
    if bool_decide (path ∈ shared_paths win) then
      set_label ("文件夹已存在: " ++ PosixPath.basename path) win
    else
      {| shared_paths := shared_paths win ++ [path];
         list_widget := list_widget win ++ [path];
         status_label := "已添加文件夹: " ++ PosixPath.basename path |}
  else set_label ("不是有效的文件夹: " ++ path) win.

(** [dropEvent(event)]; [urls] are the local files of the event *)
Definition dropEvent (fs : gmap string node) (urls : list string) (win : window) : window :=
  fold_left (drop_one fs) urls win.

Section Window.
Import PyStr.

Variable str_exn : exn -> string.
Variable json_dump : json -> string.

(** [save_config()] *)
Definition save_config (s : window * world) : window * world :=
  let (win, w) := s in
  match save_shared_folders_config str_exn json_dump (shared_paths win) w with
  | (Ok true, w') =>
      (set_label ("已保存 " ++ str_of_Z (Z.of_nat (List.length (shared_paths win)))
                  ++ " 个文件夹配置") win, w')
  | (Ok false, w') => (set_label "保存配置失败" win, w')
  | (Raise e, w') =>
      (set_label "保存配置失败" win, snd (print ("保存配置失败: " ++ str_exn e) w'))
  end.

(** [delete_selected()]; [current_row] is the row selected in the list
    widget, or -1 *)
Definition delete_selected (current_row : Z) (s : window * world) : window * world :=
  let (win, w) := s in
  if (0 <=? current_row) && (current_row <? Z.of_nat (List.length (shared_paths win))) then
    let row := Z.to_nat current_row in
    let removed_path := default "" (shared_paths win !! row) in
    save_config
      ({| shared_paths := List.firstn row (shared_paths win)
                          ++ List.skipn (S row) (shared_paths win);
          list_widget := List.firstn row (list_widget win)
                         ++ List.skipn (S row) (list_widget win);
          status_label := "已删除: " ++ PosixPath.basename removed_path |}, w)
  else s.

(** [clear_all()] *)
Definition clear_all (s : window * world) : window * world :=
  let (win, w) := s in
  match shared_paths win with
  | [] => s
  | _ => save_config ({| shared_paths := []; list_widget := [];
                         status_label := "已清空所有文件夹" |}, w)
  end.

(** the loop of [start_sharing] that removes the invalid paths *)
Definition remove_invalid (invalid_paths paths : list string) : list string :=
  fold_left (fun paths path =>
               if bool_decide (path ∈ paths) then remove_first path paths else paths)
    invalid_paths paths.

(** [start_sharing()]: the window, the global [shared_dirs] and the world
    afterwards, and the paths given to the server thread when one is
    started.  [reply_yes] is the answer to the question about invalid
    paths; the warnings shown are left out. *)
Definition start_sharing (reply_yes : bool) (current_port : Z)
    (win : window) (shared_dirs : list string) (w : world)
    : window * list string * world * option (list string) :=
  match shared_paths win with
  | [] => (win, shared_dirs, w, None)
  | _ =>
      let valid p := os_path_exists (w_fs w) p && os_path_isdir (w_fs w) p in
      let valid_paths := List.filter valid (shared_paths win) in
      let invalid_paths := List.filter (fun p => negb (valid p)) (shared_paths win) in
      let asked :=
        match invalid_paths with
        | [] => Some (win, w)
        | _ =>
            if reply_yes then
              Some (save_config
                      (update_list_widget
                         {| shared_paths := remove_invalid invalid_paths (shared_paths win);
                            list_widget := list_widget win;
                            status_label := status_label win |}, w))
            else None
        end in
      match asked with
      | None => (win, shared_dirs, w, None)
      | Some (win1, w1) =>
          match valid_paths with
          | [] => (win1, shared_dirs, w1, None)
          | _ =>
              let (win2, w2) := save_config (win1, w1) in
              (set_label ("开始共享 " ++ str_of_Z (Z.of_nat (List.length valid_paths))
                          ++ " 个文件夹，端口: " ++ str_of_Z current_port ++ "...") win2,
               valid_paths, w2, Some valid_paths)
          end
      end
  end.

End Window.

(* ------------------------------------------------------------------ *)
(** ** Vocabulary of the further statements *)

(** the status line and headers of a full response *)
Definition head_200 (ctype last_modified : string) (file_size : Z) : list out :=
  [ SendResponse 200;
    SendHeader "Content-type" ctype;
    SendHeader "Content-Length" (PyStr.str_of_Z file_size);
    SendHeader "Last-Modified" last_modified;
    EndHeaders ].

(** a chunk written by the copy loops: not empty, at most [bufsize] bytes *)
Definition chunk_ok (chunk : list Byte.byte) : Prop :=
  chunk <> [] /\ Z.of_nat (List.length chunk) <= bufsize.

(** the character [c] does not occur in [s] *)
Definition lacks (c : ascii) (s : string) : bool :=
  forallb (fun a => negb (Ascii.eqb a c)) (list_ascii_of_string s).

(** the link of the [i]-th share, counted from one, in the root view *)
Definition share_link (i : nat) : string :=
  "/share" ++ PyStr.str_of_Z (Z.of_nat i) ++ "/".

(** a string of slashes *)
Definition all_slashes (p : string) : bool :=
  forallb (Ascii.eqb "/") (list_ascii_of_string p).

(** no character of [s] is one that [html.escape] replaces, the ampersand
    apart: [s] cannot open or close a tag, nor end an attribute value *)
Definition no_markup (s : string) : bool :=
  forallb (fun c => negb (Html.is_markup c)) (list_ascii_of_string s).

(** the line of the parent link in the directory view *)
Definition up_link : string :=
  "<li><a href=" ++ PyStr.dq ++ "../" ++ PyStr.dq ++ ">../</a></li>".

(** the commands that [cancel_shutdown] runs, and what it returns *)
Definition cancel_commands (platform : string) : list (list string) :=
  if String.eqb platform "win32" then [["shutdown"; "/a"]] else [].

Definition cancel_reports_success (platform : string)
    (run_result : list string -> exc (Z * string)) : bool :=
  if String.eqb platform "win32" then
    match run_result ["shutdown"; "/a"] with
    | Ok _ => true
    | Raise _ => false
    end
  else true.

(** [k] names a file of the working directory that matches the pattern
    of the legacy hint files *)
Definition legacy_file (fs : gmap string node) (k : string) : bool :=
  is_legacy_name k && negb (PyStr.contains k "/")
  && match fs !! k with
     | Some (File _) => true
     | _ => false
     end.

(** the file system without the files that [cancel_shutdown] removes *)
Definition without_legacy (fs : gmap string node) : gmap string node :=
  filter (fun kv => legacy_file fs (fst kv) = false) fs.

(** the status is as it was and no file was created or changed *)
Definition quiet (w w' : world) : Prop :=
  w_shutdown_status w' = w_shutdown_status w /\ w_fs w' ⊆ w_fs w.


(** the message that [/api/send_text] stores, and the one that the
    send-text action of the desktop window stores *)
Definition mobile_message (now : json) (text client_ip : string) : json :=
  JObj [("text", JStr text); ("sender_ip", JStr client_ip);
        ("timestamp", now); ("sender_type", JStr "mobile")].

Definition desktop_message (now : json) (local_ip text sender_type : string) : json :=
  JObj [("text", JStr text); ("sender_type", JStr sender_type);
        ("timestamp", now); ("sender_ip", JStr local_ip)].

(** the events of a JSON answer *)
Definition json_answer (json_dumps : json -> string) (code : Z) (body : json) : list out :=
  [ SendResponse code; SendHeader "Content-type" "application/json"; EndHeaders;
    Write (list_byte_of_string (json_dumps body)) ].

(** a reader for the examples, which knows one document *)
Definition sample_loads (known : json) (s : string) : exc json :=
  if String.eqb s (sample_dumps known) then Ok known else Raise JSONDecodeError.

(** a handler leaves the world as it is, whatever it sends *)
Definition keeps_world {A} (m : M (conn * world) A) : Prop :=
  forall s, snd (snd (m s)) = snd s.

(** the nine paths that [do_POST] serves *)
Definition api_paths : list string :=
  [ "/api/send_text"; "/api/check_message"; "/api/confirm_message";
    "/api/shutdown"; "/api/cancel_shutdown"; "/api/create_file";
    "/api/create_dir"; "/api/upload"; "/api/shutdown_status" ].

(** a request with a path only *)
Definition bare_request (path : string) : request :=
  {| rq_path := path; rq_body := Raise JSONDecodeError; rq_referer := "";
     rq_client_ip := "192.168.1.7"; rq_content_type := "";
     rq_form := Raise ValueError |}.

(** a name that the file system takes for a new entry: it holds no NUL
    character, on which Python raises [ValueError], and is at most 255
    bytes long *)
Definition storable_name (name : string) : bool :=
  lacks (ascii_of_nat 0) name && (String.length name <=? 255)%nat.

(** a component that [normpath] keeps as it is: not empty, without a
    slash, and neither one dot nor two *)
Definition is_comp (c : string) : bool :=
  negb (String.eqb c "") && lacks "/" c && negb (String.eqb c ".") && negb (String.eqb c "..").

(** a name that passes the tests of [create_dir] and [upload], and is not
    the dot that names the directory itself *)
Definition child_name (name : string) : bool :=
  negb (bad_name name) && negb (String.eqb name "") && negb (String.eqb name ".").

(** an absolute path in normal form: one or two slashes, then the
    components with a slash between them *)
Definition rooted (pre : string) (comps : list string) : string :=
  pre ++ PyStr.join "/" comps.

(** a form with one file and its name *)
Definition sample_form (name : string) (content : list Byte.byte)
    : gmap string (list form_value) :=
  <["file" := [FBytes content]]> (<["filename" := [FText name]]> ∅).

(* ------------------------------------------------------------------ *)
(** * Properties *)

(** ** Sanity checks of the primitives on concrete inputs *)

Example str_of_Z_ex : PyStr.str_of_Z 1090 = "1090" /\ PyStr.str_of_Z 0 = "0" /\ PyStr.str_of_Z 7 = "7".
Proof. repeat split; reflexivity. Qed.
Example strip_ex : PyStr.strip "  30
" = "30".
Proof. reflexivity. Qed.
Example split_ex : PyStr.split "/" "/a//b" = [""; "a"; ""; "b"].
Proof. reflexivity. Qed.
Example normpath_ex1 : PosixPath.normpath "/data/movies/../moviesX/f" = "/data/moviesX/f".
Proof. reflexivity. Qed.
Example normpath_ex2 : PosixPath.normpath "a/./b//c/.." = "a/b".
Proof. reflexivity. Qed.
Example normpath_ex3 : PosixPath.normpath "/../.." = "/" /\ PosixPath.normpath "../x" = "../x"
  /\ PosixPath.normpath "//a" = "//a" /\ PosixPath.normpath "///a" = "/a".
Proof. repeat split; reflexivity. Qed.
Example join_ex : PosixPath.join "/data/movies" "" = "/data/movies/"
  /\ PosixPath.join "/data/movies" "/etc" = "/etc" /\ PosixPath.join "/d/" "x" = "/d/x".
Proof. repeat split; reflexivity. Qed.
Example basename_ex : PosixPath.basename "/data/movies" = "movies" /\ PosixPath.basename "/data/" = "".
Proof. repeat split; reflexivity. Qed.
Example dirname_ex : PosixPath.dirname "/a/b.txt" = "/a" /\ PosixPath.dirname "/b.txt" = "/"
  /\ PosixPath.dirname "b.txt" = "" /\ PosixPath.dirname "/a//b" = "/a"
  /\ PosixPath.dirname "//b" = "//".
Proof. repeat split; reflexivity. Qed.
Example unquote_ex : Url.unquote "/share1/%2e%2E/a%20b%zz%4" = "/share1/../a b%zz%4".
Proof. reflexivity. Qed.
Example match_share_ex : Re.match_share "/share12/a/b" = Some ("12", "a/b")
  /\ Re.match_share "/share/a" = None /\ Re.match_share "/share1" = None
  /\ Re.match_share "/share1x/a" = None.
Proof. repeat split; reflexivity. Qed.
Example match_referer_ex :
  Re.match_referer "http://h:1/share1/a/share2/b" = Some "/share2/b"
  /\ Re.match_referer "http://h:1/" = None.
Proof. repeat split; reflexivity. Qed.
Example match_range_ex : Re.match_range "bytes=5-" = Some ("5", "")
  /\ Re.match_range "bytes=0-10,20-30" = Some ("0", "10")
  /\ Re.match_range "bytes=-5" = None /\ Re.match_range " bytes=1-2" = None.
Proof. repeat split; reflexivity. Qed.
Example translate_ex :
  translate_path "/" ["/data/movies"] "/share1/a/../b.mp4?x=1" = Some "/data/movies/b.mp4"
  /\ translate_path "/" ["/data/movies"] "/share2/a" = None
  /\ translate_path "/" ["/data/movies"] "/share0/a" = None
  /\ translate_path "/" ["/data/movies"] "/share1/../../etc/passwd" = None
  /\ translate_path "/" ["/data/movies"] "/?q" = Some "/__root__"
  /\ translate_path "/" ["/data/movies"] "/share1//etc/passwd" = None.
Proof. repeat split; reflexivity. Qed.

(* ------------------------------------------------------------------ *)
(** ** Namespace resolver *)

(** What the sandbox check of [translate_path] does establish: a resolved
    path has the normalised root of one of the shares as a string prefix. *)
Lemma translate_path_string_prefix cwd shared_dirs path p :
  translate_path cwd shared_dirs path = Some p ->
  p = "/__root__" \/
  exists share_dir, In share_dir shared_dirs
    /\ PyStr.startswith p (PosixPath.abspath cwd share_dir) = true.
Proof.
  unfold translate_path.
  destruct (_ || _); [intros [= <-]; now left|].
  destruct (Re.match_share _) as [[g1 sub_path]|]; [|discriminate].
  destruct (_ && _); [|discriminate].
  destruct (shared_dirs !! _) as [share_dir|] eqn:Hdir; [|discriminate].
  destruct (PyStr.startswith _ _) eqn:Hpre; [|discriminate].
  intros [= <-]. right. exists share_dir. split; [|exact Hpre].
  apply list_elem_of_In. eapply list_elem_of_lookup_2. exact Hdir.
Qed.

(** C1 (defect of the code): with the share root [/data/movies], the
    request [/share1/../moviesX/f] resolves to [/data/moviesX/f], a path in
    a sibling directory of which the root is a string prefix but not a
    prefix at a segment boundary; it is returned, not rejected. *)
Theorem translate_path_sibling_not_rejected cwd :
  translate_path cwd ["/data/movies"] "/share1/../moviesX/f" = Some "/data/moviesX/f"
  /\ PyStr.startswith "/data/moviesX/f" (PosixPath.abspath cwd "/data/movies") = true
  /\ segment_prefix (PosixPath.abspath cwd "/data/movies") "/data/moviesX/f" = false.
Proof. repeat split; reflexivity. Qed.

(** C2 (defect of the code): a [..] segment that leaves the share root
    [/data/movies] for the sibling [/data/moviesX] is not rejected, whether
    it is written raw or percent-encoded in either case of the hex digits;
    the same request towards [/data/other] is rejected. *)
Theorem translate_path_dotdot_not_rejected cwd :
  translate_path cwd ["/data/movies"] "/share1/../moviesX/f" = Some "/data/moviesX/f"
  /\ translate_path cwd ["/data/movies"] "/share1/%2e%2e/moviesX/f" = Some "/data/moviesX/f"
  /\ translate_path cwd ["/data/movies"] "/share1/%2E%2e/moviesX/f" = Some "/data/moviesX/f"
  /\ translate_path cwd ["/data/movies"] "/share1/../other/f" = None.
Proof. repeat split; reflexivity. Qed.

(* ------------------------------------------------------------------ *)
(** ** Streaming transfer engine *)

Example range_ex_206 :
  let '(r, c) := do_GET_file (Some "bytes=10-19") "video/mp4" "m" sample40 fresh_conn in
  r = Ok tt
  /\ statuses_of (sent c) = [206]
  /\ headers_of (sent c) = [("Content-type", "video/mp4"); ("Accept-Ranges", "bytes");
       ("Content-Range", "bytes 10-19/40"); ("Content-Length", "10"); ("Last-Modified", "m")]
  /\ body_of (sent c) = list_byte_of_string "abcdefghij".
Proof. vm_compute. repeat split; reflexivity. Qed.

Example range_ex_unsatisfiable :
  let '(r, c) := do_GET_file (Some "bytes=40-") "video/mp4" "m" sample40 fresh_conn in
  r = Raise TypeError /\ sent c = [].
Proof. vm_compute. repeat split; reflexivity. Qed.

Example range_ex_200 :
  let '(r, c) := do_GET_file None "video/mp4" "m" sample40 fresh_conn in
  r = Ok tt /\ statuses_of (sent c) = [200] /\ body_of (sent c) = sample40.
Proof. vm_compute. repeat split; reflexivity. Qed.

Example range_ex_disconnect :
  let '(r, c) := do_GET_file (Some "bytes=0-") "video/mp4" "m" sample40
                   {| sent := []; peer_takes := Some 5%nat |} in
  r = Ok tt /\ statuses_of (sent c) = [206] /\ body_of (sent c) = [].
Proof. vm_compute. repeat split; reflexivity. Qed.

Section RegexLemmas.
Import PyStr.

Lemma isdigit_all_digits s : isdigit s = true -> all_digits s = true /\ s <> "".
Proof. destruct s; simpl; [discriminate|]. intros H. split; [exact H|discriminate]. Qed.

Lemma span_digits_app ds r :
  all_digits ds = true -> no_digit_ahead r -> span_digits (ds ++ r) = (ds, r).
Proof.
  unfold all_digits. induction ds as [|a ds IH]; simpl; intros Hd Hr.
  - destruct r as [|c r]; simpl in *; [reflexivity|]. now rewrite Hr.
  - apply andb_true_iff in Hd as [Ha Hd]. rewrite Ha, IH; auto.
Qed.

Lemma strip_prefix_app p s : strip_prefix p (p ++ s) = Some s.
Proof.
  induction p as [|a p IH]; simpl; [reflexivity|].
  now rewrite Ascii.eqb_refl.
Qed.

Lemma match_range_leading ds de rest :
  isdigit ds = true -> all_digits de = true -> no_digit_ahead rest ->
  Re.match_range ("bytes=" ++ ds ++ "-" ++ de ++ rest) = Some (ds, de).
Proof.
  intros Hds Hde Hrest. apply isdigit_all_digits in Hds as [Hds Hne].
  unfold Re.match_range. rewrite strip_prefix_app.
  rewrite (span_digits_app ds ("-" ++ de ++ rest)) by (auto; reflexivity).
  destruct ds as [|a ds]; [congruence|].
  change ("-" ++ de ++ rest) with (String "-" (de ++ rest)).
  cbv beta iota. rewrite Ascii.eqb_refl.
  now rewrite (span_digits_app de rest).
Qed.

End RegexLemmas.

Lemma firstn_chunk {A} (l : list A) (k n : nat) :
  (k <= n)%nat ->
  firstn n l
  = (firstn k l ++ firstn (n - List.length (firstn k l)) (skipn (List.length (firstn k l)) l))%list.
Proof.
  revert k n. induction l as [|x l IH]; intros k n Hkn.
  - now rewrite !firstn_nil.
  - destruct k as [|k]; [simpl; now rewrite Nat.sub_0_r|].
    destruct n as [|n]; [lia|]. simpl. f_equal. apply IH. lia.
Qed.

Lemma firstn_empty_chunk {A} (l : list A) (k n : nat) :
  (0 < k)%nat -> firstn k l = [] -> firstn n l = [].
Proof.
  destruct l; intros Hk H; [apply firstn_nil|].
  destruct k; [lia|discriminate].
Qed.

Section TransferLemmas.
(** With a peer that stays, the loop of [copyfile_range] ends normally
    and has written the [length] bytes that follow the position (fewer
    at the end of the file). *)
Lemma copy_range_loop_ok fuel :
  forall length data pos c,
    peer_takes c = None ->
    (Z.to_nat length <= fuel)%nat ->
    exists chunks pos',
      copy_range_loop fuel length (open_at data pos) c
      = (Ok tt, open_at data pos',
         {| sent := (sent c ++ map Write chunks)%list; peer_takes := None |})
      /\ concat chunks = firstn (Z.to_nat length) (skipn pos data).
Proof.
  induction fuel as [|fuel IH]; intros len data pos c Hpeer Hfuel.
  - exists [], pos. simpl. replace (Z.to_nat len) with 0%nat by lia.
    rewrite app_nil_r. destruct c; simpl in *; subst. auto.
  - simpl. destruct (len >? 0) eqn:Hpos.
    2:{ exists [], pos. simpl. replace (Z.to_nat len) with 0%nat by lia.
        rewrite app_nil_r. destruct c; simpl in *; subst. auto. }
    unfold f_read. cbn [f_closed open_at f_data f_pos].
    set (k := Z.to_nat (Z.min bufsize len)).
    assert (Hk : (0 < k <= Z.to_nat len)%nat) by (unfold k, bufsize; lia).
    destruct (firstn k (skipn pos data)) as [|b buf] eqn:Hbuf.
    + exists [], (pos + 0)%nat. simpl. rewrite app_nil_r.
      split; [destruct c; simpl in *; subst; reflexivity|].
      symmetry. eapply firstn_empty_chunk; [|exact Hbuf]. lia.
    + unfold wfile_write. rewrite Hpeer.
      assert (Hlen : (List.length (b :: buf) <= k)%nat)
        by (rewrite <- Hbuf, length_firstn; lia).
      destruct (IH (len - Z.of_nat (List.length (b :: buf))) data
                   (pos + List.length (b :: buf))%nat (emit (Write (b :: buf)) c))
        as (chunks & pos' & Hrun & Hcat); [exact Hpeer|simpl List.length in *; lia|].
      exists ((b :: buf) :: chunks), pos'.
      unfold open_at in Hrun. rewrite Hrun. cbn [emit sent].
      rewrite <- app_assoc. split; [reflexivity|].
      cbn [concat]. rewrite Hcat.
      rewrite (firstn_chunk (skipn pos data) k (Z.to_nat len)) by lia.
      rewrite Hbuf, skipn_skipn. do 3 f_equal; lia.
Qed.

End TransferLemmas.

(** *** [str] and [int] are inverse on the naturals *)

Section Decimal.
Import PyStr.

Lemma digit_char_ok d :
  0 <= d < 10 -> is_digit (digit_char d) = true /\ digit_val (digit_char d) = d.
Proof.
  intros H.
  assert (d = 0 \/ d = 1 \/ d = 2 \/ d = 3 \/ d = 4 \/ d = 5 \/ d = 6 \/ d = 7
          \/ d = 8 \/ d = 9) as Hd by lia.
  repeat destruct Hd as [-> | Hd]; try subst d; split; reflexivity.
Qed.

Lemma list_ascii_app a b :
  list_ascii_of_string (a ++ b) = (list_ascii_of_string a ++ list_ascii_of_string b)%list.
Proof. induction a as [|c a IH]; simpl; [reflexivity|now rewrite IH]. Qed.

Lemma int_of_snoc d c : int_of (d ++ String c "") = 10 * int_of d + digit_val c.
Proof. unfold int_of. now rewrite list_ascii_app, fold_left_app. Qed.

Lemma all_digits_snoc d c :
  all_digits d = true -> is_digit c = true -> all_digits (d ++ String c "") = true.
Proof.
  unfold all_digits. intros Hd Hc. rewrite list_ascii_app, forallb_app, Hd. simpl.
  now rewrite Hc.
Qed.

Lemma append_snoc d c acc : d ++ String c acc = (d ++ String c "") ++ acc.
Proof. induction d as [|x d IHd]; [reflexivity|].
  change (String x (d ++ String c acc) = String x ((d ++ String c "") ++ acc)).
  now f_equal.
Qed.

Lemma append_empty_r d : d ++ "" = d.
Proof.
  induction d as [|x d IHd]; [reflexivity|].
  change (String x (d ++ "") = String x d). now f_equal.
Qed.

Lemma str_pos_go_S fuel n acc :
  str_pos_go (S fuel) n acc
  = if n <? 10 then String (digit_char (n mod 10)) acc
    else str_pos_go fuel (n / 10) (String (digit_char (n mod 10)) acc).
Proof. reflexivity. Qed.

Lemma str_pos_go_spec fuel :
  forall n acc, 0 <= n < 2 ^ Z.of_nat (S fuel) ->
    exists d, str_pos_go (S fuel) n acc = d ++ acc
              /\ d <> "" /\ all_digits d = true /\ int_of d = n.
Proof.
  induction fuel as [|fuel IH]; intros n acc Hn.
  - change (2 ^ Z.of_nat 1) with 2 in Hn.
    simpl. replace (n <? 10) with true by lia.
    exists (String (digit_char (n mod 10)) "").
    destruct (digit_char_ok (n mod 10)) as [Hd Hv]; [apply Z.mod_pos_bound; lia|].
    repeat split; [discriminate|unfold all_digits; simpl; now rewrite Hd|].
    unfold int_of. simpl. rewrite Hv. rewrite Z.mod_small; lia.
  - rewrite str_pos_go_S. destruct (n <? 10) eqn:Hlt.
    + exists (String (digit_char (n mod 10)) "").
      destruct (digit_char_ok (n mod 10)) as [Hd Hv]; [apply Z.mod_pos_bound; lia|].
      repeat split; [discriminate|unfold all_digits; simpl; now rewrite Hd|].
      unfold int_of. simpl. rewrite Hv. rewrite Z.mod_small; lia.
    + assert (Hq : 0 <= n / 10 < 2 ^ Z.of_nat (S fuel)).
      { split; [apply Z.div_pos; lia|].
        apply Z.div_lt_upper_bound; [lia|].
        rewrite (Nat2Z.inj_succ (S fuel)), Z.pow_succ_r in Hn by lia. lia. }
      destruct (IH (n / 10) (String (digit_char (n mod 10)) acc) Hq)
        as (d & Hrun & Hne & Hd & Hv).
      destruct (digit_char_ok (n mod 10)) as [Hc Hcv]; [apply Z.mod_pos_bound; lia|].
      exists (d ++ String (digit_char (n mod 10)) "").
      repeat split.
      * rewrite Hrun. apply append_snoc.
      * destruct d; [congruence|discriminate].
      * now apply all_digits_snoc.
      * rewrite int_of_snoc, Hv, Hcv. symmetry. apply Z.div_mod. lia.
Qed.

Lemma str_of_Z_digits n :
  0 <= n -> isdigit (str_of_Z n) = true /\ int_of (str_of_Z n) = n.
Proof.
  intros Hn. unfold str_of_Z. replace (n <? 0) with false by lia.
  replace (Z.to_nat (Z.log2 n) + 1)%nat with (S (Z.to_nat (Z.log2 n))) by lia.
  destruct (str_pos_go_spec (Z.to_nat (Z.log2 n)) n "") as (d & Hrun & Hne & Hd & Hv).
  { split; [lia|]. rewrite Nat2Z.inj_succ, Z2Nat.id by apply Z.log2_nonneg.
    destruct (Z.eq_dec n 0) as [->|Hnz]; [reflexivity|].
    apply Z.log2_spec. lia. }
  rewrite Hrun.
  rewrite append_empty_r. split; [|exact Hv].
  destruct d; [congruence|exact Hd].
Qed.

End Decimal.

Section RangeResponses.
Import PyStr.
Variables (ctype last_modified : string).

Lemma int_of_nonneg s : all_digits s = true -> 0 <= int_of s.
Proof.
  unfold all_digits, int_of.
  assert (H : forall l acc, 0 <= acc -> forallb is_digit l = true ->
              0 <= fold_left (fun a c => 10 * a + digit_val c) l acc).
  { induction l as [|c l IH]; simpl; intros acc Hacc Hl; [exact Hacc|].
    apply andb_true_iff in Hl as [Hc Hl]. apply IH; [|exact Hl].
    unfold is_digit in Hc. unfold digit_val.
    apply andb_true_iff in Hc as [Hlo _]. apply Nat.leb_le in Hlo. lia. }
  intros Hs. apply H; [lia|exact Hs].
Qed.

Lemma range_request_leading ds de rest data c :
  isdigit ds = true -> all_digits de = true -> no_digit_ahead rest ->
  peer_takes c = None ->
  let size := Z.of_nat (List.length data) in
  let start := int_of ds in
  let end_ := if String.eqb de "" then size - 1 else int_of de in
  range_request (Some ("bytes=" ++ ds ++ "-" ++ de ++ rest)) ctype last_modified
    (f_open data) size c
  = if bad_range start end_ size
    then (Raise TypeError, f_open data, c)
    else (Ok tt, open_at data (Z.to_nat start),
          {| sent := (sent c ++ head_206 ctype last_modified start end_ size)%list;
             peer_takes := None |}).
Proof.
  intros Hds Hde Hrest Hpeer. cbv zeta. unfold range_request.
  change ("bytes=" ++ ds ++ "-" ++ de ++ rest)
    with (String "b" ("ytes=" ++ ds ++ "-" ++ de ++ rest)).
  change (String "b" ("ytes=" ++ ds ++ "-" ++ de ++ rest))
    with ("bytes=" ++ ds ++ "-" ++ de ++ rest).
  rewrite match_range_leading by assumption.
  unfold bad_range.
  destruct (_ || _); [reflexivity|].
  unfold f_seek, f_open, open_at, emit, head_206. cbn [f_closed f_data sent peer_takes].
  rewrite Hpeer, <- !app_assoc. reflexivity.
Qed.

Lemma copyfile_leading ds de rest f c :
  isdigit ds = true -> all_digits de = true -> no_digit_ahead rest ->
  copyfile (Some ("bytes=" ++ ds ++ "-" ++ de ++ rest)) f c
  = match (if String.eqb de "" then
             match f_size f with
             | Ok size => Ok (size - 1)
             | Raise e => Raise e
             end
           else Ok (int_of de)) with
    | Raise e => (Raise e, f, c)
    | Ok end_ => copyfile_range (end_ - int_of ds + 1) f c
    end.
Proof.
  intros Hds Hde Hrest. unfold copyfile.
  now rewrite match_range_leading by assumption.
Qed.

(** The response to a [Range] header that starts with a single range
    [bytes=ds-de], whatever follows it: the range is served, or the
    handler ends in the [TypeError] of [send_error] with nothing sent. *)
Lemma leading_range_response ds de rest data c :
  isdigit ds = true -> all_digits de = true -> no_digit_ahead rest ->
  peer_takes c = None ->
  let size := Z.of_nat (List.length data) in
  let start := int_of ds in
  let end_ := if String.eqb de "" then size - 1 else int_of de in
  let result :=
    do_GET_file (Some ("bytes=" ++ ds ++ "-" ++ de ++ rest)) ctype last_modified data c in
  if (0 <=? start) && (start <=? end_) && (end_ <? size) then
    exists chunks,
      result = (Ok tt, partial_content c ctype last_modified start end_ size chunks)
      /\ concat chunks = byte_range data start end_
  else
    result = (Raise TypeError, c).
Proof.
  intros Hds Hde Hrest Hpeer. cbv zeta.
  assert (Hstart : 0 <= int_of ds) by (apply int_of_nonneg, isdigit_all_digits, Hds).
  unfold do_GET_file, send_head_file.
  rewrite range_request_leading by assumption.
  set (size := Z.of_nat (List.length data)).
  set (start := int_of ds) in *.
  set (end_ := if String.eqb de "" then size - 1 else int_of de).
  destruct ((0 <=? start) && (start <=? end_) && (end_ <? size)) eqn:Hcond.
  - apply andb_true_iff in Hcond as [Hcond H3].
    apply andb_true_iff in Hcond as [H1 H2].
    replace (bad_range start end_ size) with false by (unfold bad_range; lia).
    rewrite copyfile_leading by assumption.
    unfold f_size, open_at. cbn [f_closed f_data]. fold size.
    replace (if String.eqb de "" then Ok (size - 1) else Ok (int_of de))
      with (Ok (A:=Z) end_) by (subst end_; now destruct (String.eqb de "")).
    fold start.
    destruct (copy_range_loop_ok (Z.to_nat (end_ - start + 1)) (end_ - start + 1) data
                (Z.to_nat start)
                {| sent := (sent c ++ head_206 ctype last_modified start end_ size)%list;
                   peer_takes := None |})
      as (chunks & pos' & Hrun & Hcat); [reflexivity|lia|].
    exists chunks. split; [|exact Hcat].
    unfold copyfile_range. unfold open_at in Hrun. rewrite Hrun.
    cbn [absorb_disconnect sent]. unfold partial_content. now rewrite <- app_assoc.
  - replace (bad_range start end_ size) with true by (unfold bad_range; lia).
    reflexivity.
Qed.

End RangeResponses.

(** C3 (defect of the code): a single-range header [bytes=ds-de] on a
    file of [size] bytes, with [start = int(ds)] and [end] being [int(de)]
    or [size - 1] when [de] is missing.  When [0 <= start <= end < size]
    the handler sends 206 with [Content-Range: bytes start-end/size] and
    [Content-Length: end - start + 1], then exactly the bytes from offset
    [start] to offset [end]; in particular [bytes=0-] on a non-empty file
    yields the whole file with a range that ends at [size - 1].  When the
    range is not satisfiable, [range_request] calls [send_error(416, ...)],
    which raises [TypeError] in [log_message] before the status line: the
    handler ends with that exception and has sent nothing, neither the
    416 answer nor a file byte; so it is for [bytes=<size>-]. *)
Theorem unsatisfiable_range_never_answered (ctype last_modified ds de : string)
    (data : list Byte.byte) (c : conn) :
  PyStr.isdigit ds = true ->
  de = "" \/ PyStr.isdigit de = true ->
  within_int_limit ds = true ->
  within_int_limit de = true ->
  peer_takes c = None ->
  let size := Z.of_nat (List.length data) in
  let start := PyStr.int_of ds in
  let end_ := if String.eqb de "" then size - 1 else PyStr.int_of de in
  let get h := do_GET_file (Some h) ctype last_modified data c in
  (if (0 <=? start) && (start <=? end_) && (end_ <? size) then
     exists chunks,
       get ("bytes=" ++ ds ++ "-" ++ de)
       = (Ok tt, partial_content c ctype last_modified start end_ size chunks)
       /\ concat chunks = byte_range data start end_
   else
     get ("bytes=" ++ ds ++ "-" ++ de) = (Raise TypeError, c))
  /\ (0 < size ->
      exists chunks,
        get "bytes=0-"
        = (Ok tt, partial_content c ctype last_modified 0 (size - 1) size chunks)
        /\ concat chunks = data)
  /\ get ("bytes=" ++ PyStr.str_of_Z size ++ "-") = (Raise TypeError, c).
Proof.
  intros Hds Hde _ _ Hpeer. cbv zeta.
  assert (Hde' : all_digits de = true).
  { destruct Hde as [->|Hde]; [reflexivity|]. now apply isdigit_all_digits in Hde. }
  split; [|split].
  - pose proof (leading_range_response ctype last_modified ds de "" data c
                  Hds Hde' I Hpeer) as H.
    cbv zeta in H. now rewrite append_empty_r in H.
  - intros Hsize.
    pose proof (leading_range_response ctype last_modified "0" "" "" data c
                  eq_refl eq_refl I Hpeer) as H.
    cbv zeta in H. change (PyStr.int_of "0") with 0 in H.
    change (String.eqb "" "") with true in H. cbv iota in H.
    replace ((0 <=? 0) && (0 <=? Z.of_nat (List.length data) - 1)
             && (Z.of_nat (List.length data) - 1 <? Z.of_nat (List.length data)))
      with true in H by lia.
    destruct H as (chunks & Hrun & Hcat). exists chunks. split; [exact Hrun|].
    rewrite Hcat. unfold byte_range. simpl skipn.
    apply firstn_all2. lia.
  - destruct (str_of_Z_digits (Z.of_nat (List.length data))) as [Hd Hv]; [lia|].
    pose proof (leading_range_response ctype last_modified
                  (PyStr.str_of_Z (Z.of_nat (List.length data))) "" "" data c
                  Hd eq_refl I Hpeer) as H.
    cbv zeta in H. rewrite Hv in H.
    change (String.eqb "" "") with true in H. cbv iota in H.
    replace ((0 <=? Z.of_nat (List.length data))
             && (Z.of_nat (List.length data) <=? Z.of_nat (List.length data) - 1)
             && (Z.of_nat (List.length data) - 1 <? Z.of_nat (List.length data)))
      with false in H by lia.
    exact H.
Qed.

Lemma unsatisfiable_range_never_answered_witness :
  do_GET_file (Some "bytes=40-") "video/mp4" "m" sample40 fresh_conn
  = (Raise TypeError, fresh_conn).
Proof.
  exact (proj1 (unsatisfiable_range_never_answered "video/mp4" "m" "40" "" sample40
                  fresh_conn eq_refl (or_introl eq_refl) eq_refl eq_refl eq_refl)).
Defined.

(** C4, as the claim states it, fails: the multi-range header
    [bytes=0-10,20-30] on a file of forty bytes is answered 206 with the
    first range, neither by the 200 path nor by 416. *)
Lemma multi_range_answered_206 :
  let c := snd (do_GET_file (Some "bytes=0-10,20-30") "video/mp4" "m" sample40 fresh_conn) in
  statuses_of (sent c) = [206]
  /\ headers_of (sent c) = [("Content-type", "video/mp4"); ("Accept-Ranges", "bytes");
       ("Content-Range", "bytes 0-10/40"); ("Content-Length", "11"); ("Last-Modified", "m")]
  /\ body_of (sent c) = list_byte_of_string "0123456789a".
Proof. vm_compute. repeat split; reflexivity. Qed.

(** C4, amended: the pattern is matched at the start of the header only, so
    a multi-range header [bytes=ds-de,rest] is answered as its first range
    alone: 206 with [Content-Range: bytes start-end/size] and the bytes of
    that range when [0 <= start <= end < size].  Otherwise the handler
    sends nothing at all, so neither a 200 nor a 206 answer and no file
    byte.  The 200 path is never taken. *)
Theorem multi_range_first_range (ctype last_modified ds de rest : string)
    (data : list Byte.byte) (c : conn) :
  PyStr.isdigit ds = true ->
  de = "" \/ PyStr.isdigit de = true ->
  within_int_limit ds = true ->
  within_int_limit de = true ->
  peer_takes c = None ->
  let size := Z.of_nat (List.length data) in
  let start := PyStr.int_of ds in
  let end_ := if String.eqb de "" then size - 1 else PyStr.int_of de in
  let result :=
    do_GET_file (Some ("bytes=" ++ ds ++ "-" ++ de ++ "," ++ rest))
      ctype last_modified data c in
  if (0 <=? start) && (start <=? end_) && (end_ <? size) then
    exists chunks,
      result = (Ok tt, partial_content c ctype last_modified start end_ size chunks)
      /\ concat chunks = byte_range data start end_
  else
    sent (snd result) = sent c.
Proof.
  intros Hds Hde _ _ Hpeer.
  assert (Hde' : all_digits de = true).
  { destruct Hde as [->|Hde]; [reflexivity|]. now apply isdigit_all_digits in Hde. }
  pose proof (leading_range_response ctype last_modified ds de ("," ++ rest) data c
                Hds Hde' eq_refl Hpeer) as H.
  cbv zeta in H |- *.
  destruct (_ && _); [exact H|]. now rewrite H.
Qed.

Lemma multi_range_first_range_witness :
  exists chunks,
    do_GET_file (Some "bytes=0-10,20-30") "video/mp4" "m" sample40 fresh_conn
    = (Ok tt, partial_content fresh_conn "video/mp4" "m" 0 10 40 chunks)
    /\ concat chunks = byte_range sample40 0 10.
Proof.
  exact (multi_range_first_range "video/mp4" "m" "0" "10" "20-30" sample40 fresh_conn
           eq_refl (or_intror eq_refl) eq_refl eq_refl eq_refl).
Defined.

(* ------------------------------------------------------------------ *)
(** ** Listing renderer *)

Example escape_ex : Html.escape "<b>a&'" = "&lt;b&gt;a&amp;&#x27;".
Proof. reflexivity. Qed.
Example quote_ex : Html.quote "a b/<c>.txt" = "a%20b/%3Cc%3E.txt".
Proof. reflexivity. Qed.
Example splitext_ex : Html.splitext_ext "a.tar.GZ" = ".GZ" /\ Html.splitext_ext ".bashrc" = ""
  /\ Html.splitext_ext "..a.b" = ".b" /\ Html.splitext_ext "noext" = ""
  /\ Html.splitext_ext "x." = ".".
Proof. repeat split; reflexivity. Qed.
Example sort_names_ex :
  sort_names sample_tree "/srv/pub" ["b.txt"; "music"; "A.bin"; "<i>c.txt"; "Books"]
  = ["Books"; "music"; "<i>c.txt"; "A.bin"; "b.txt"].
Proof. vm_compute. reflexivity. Qed.
Example entry_line_ex :
  entry_line sample_tree "/srv/pub" "<i>c.txt"
  = "<li><a href=" ++ PyStr.dq ++ "%3Ci%3Ec.txt" ++ PyStr.dq ++ ">&lt;i&gt;c.txt</a></li>"
  /\ entry_line sample_tree "/srv/pub" "music"
  = "<li><a href=" ++ PyStr.dq ++ "music/" ++ PyStr.dq ++ ">music/</a></li>"
  /\ entry_line sample_tree "/srv/pub" "A.bin"
  = "<li><a href=" ++ PyStr.dq ++ "A.bin" ++ PyStr.dq ++ " onclick=" ++ PyStr.dq
    ++ "return confirmDownload('A.bin')" ++ PyStr.dq ++ ">A.bin</a></li>".
Proof. vm_compute. repeat split; reflexivity. Qed.

(** What [html.escape] guarantees, and how the entries of the directory
    view use it: no markup character is left in the escaped name. *)
Lemma escape_no_markup s :
  forallb (fun c => negb (Html.is_markup c)) (list_ascii_of_string (Html.escape s)) = true.
Proof.
  induction s as [|c s IH]; [reflexivity|].
  cbn [Html.escape].
  destruct (Ascii.eqb c "&") eqn:H1; [rewrite list_ascii_app, forallb_app, IH; reflexivity|].
  destruct (Ascii.eqb c "<") eqn:H2; [rewrite list_ascii_app, forallb_app, IH; reflexivity|].
  destruct (Ascii.eqb c ">") eqn:H3; [rewrite list_ascii_app, forallb_app, IH; reflexivity|].
  destruct (Ascii.eqb c (ascii_of_nat 34)) eqn:H4;
    [rewrite list_ascii_app, forallb_app, IH; reflexivity|].
  destruct (Ascii.eqb c "'") eqn:H5; [rewrite list_ascii_app, forallb_app, IH; reflexivity|].
  rewrite list_ascii_app, forallb_app, IH. cbn [list_ascii_of_string forallb].
  unfold Html.is_markup. now rewrite H2, H3, H4, H5.
Qed.

(** C5 (defect of the code): the root view embeds the name and the path of
    a share as they are.  For the share [/srv/<b>x] the card holds the
    lines below with the markup of the name intact, where [html.escape],
    which the entries of the directory view go through, would have
    written [&lt;b&gt;x].  The heading of the directory view embeds the
    decoded request path unescaped as well. *)
Theorem root_view_embeds_raw_names :
  list_shared_dirs_cards ["/srv/<b>x"]
  = [ "<a href=" ++ PyStr.dq ++ "/share1/" ++ PyStr.dq ++ " class=" ++ PyStr.dq
        ++ "dir-item" ++ PyStr.dq ++ ">";
      "<div class=" ++ PyStr.dq ++ "folder-icon" ++ PyStr.dq ++ "></div>";
      "<div class=" ++ PyStr.dq ++ "dir-info" ++ PyStr.dq ++ ">";
      "<div class=" ++ PyStr.dq ++ "dir-name" ++ PyStr.dq ++ "><b>x</div>";
      "<div class=" ++ PyStr.dq ++ "dir-path" ++ PyStr.dq ++ ">/srv/<b>x</div>";
      "</div>";
      "<div class=" ++ PyStr.dq ++ "arrow" ++ PyStr.dq ++ ">→</div>";
      "</a>" ]
  /\ Html.escape "<b>x" = "&lt;b&gt;x"
  /\ entry_line sample_tree "/srv/pub" "<i>c.txt"
     = "<li><a href=" ++ PyStr.dq ++ "%3Ci%3Ec.txt" ++ PyStr.dq ++ ">&lt;i&gt;c.txt</a></li>"
  /\ listing_head "/share1/%3Cs%3Ed/"
     = [ "<div class=" ++ PyStr.dq ++ "file-list" ++ PyStr.dq ++ ">";
         "<h2>目录：share1/<s>d/</h2>";
         "<ul>";
         "<li><a href=" ++ PyStr.dq ++ "../" ++ PyStr.dq ++ ">../</a></li>" ].
Proof. vm_compute. repeat split; reflexivity. Qed.

Section SortLemmas.
Variable fs : gmap string node.
Variable path : string.













End SortLemmas.





(* ------------------------------------------------------------------ *)
(** ** Control channel *)

Example monitor_ex_valid :
  let w := after_cycle "win32" run_ok exn_name (world_with_sentinel " 30
") in
  w_cmds w = [["shutdown"; "/s"; "/t"; "30"]] /\ w_fs w !! schedule_file = None.
Proof. vm_compute. split; reflexivity. Qed.

Example monitor_ex_denied :
  let w := after_cycle "win32" run_denied exn_name (world_with_sentinel "30") in
  w_cmds w = [["shutdown"; "/s"; "/t"; "30"]]
  /\ w_fs w !! schedule_file = Some (File "30").
Proof. vm_compute. split; reflexivity. Qed.

Example monitor_ex_invalid :
  let w := after_cycle "win32" run_ok exn_name (world_with_sentinel "-5") in
  w_cmds w = [] /\ w_fs w !! schedule_file = Some (File "-5")
  /\ w_stdout w = ["读取到关机指令: '-5'"; "内容不是有效的正整数，忽略。"].
Proof. vm_compute. repeat split; reflexivity. Qed.

Example monitor_ex_zero_linux :
  w_cmds (after_cycle "linux" run_ok exn_name (world_with_sentinel "0")) = []
  /\ w_fs (after_cycle "linux" run_ok exn_name (world_with_sentinel "0")) !! schedule_file
     = Some (File "0")
  /\ w_fs (after_cycle "linux" run_ok exn_name (world_with_sentinel "12")) !! schedule_file
     = None.
Proof. vm_compute. repeat split; reflexivity. Qed.

Section MonadLemmas.
Context {A B : Type}.
Variable R : world -> world -> Prop.
Hypothesis R_refl : forall w, R w w.
Hypothesis R_trans : forall w1 w2 w3, R w1 w2 -> R w2 w3 -> R w1 w3.

Lemma preserves_ret (a : A) : preserves R (ret a).
Proof. intros w. apply R_refl. Qed.

Lemma preserves_bind (m : M world A) (k : A -> M world B) :
  preserves R m -> (forall a, preserves R (k a)) -> preserves R (m ≫= k).
Proof.
  intros Hm Hk w. unfold mbind, M_bind, bind.
  specialize (Hm w). destruct (m w) as [[a|e] w1]; simpl in *; [|exact Hm].
  eapply R_trans; [exact Hm|apply Hk].
Qed.

Lemma preserves_try (m : M world A) (h : exn -> M world A) :
  preserves R m -> (forall e, preserves R (h e)) -> preserves R (try_except m h).
Proof.
  intros Hm Hh w. unfold try_except.
  specialize (Hm w). destruct (m w) as [[a|e] w1]; simpl in *; [exact Hm|].
  eapply R_trans; [exact Hm|apply Hh].
Qed.

Lemma preserves_print line : (forall w, R w (snd (print line w))) -> preserves R (print line).
Proof. intros H w. apply H. Qed.

End MonadLemmas.

Section SafeLemmas.
Context {A B : Type}.

Lemma safe_ret (a : A) : never_raises (ret a : M world A).
Proof. intros w. now exists a. Qed.

Lemma safe_bind (m : M world A) (k : A -> M world B) :
  never_raises m -> (forall a, never_raises (k a)) -> never_raises (m ≫= k).
Proof.
  intros Hm Hk w. unfold mbind, M_bind, bind.
  destruct (Hm w) as [a Ha]. destruct (m w) as [r w1]; simpl in *; subst r.
  apply Hk.
Qed.

Lemma safe_try (m : M world A) (h : exn -> M world A) :
  (forall e, never_raises (h e)) -> never_raises (try_except m h).
Proof.
  intros Hh w. unfold try_except.
  destruct (m w) as [[a|e] w1]; [now exists a|apply Hh].
Qed.

End SafeLemmas.

Lemma same_sentinel_refl w : same_sentinel w w.
Proof. reflexivity. Qed.

Lemma same_sentinel_trans w1 w2 w3 :
  same_sentinel w1 w2 -> same_sentinel w2 w3 -> same_sentinel w1 w3.
Proof. unfold same_sentinel. congruence. Qed.

Lemma only_cancelled_refl w : only_cancelled w w.
Proof. intros argv H. now left. Qed.

Lemma only_cancelled_trans w1 w2 w3 :
  only_cancelled w1 w2 -> only_cancelled w2 w3 -> only_cancelled w1 w3.
Proof.
  intros H12 H23 argv H. destruct (H23 argv H) as [H2| ->]; [now apply H12|now right].
Qed.

Lemma keeps_ret {A} (a : A) : keeps_sentinel (ret a).
Proof. apply preserves_ret, same_sentinel_refl. Qed.

Lemma keeps_bind {A B} (m : M world A) (k : A -> M world B) :
  keeps_sentinel m -> (forall a, keeps_sentinel (k a)) -> keeps_sentinel (m ≫= k).
Proof. apply preserves_bind, same_sentinel_trans. Qed.

Lemma keeps_try {A} (m : M world A) (h : exn -> M world A) :
  keeps_sentinel m -> (forall e, keeps_sentinel (h e)) -> keeps_sentinel (try_except m h).
Proof. apply preserves_try, same_sentinel_trans. Qed.

Lemma cancelled_ret {A} (a : A) : preserves only_cancelled (ret a).
Proof. apply preserves_ret, only_cancelled_refl. Qed.

Lemma cancelled_bind {A B} (m : M world A) (k : A -> M world B) :
  preserves only_cancelled m -> (forall a, preserves only_cancelled (k a)) ->
  preserves only_cancelled (m ≫= k).
Proof. apply preserves_bind, only_cancelled_trans. Qed.

Lemma cancelled_try {A} (m : M world A) (h : exn -> M world A) :
  preserves only_cancelled m -> (forall e, preserves only_cancelled (h e)) ->
  preserves only_cancelled (try_except m h).
Proof. apply preserves_try, only_cancelled_trans. Qed.

Lemma keeps_print line : keeps_sentinel (print line).
Proof. intros w. reflexivity. Qed.

Lemma cancelled_print line : preserves only_cancelled (print line).
Proof. intros w argv H. now left. Qed.

Lemma cancelled_fs_query {A} (q : gmap string node -> A) :
  preserves only_cancelled (fs_query q).
Proof. intros w. apply only_cancelled_refl. Qed.

Lemma cancelled_remove f : preserves only_cancelled (remove f).
Proof.
  intros w argv H. left. unfold remove, fs_update in H.
  now destruct (os_remove (w_fs w) f).
Qed.

Lemma safe_print line : never_raises (print line).
Proof. intros w. now exists tt. Qed.

Lemma keeps_fs_query {A} (q : gmap string node -> A) : keeps_sentinel (fs_query q).
Proof. intros w. reflexivity. Qed.

Lemma safe_fs_query {A} (q : gmap string node -> A) : never_raises (fs_query q).
Proof. intros w. now eexists. Qed.

Lemma no_slash_key f : PyStr.contains f "/" = false -> fs_key f = f.
Proof.
  intros H. unfold fs_key, PosixPath.isabs, PyStr.startswith.
  destruct f as [|a f]; [reflexivity|].
  cbn [PyStr.contains] in H. apply orb_false_iff in H as [H _]. now rewrite H.
Qed.

Lemma keeps_remove f :
  PyStr.contains f "/" = false -> f <> schedule_file -> keeps_sentinel (remove f).
Proof.
  intros Hf Hne w. unfold remove, fs_update, os_remove. rewrite (no_slash_key f Hf).
  destruct (w_fs w !! f) as [[content|]|]; simpl; try reflexivity.
  now apply lookup_delete_ne.
Qed.

Lemma listed_iff fs name :
  PyStr.contains name "/" = false ->
  name ∈ os_listdir_cwd fs <-> is_Some (fs !! name).
Proof.
  intros Hn. unfold os_listdir_cwd.
  rewrite list_elem_of_filter, elem_of_elements, elem_of_dom. tauto.
Qed.

Section ControlLemmas.
Variable platform : string.
Variable run_result : list string -> exc (Z * string).
Variable str_exn : exn -> string.

Lemma keeps_subprocess_run argv : keeps_sentinel (subprocess_run run_result argv).
Proof. intros w. reflexivity. Qed.

Lemma keeps_remove_legacy names :
  Forall (fun f => PyStr.contains f "/" = false /\ f <> schedule_file) names ->
  keeps_sentinel (remove_legacy str_exn names).
Proof.
  induction 1 as [|f names [Hf Hne] _ IH]; [apply keeps_ret|].
  cbn [remove_legacy]. apply keeps_bind; [|intros _; exact IH].
  apply keeps_try; [|intros e; apply keeps_print].
  apply keeps_bind; [now apply keeps_remove|intros _; apply keeps_print].
Qed.

Lemma legacy_names_ok fs :
  Forall (fun f => PyStr.contains f "/" = false /\ f <> schedule_file)
    (filter (fun n => is_legacy_name n = true) (os_listdir_cwd fs)).
Proof.
  apply Forall_forall. intros f Hin.
  apply list_elem_of_filter in Hin as [Hleg Hin].
  apply list_elem_of_filter in Hin as [Hslash _].
  split; [exact Hslash|]. intros ->. discriminate Hleg.
Qed.

Lemma keeps_cancel_shutdown : keeps_sentinel (cancel_shutdown platform run_result str_exn).
Proof.
  unfold cancel_shutdown. apply keeps_try.
  2:{ intros e. apply keeps_bind; [apply keeps_print|intros _; apply keeps_ret]. }
  apply keeps_bind.
  { destruct (String.eqb platform "win32").
    - apply keeps_bind; [apply keeps_subprocess_run|].
      intros result. destruct (fst result =? 0); [apply keeps_print|].
      destruct (PyStr.contains _ _); apply keeps_print.
    - destruct (is_unix platform); apply keeps_print. }
  intros _. intros w. unfold mbind, M_bind, bind, fs_query.
  pose proof (keeps_remove_legacy _ (legacy_names_ok (w_fs w)) w) as Hk.
  destruct (remove_legacy _ _ w) as [[[]|e] w1]; simpl in *; exact Hk.
Qed.

Lemma safe_cancel_shutdown : never_raises (cancel_shutdown platform run_result str_exn).
Proof.
  unfold cancel_shutdown. apply safe_try. intros e.
  apply safe_bind; [apply safe_print|intros _; apply safe_ret].
Qed.

Lemma keeps_monitor_cancel files :
  keeps_sentinel (monitor_cancel platform run_result str_exn files).
Proof.
  unfold monitor_cancel. destruct (bool_decide _); [|apply keeps_ret].
  apply keeps_bind; [apply keeps_print|intros _].
  apply keeps_bind; [apply keeps_cancel_shutdown|intros _].
  apply keeps_try; [|intros e; apply keeps_print].
  apply keeps_bind; [|intros _; apply keeps_print].
  apply keeps_remove; [reflexivity|discriminate].
Qed.

Lemma safe_monitor_cancel files :
  never_raises (monitor_cancel platform run_result str_exn files).
Proof.
  unfold monitor_cancel. destruct (bool_decide _); [|apply safe_ret].
  apply safe_bind; [apply safe_print|intros _].
  apply safe_bind; [apply safe_cancel_shutdown|intros _].
  apply safe_try. intros e. apply safe_print.
Qed.

Lemma cancelled_remove_legacy names :
  preserves only_cancelled (remove_legacy str_exn names).
Proof.
  induction names as [|f names IH]; [apply cancelled_ret|].
  cbn [remove_legacy]. apply cancelled_bind; [|intros _; exact IH].
  apply cancelled_try; [|intros e; apply cancelled_print].
  apply cancelled_bind; [apply cancelled_remove|intros _; apply cancelled_print].
Qed.

Lemma cancelled_cancel_shutdown :
  preserves only_cancelled (cancel_shutdown platform run_result str_exn).
Proof.
  unfold cancel_shutdown. apply cancelled_try.
  2:{ intros e. apply cancelled_bind; [apply cancelled_print|intros _; apply cancelled_ret]. }
  apply cancelled_bind.
  { destruct (String.eqb platform "win32").
    - apply cancelled_bind.
      + intros w argv Hin. cbn in Hin. apply elem_of_app in Hin as [Hin|Hin]; [now left|].
        apply list_elem_of_singleton in Hin. now right.
      + intros result. destruct (fst result =? 0); [apply cancelled_print|].
        destruct (PyStr.contains _ _); apply cancelled_print.
    - destruct (is_unix platform); apply cancelled_print. }
  intros _. apply cancelled_bind; [apply cancelled_fs_query|intros names].
  apply cancelled_bind; [apply cancelled_remove_legacy|intros _; apply cancelled_ret].
Qed.

Lemma cancelled_monitor_cancel files :
  preserves only_cancelled (monitor_cancel platform run_result str_exn files).
Proof.
  unfold monitor_cancel. destruct (bool_decide _); [|apply cancelled_ret].
  apply cancelled_bind; [apply cancelled_print|intros _].
  apply cancelled_bind; [apply cancelled_cancel_shutdown|intros _].
  apply cancelled_try; [|intros e; apply cancelled_print].
  apply cancelled_bind; [apply cancelled_remove|intros _; apply cancelled_print].
Qed.

Lemma schedule_shutdown_spec seconds w :
  exists w',
    schedule_shutdown platform run_result str_exn seconds w
    = (Ok (schedule_reports_success platform run_result seconds), w')
    /\ w_fs w' = w_fs w
    /\ w_cmds w' = (w_cmds w ++ schedule_commands platform seconds)%list.
Proof.
  unfold schedule_shutdown, try_except, schedule_reports_success, schedule_commands.
  destruct (String.eqb platform "win32").
  - unfold mbind, M_bind, bind, subprocess_run.
    destruct (run_result _) as [[rc err]|e]; cbn [fst snd].
    + destruct (rc =? 0); eexists; (split; [reflexivity|split; reflexivity]).
    + eexists; (split; [reflexivity|split; reflexivity]).
  - unfold mbind, M_bind, bind.
    destruct (is_unix platform); eexists;
      (split; [reflexivity|split; [reflexivity|cbn; now rewrite app_nil_r]]).
Qed.

End ControlLemmas.

(** The schedule part of a turn, when the sentinel is listed and is a
    file with the text [text]. *)
Lemma monitor_schedule_spec platform run_result str_exn files w1 text :
  schedule_file ∈ files ->
  w_fs w1 !! schedule_file = Some (File text) ->
  let content := PyStr.strip text in
  let seconds := PyStr.int_of content in
  exists w',
    monitor_schedule platform run_result str_exn files w1 = (Ok tt, w')
    /\ if is_positive_integer content then
         w_cmds w' = (w_cmds w1 ++ schedule_commands platform seconds)%list
         /\ w_fs w' = (if schedule_reports_success platform run_result seconds
                       then delete schedule_file (w_fs w1)
                       else w_fs w1)
       else
         w_cmds w' = w_cmds w1
         /\ w_fs w' = w_fs w1
         /\ last (w_stdout w') = Some "内容不是有效的正整数，忽略。".
Proof.
  intros Hin Hfile. cbv zeta.
  unfold monitor_schedule. rewrite bool_decide_eq_true_2 by exact Hin.
  unfold try_except.
  unfold mbind at 1, M_bind at 1, bind at 1.
  unfold read_file, read_text.
  change (fs_key schedule_file) with schedule_file. rewrite Hfile.
  unfold mbind at 1, M_bind at 1, bind at 1. unfold print at 1.
  destruct (is_positive_integer (PyStr.strip text)).
  - unfold mbind at 1, M_bind at 1, bind at 1. unfold print at 1.
    unfold mbind at 1, M_bind at 1, bind at 1.
    match goal with
    | |- context [schedule_shutdown _ _ _ ?s ?w0] =>
        destruct (schedule_shutdown_spec platform run_result str_exn s w0)
          as (w2 & -> & Hfs2 & Hcmds2)
    end.
    cbn [w_fs w_cmds] in Hfs2, Hcmds2. cbv beta iota.
    destruct (schedule_reports_success platform run_result _).
    + unfold mbind, M_bind, bind, remove, fs_update, os_remove.
      change (fs_key schedule_file) with schedule_file. rewrite Hfs2, Hfile.
      eexists. split; [reflexivity|]. cbn. now rewrite Hcmds2.
    + eexists. split; [reflexivity|]. cbn. now rewrite Hcmds2, Hfs2.
  - eexists. split; [reflexivity|]. cbn. repeat split. now rewrite last_snoc.
Qed.

(** A turn of the monitor when the schedule sentinel is a file: the cancel
    part runs, leaves the sentinel alone, and the schedule part follows. *)
Lemma after_cycle_unfold platform run_result str_exn w text :
  w_fs w !! schedule_file = Some (File text) ->
  let files := os_listdir_cwd (w_fs w) in
  let w1 := snd (monitor_cancel platform run_result str_exn files w) in
  schedule_file ∈ files
  /\ w_fs w1 !! schedule_file = Some (File text)
  /\ after_cycle platform run_result str_exn w
     = snd (monitor_schedule platform run_result str_exn files w1).
Proof.
  intros Hfile. cbv zeta.
  pose proof (keeps_monitor_cancel platform run_result str_exn
                (os_listdir_cwd (w_fs w)) w) as Hkeep.
  unfold same_sentinel in Hkeep.
  destruct (safe_monitor_cancel platform run_result str_exn
              (os_listdir_cwd (w_fs w)) w) as [[] Hsafe].
  destruct (monitor_cancel platform run_result str_exn (os_listdir_cwd (w_fs w)) w)
    as [r w1] eqn:Hcancel.
  cbn [fst snd] in *. subst r. rewrite Hfile in Hkeep.
  assert (Hlisted : schedule_file ∈ os_listdir_cwd (w_fs w))
    by (apply listed_iff; [reflexivity|rewrite Hfile; eauto]).
  repeat split; [exact Hlisted|exact Hkeep|].
  destruct (monitor_schedule_spec platform run_result str_exn _ w1 text Hlisted Hkeep)
    as (w' & Hrun & _).
  unfold after_cycle, shutdown_monitor_cycle, try_except, mbind, M_bind, bind, fs_query.
  now rewrite Hcancel, Hrun.
Qed.



(* ------------------------------------------------------------------ *)
(** ** Mailbox *)

Lemma statuses_of_app a b : statuses_of (a ++ b) = (statuses_of a ++ statuses_of b)%list.
Proof.
  induction a as [|o a IH]; [reflexivity|].
  destruct o; simpl; now rewrite ?IH.
Qed.

Example send_text_ex :
  let r := api_send_text exn_name sample_dumps sample_now
             (Ok (JObj [("text", JStr " hi ")])) "192.168.1.7" (fresh_conn, empty_world) in
  codes r = [200]
  /\ w_fs (world_of r) !! mailbox_to_server
     = Some (File (sample_dumps (JObj [("text", JStr "hi"); ("sender_ip", JStr "192.168.1.7");
                                       ("timestamp", sample_now);
                                       ("sender_type", JStr "mobile")])))
  /\ api_send_text exn_name sample_dumps sample_now
       (Ok (JObj [("text", JStr "  ")])) "192.168.1.7" (fresh_conn, empty_world)
     = (Raise TypeError, (fresh_conn, empty_world))
  /\ api_send_text exn_name sample_dumps sample_now
       (Raise JSONDecodeError) "192.168.1.7" (fresh_conn, empty_world)
     = (Raise TypeError, (fresh_conn, empty_world)).
Proof. vm_compute. repeat split; reflexivity. Qed.

(** C6, as the claim states it, fails: after a browser has written the
    ToServer slot with [/api/send_text], [/api/confirm_message] answers 200
    and the ToServer slot still holds the message. *)
Lemma confirm_message_keeps_to_server :
  let sent_text := api_send_text exn_name sample_dumps sample_now
                     (Ok (JObj [("text", JStr "hi")])) "192.168.1.7"
                     (fresh_conn, empty_world) in
  let confirmed := api_confirm_message exn_name sample_dumps
                     (fresh_conn, world_of sent_text) in
  codes confirmed = [200]
  /\ w_fs (world_of sent_text) !! mailbox_to_server
     = Some (File (sample_dumps (JObj [("text", JStr "hi"); ("sender_ip", JStr "192.168.1.7");
                                       ("timestamp", sample_now);
                                       ("sender_type", JStr "mobile")])))
  /\ w_fs (world_of confirmed) !! mailbox_to_server
     = w_fs (world_of sent_text) !! mailbox_to_server.
Proof. vm_compute. repeat split; reflexivity. Qed.


Section RunLemmas.
Context {S A B : Type}.

Lemma run_bind (m : M S A) (k : A -> M S B) s a s' :
  m s = (Ok a, s') -> (m ≫= k) s = k a s'.
Proof. intros H. unfold mbind, M_bind, bind. now rewrite H. Qed.

Lemma run_bind_raise (m : M S A) (k : A -> M S B) s e s' :
  m s = (Raise e, s') -> (m ≫= k) s = (Raise e, s').
Proof. intros H. unfold mbind, M_bind, bind. now rewrite H. Qed.

Lemma run_try_ok (m : M S A) (h : exn -> M S A) s a s' :
  m s = (Ok a, s') -> try_except m h s = (Ok a, s').
Proof. intros H. unfold try_except. now rewrite H. Qed.

Lemma run_try_raise (m : M S A) (h : exn -> M S A) s e s' :
  m s = (Raise e, s') -> try_except m h s = h e s'.
Proof. intros H. unfold try_except. now rewrite H. Qed.

End RunLemmas.

(** the events of a JSON answer *)
Lemma reply_json_run json_dumps code body c w :
  peer_takes c = None ->
  reply_json json_dumps code body (c, w)
  = (Ok tt,
     ({| sent := (sent c ++ [ SendResponse code;
                              SendHeader "Content-type" "application/json";
                              EndHeaders;
                              Write (list_byte_of_string (json_dumps body)) ])%list;
         peer_takes := None |}, w)).
Proof.
  intros Hpeer. destruct c as [sent0 peer0]. cbn [peer_takes] in Hpeer. subst peer0.
  unfold reply_json, mbind, M_bind, bind, send, wfile_write_h, wfile_write, emit.
  cbn [fst snd sent peer_takes]. now rewrite <- !app_assoc.
Qed.

Lemma reply_json_answer json_dumps code body c w :
  peer_takes c = None ->
  reply_json json_dumps code body (c, w)
  = (Ok tt, ({| sent := (sent c ++ json_answer json_dumps code body)%list;
                peer_takes := None |}, w)).
Proof. apply reply_json_run. Qed.

(** C6, amended: [/api/confirm_message] clears the ToMobile slot, the file
    [text_message.json] that the send-text action of the desktop window
    writes and that [/api/check_message] reads, and answers 200; the
    ToServer slot is left as it is. *)
Theorem confirm_message_clears_to_mobile (str_exn : exn -> string)
    (json_dumps : json -> string) (c : conn) (w : world) :
  peer_takes c = None ->
  w_fs w !! mailbox_to_mobile <> Some Dir ->
  let r := api_confirm_message str_exn json_dumps (c, w) in
  fst r = Ok tt
  /\ codes r = (statuses_of (sent c) ++ [200])%list
  /\ w_fs (world_of r) = delete mailbox_to_mobile (w_fs w)
  /\ w_fs (world_of r) !! mailbox_to_mobile = None
  /\ w_fs (world_of r) !! mailbox_to_server = w_fs w !! mailbox_to_server.
Proof.
  intros Hpeer Hnodir. cbv zeta.
  assert (Hrun : exists c' w',
             api_confirm_message str_exn json_dumps (c, w) = (Ok tt, (c', w'))
             /\ statuses_of (sent c') = (statuses_of (sent c) ++ [200])%list
             /\ w_fs w' = delete mailbox_to_mobile (w_fs w)).
  { unfold api_confirm_message.
    destruct (w_fs w !! mailbox_to_mobile) as [[content|]|] eqn:Hslot; [|congruence|].
    - do 2 eexists. split.
      + apply run_try_ok.
        erewrite run_bind by reflexivity. cbn [fst snd].
        unfold os_path_exists. change (fs_key mailbox_to_mobile) with mailbox_to_mobile.
        rewrite Hslot.
        erewrite run_bind.
        2:{ erewrite run_bind.
            2:{ unfold on_world, remove, fs_update, os_remove.
                change (fs_key mailbox_to_mobile) with mailbox_to_mobile.
                cbn [snd]. rewrite Hslot. reflexivity. }
            reflexivity. }
        apply reply_json_run. exact Hpeer.
      + cbn [sent w_fs set_fs]. rewrite statuses_of_app. split; reflexivity.
    - do 2 eexists. split.
      + apply run_try_ok.
        erewrite run_bind by reflexivity. cbn [fst snd].
        unfold os_path_exists. change (fs_key mailbox_to_mobile) with mailbox_to_mobile.
        rewrite Hslot.
        erewrite run_bind by reflexivity. cbn [fst snd].
        apply reply_json_run. exact Hpeer.
      + cbn [sent w_fs]. rewrite statuses_of_app. split; [reflexivity|].
        symmetry. now apply delete_id. }
  destruct Hrun as (c' & w' & -> & Hcodes & Hfs).
  unfold codes, world_of. cbn [fst snd].
  repeat split; [exact Hcodes|exact Hfs|..]; rewrite Hfs.
  - apply lookup_delete_eq.
  - apply lookup_delete_ne. discriminate.
Qed.

Lemma confirm_message_clears_to_mobile_witness :
  let w := snd (save_text_message exn_name sample_dumps sample_now "192.168.1.2"
                  "hello" "computer" empty_world) in
  let r := api_confirm_message exn_name sample_dumps (fresh_conn, w) in
  fst r = Ok tt
  /\ codes r = (statuses_of (sent fresh_conn) ++ [200])%list
  /\ w_fs (world_of r) = delete mailbox_to_mobile (w_fs w)
  /\ w_fs (world_of r) !! mailbox_to_mobile = None
  /\ w_fs (world_of r) !! mailbox_to_server = w_fs w !! mailbox_to_server.
Proof.
  apply (confirm_message_clears_to_mobile exn_name sample_dumps fresh_conn);
    [reflexivity|vm_compute; discriminate].
Defined.

(* ------------------------------------------------------------------ *)
(** ** Request dispatcher *)

Example create_file_ex :
  let post body referer w :=
    api_create_file "/" ["/srv/pub"] exn_name sample_dumps body referer (fresh_conn, w) in
  let w0 := {| w_fs := sample_tree; w_shutdown_status := ""; w_cmds := []; w_stdout := [] |} in
  let notes := Ok (JObj [("filename", JStr "notes.txt"); ("content", JStr "hi")]) in
  let refused r w := r = (Raise TypeError, (fresh_conn, w)) in
  codes (post notes "" w0) = [201]
  /\ w_fs (world_of (post notes "" w0)) !! "/srv/pub/notes.txt" = Some (File "hi")
  /\ refused (post notes "" (world_of (post notes "" w0))) (world_of (post notes "" w0))
  /\ codes (post notes "http://h:1/share1/music/" w0) = [201]
  /\ w_fs (world_of (post notes "http://h:1/share1/music/" w0)) !! "/srv/pub/music/notes.txt"
     = Some (File "hi")
  /\ refused (post notes "http://h:1/share1/nowhere/" w0) w0
  /\ refused (post (Ok (JObj [("filename", JStr "notes.bin"); ("content", JStr "x")])) "" w0) w0
  /\ refused (post (Ok (JObj [("filename", JStr "../x.txt")])) "" w0) w0
  /\ refused (post (Ok (JObj [])) "" w0) w0
  /\ refused (post notes "" empty_world) empty_world.
Proof. vm_compute. repeat split; reflexivity. Qed.

Example shutdown_ex :
  let post body := api_shutdown exn_name sample_dumps body (fresh_conn, empty_world) in
  let refused body := post body = (Raise TypeError, (fresh_conn, empty_world)) in
  codes (post (Ok (JObj [("seconds", JInt 30)]))) = [200]
  /\ w_fs (world_of (post (Ok (JObj [("seconds", JInt 30)])))) !! schedule_file
     = Some (File "30")
  /\ w_shutdown_status (world_of (post (Ok (JObj [("seconds", JInt 30)]))))
     = "电脑端将于30秒后关机"
  /\ refused (Ok (JObj [("seconds", JInt 0)]))
  /\ refused (Ok (JObj [("seconds", JStr "30")]))
  /\ refused (Ok (JObj [("seconds", JFloat "1.5")]))
  /\ refused (Ok (JObj []))
  /\ refused (Ok (JArr []))
  /\ refused (Raise JSONDecodeError).
Proof. vm_compute. repeat split; reflexivity. Qed.

Lemma write_file_relative name text w :
  PyStr.contains name "/" = false ->
  w_fs w !! name <> Some Dir ->
  write_file name (Ok text) w = (Ok tt, set_fs (<[name := File text]> (w_fs w)) w).
Proof.
  intros Hname Hnodir. unfold write_file.
  assert (Hopen : fs_update (fun fs => open_w fs name) w
                  = (Ok tt, set_fs (<[name := File ""]> (w_fs w)) w)).
  { unfold fs_update, open_w. rewrite (no_slash_key name Hname).
    assert (Habs : PosixPath.isabs name = false).
    { unfold PosixPath.isabs, PyStr.startswith. destruct name as [|a name]; [reflexivity|].
      cbn [PyStr.contains] in Hname. now apply orb_false_iff in Hname as [-> _]. }
    rewrite Habs. now destruct (w_fs w !! name) as [[?|]|]. }
  erewrite run_bind by exact Hopen.
  erewrite run_bind by reflexivity.
  unfold fs_update. rewrite (no_slash_key name Hname). cbn [w_fs set_fs].
  rewrite insert_insert_eq. reflexivity.
Qed.

(** A turn of the monitor over the sentinel text [True]. *)
Lemma after_cycle_true platform run_result str_exn w :
  w_fs w !! schedule_file = Some (File "True") ->
  let w' := after_cycle platform run_result str_exn w in
  w_fs w' !! schedule_file = Some (File "True")
  /\ only_cancelled w w'
  /\ last (w_stdout w') = Some "内容不是有效的正整数，忽略。".
Proof.
  intros Hfile. cbv zeta.
  destruct (after_cycle_unfold platform run_result str_exn w "True" Hfile)
    as (Hlisted & Hkeep & Hcycle).
  destruct (monitor_schedule_spec platform run_result str_exn _ _ "True" Hlisted Hkeep)
    as (w' & Hrun & Hcmds & Hfs & Hlast).
  rewrite Hcycle, Hrun. cbn [snd].
  repeat split; [now rewrite Hfs|..|exact Hlast].
  intros argv Hin. rewrite Hcmds in Hin.
  exact (cancelled_monitor_cancel platform run_result str_exn _ w argv Hin).
Qed.

Lemma after_cycles_true platform run_result str_exn n :
  forall w,
    w_fs w !! schedule_file = Some (File "True") ->
    let w' := after_cycles platform run_result str_exn n w in
    w_fs w' !! schedule_file = Some (File "True") /\ only_cancelled w w'.
Proof.
  induction n as [|n IH]; intros w Hfile; cbv zeta.
  - split; [exact Hfile|apply only_cancelled_refl].
  - destruct (IH w Hfile) as [Hn Hc].
    destruct (after_cycle_true platform run_result str_exn _ Hn) as (Hs & Hc' & _).
    split; [exact Hs|]. eapply only_cancelled_trans; [exact Hc|exact Hc'].
Qed.

(** C10: [/api/shutdown] with the JSON body that maps [seconds] to [true].
    A boolean is an instance of [int] with [True > 0], so the handler
    answers 200, sets the status to a text that contains [True] and writes
    [True] into the schedule sentinel, running no command itself.
    [is_positive_integer] rejects that text: in every later turn of the
    monitor the sentinel is still there with the same text, the last line
    printed says that the content is ignored, and the only commands ever
    run are cancellations; no shutdown is scheduled. *)
Theorem shutdown_true_accepted_never_run (platform : string)
    (run_result : list string -> exc (Z * string)) (str_exn : exn -> string)
    (json_dumps : json -> string) (c : conn) (w : world) :
  peer_takes c = None ->
  w_fs w !! schedule_file <> Some Dir ->
  let r := api_shutdown str_exn json_dumps (Ok (JObj [("seconds", JBool true)])) (c, w) in
  Py.as_int (JBool true) = Some (1, "True")
  /\ fst r = Ok tt
  /\ codes r = (statuses_of (sent c) ++ [200])%list
  /\ w_shutdown_status (world_of r) = "电脑端将于True秒后关机"
  /\ w_fs (world_of r) !! schedule_file = Some (File "True")
  /\ w_cmds (world_of r) = w_cmds w
  /\ is_positive_integer (PyStr.strip "True") = false
  /\ forall n,
       let w' := after_cycles platform run_result str_exn n (world_of r) in
       w_fs w' !! schedule_file = Some (File "True")
       /\ only_cancelled w w'
       /\ last (w_stdout (after_cycle platform run_result str_exn w'))
          = Some "内容不是有效的正整数，忽略。".
Proof.
  intros Hpeer Hnodir. cbv zeta.
  assert (Hrun : api_shutdown str_exn json_dumps (Ok (JObj [("seconds", JBool true)])) (c, w)
                 = (Ok tt,
                    ({| sent := (sent c ++ [ SendResponse 200;
                                             SendHeader "Content-type" "application/json";
                                             EndHeaders;
                                             Write (list_byte_of_string (json_dumps success)) ])%list;
                        peer_takes := None |},
                     {| w_fs := <[schedule_file := File "True"]> (w_fs w);
                        w_shutdown_status := "电脑端将于True秒后关机";
                        w_cmds := w_cmds w; w_stdout := w_stdout w |}))).
  { unfold api_shutdown. apply run_try_ok.
    erewrite run_bind by reflexivity. erewrite run_bind by reflexivity.
    cbn [Py.as_int fold_left fst snd String.eqb Ascii.eqb Bool.eqb].
    change (1 <=? 0) with false. cbv iota.
    erewrite run_bind.
    2:{ unfold on_world. cbn [fst snd].
        rewrite (write_file_relative schedule_file "True" w eq_refl Hnodir). reflexivity. }
    erewrite run_bind by reflexivity.
    rewrite reply_json_run by exact Hpeer. reflexivity. }
  rewrite Hrun. unfold codes, world_of. cbn [fst snd sent w_fs w_shutdown_status w_cmds].
  repeat split.
  - rewrite statuses_of_app. reflexivity.
  - apply lookup_insert_eq.
  - apply after_cycles_true. apply lookup_insert_eq.
  - eapply only_cancelled_trans; [|apply after_cycles_true; apply lookup_insert_eq].
    intros argv Hin. now left.
  - apply after_cycle_true. apply after_cycles_true. apply lookup_insert_eq.
Qed.

Lemma shutdown_true_accepted_never_run_witness :
  let r := api_shutdown exn_name sample_dumps (Ok (JObj [("seconds", JBool true)]))
             (fresh_conn, empty_world) in
  codes r = [200]
  /\ w_fs (after_cycles "win32" run_ok exn_name 3 (world_of r)) !! schedule_file
     = Some (File "True").
Proof.
  assert (Hnodir : w_fs empty_world !! schedule_file <> Some Dir)
    by (vm_compute; discriminate).
  pose proof (shutdown_true_accepted_never_run "win32" run_ok exn_name sample_dumps
                fresh_conn empty_world eq_refl Hnodir) as H.
  cbv zeta in H. destruct H as (_ & _ & Hcodes & _ & _ & _ & _ & Hcycles).
  split; [exact Hcodes|exact (proj1 (Hcycles 3%nat))].
Defined.

Lemma open_w_ok fs p fs1 : open_w fs p = Ok fs1 -> fs1 = <[fs_key p := File ""]> fs.
Proof.
  unfold open_w. destruct (fs !! fs_key p) as [[?|]|]; try discriminate;
    destruct (PosixPath.isabs (fs_key p));
    try destruct (fs !! PosixPath.dirname (fs_key p)) as [[?|]|];
    intros [= <-]; reflexivity.
Qed.

Lemma write_file_ok p text w :
  can_create (w_fs w) p = true ->
  write_file p (Ok text) w = (Ok tt, set_fs (<[fs_key p := File text]> (w_fs w)) w).
Proof.
  unfold can_create. destruct (open_w (w_fs w) p) as [fs1|e] eqn:Hopen; [|discriminate].
  intros _. apply open_w_ok in Hopen as Hfs1. unfold write_file.
  erewrite run_bind by (unfold fs_update; rewrite Hopen; reflexivity).
  erewrite run_bind by reflexivity.
  unfold fs_update. cbn [w_fs set_fs]. subst fs1. now rewrite insert_insert_eq.
Qed.

Lemma write_file_raise p content w :
  can_create (w_fs w) p = false ->
  exists e, write_file p content w = (Raise e, w).
Proof.
  unfold can_create. destruct (open_w (w_fs w) p) as [fs1|e] eqn:Hopen; [discriminate|].
  intros _. exists e. unfold write_file.
  erewrite run_bind_raise; [reflexivity|]. unfold fs_update. now rewrite Hopen.
Qed.

Lemma send_error_raises code message (s : conn * world) :
  send_error code message s = (Raise TypeError, s).
Proof. reflexivity. Qed.

Section CreateFile.
Variables (cwd : string) (shared_dirs : list string).
Variables (str_exn : exn -> string) (json_dumps : json -> string).

(** The two ways [/api/create_file] ends on a body that is an object
    with a text [filename] and a text [content]: the file is created and
    201 is answered, or the handler ends in the [TypeError] of
    [send_error] and nothing has changed. *)
Lemma create_file_cases data raw text referer c w :
  peer_takes c = None ->
  Py.dict_get data "filename" (JStr "") = Ok (JStr raw) ->
  Py.dict_get data "content" (JStr "") = Ok (JStr text) ->
  let filename := PyStr.strip raw in
  let target := target_path cwd shared_dirs (w_fs w) referer filename in
  let r := api_create_file cwd shared_dirs str_exn json_dumps (Ok data) referer (c, w) in
  (exists filepath,
     bad_extension filename = false /\ bad_name filename = false
     /\ target = inl filepath
     /\ os_path_exists (w_fs w) filepath = false
     /\ can_create (w_fs w) filepath = true
     /\ r = (Ok tt, ({| sent := (sent c ++ json_answer json_dumps 201 success)%list;
                        peer_takes := None |},
                     set_fs (<[fs_key filepath := File text]> (w_fs w)) w)))
  \/ ((bad_extension filename = true
       \/ bad_name filename = true
       \/ (exists message, target = inr message)
       \/ (exists filepath, target = inl filepath
                            /\ (os_path_exists (w_fs w) filepath = true
                                \/ can_create (w_fs w) filepath = false)))
      /\ r = (Raise TypeError, (c, w))).
Proof.
  intros Hpeer Hname Hcontent. cbv zeta. unfold api_create_file.
  set (filename := PyStr.strip raw).
  assert (Hhead : forall k s,
    ((data0 ← lift_exc (Ok data);
      v ← lift_exc (Py.dict_get data0 "filename" (JStr ""));
      filename0 ← lift_exc (Py.strip v);
      content ← lift_exc (Py.dict_get data0 "content" (JStr ""));
      k filename0 content) : M (conn * world) unit) s
    = k filename (JStr text) s).
  { intros k s. erewrite run_bind by reflexivity. rewrite Hname.
    erewrite run_bind by reflexivity. erewrite run_bind by reflexivity.
    rewrite Hcontent. erewrite run_bind by reflexivity. reflexivity. }
  unfold try_except. rewrite Hhead. clear Hhead.
  destruct (bad_extension filename) eqn:Hext.
  { right. split; [now left|reflexivity]. }
  destruct (bad_name filename) eqn:Hbad.
  { right. split; [now right; left|reflexivity]. }
  erewrite run_bind by reflexivity. cbn [fst snd].
  destruct (target_path cwd shared_dirs (w_fs w) referer filename) as [filepath|message].
  2:{ right. split; [right; right; left; eauto|reflexivity]. }
  erewrite run_bind by reflexivity. cbn [fst snd].
  destruct (os_path_exists (w_fs w) filepath) eqn:Hex.
  { right. split; [right; right; right; eauto|reflexivity]. }
  destruct (can_create (w_fs w) filepath) eqn:Hcan.
  - left. exists filepath. repeat (split; [reflexivity|]).
    erewrite run_bind.
    2:{ unfold on_world. cbn [fst snd Py.text_of].
        rewrite (write_file_ok _ _ _ Hcan). reflexivity. }
    now rewrite reply_json_answer by exact Hpeer.
  - right. split; [right; right; right; eauto|].
    destruct (write_file_raise filepath (Py.text_of (JStr text)) w Hcan) as [e He].
    erewrite run_bind_raise.
    2:{ unfold on_world. cbn [fst snd]. rewrite He. reflexivity. }
    reflexivity.
Qed.

(** C7, amended: [/api/create_file] on a body that is a JSON object with
    a text [filename] and a text [content], for a name that the file
    system takes (no NUL character, at most 255 bytes) and a well-formed
    [Referer] (at most 4300 ASCII characters, with escapes that decode to
    UTF-8).  The file is created with
    the content and 201 is answered exactly when the stripped name ends
    in [.txt], contains neither two dots in a row nor a slash nor a
    backslash anywhere, the target directory resolves (the directory
    that the [Referer] names, or the first share), the target does not
    exist and can be opened for writing.  In every other case, and for a
    body that is not JSON, nothing is sent and no file is created or
    changed.  A file that existed is never changed. *)
Theorem create_file_created_or_refused data raw text referer c w :
  peer_takes c = None ->
  Py.dict_get data "filename" (JStr "") = Ok (JStr raw) ->
  Py.dict_get data "content" (JStr "") = Ok (JStr text) ->
  well_formed_url referer = true ->
  let filename := PyStr.strip raw in
  storable_name filename = true ->
  let target := target_path cwd shared_dirs (w_fs w) referer filename in
  let post body := api_create_file cwd shared_dirs str_exn json_dumps body referer (c, w) in
  let accepted filepath :=
    PyStr.endswith filename ".txt" = true
    /\ PyStr.contains filename ".." = false
    /\ PyStr.contains filename "/" = false
    /\ PyStr.contains filename PyStr.bs = false
    /\ target = inl filepath
    /\ os_path_exists (w_fs w) filepath = false
    /\ can_create (w_fs w) filepath = true in
  (forall filepath,
     accepted filepath ->
     post (Ok data)
     = (Ok tt, ({| sent := (sent c ++ json_answer json_dumps 201 success)%list;
                   peer_takes := None |},
                set_fs (<[fs_key filepath := File text]> (w_fs w)) w)))
  /\ ((forall filepath, ~ accepted filepath) ->
      sent (fst (snd (post (Ok data)))) = sent c /\ world_of (post (Ok data)) = w)
  /\ (forall k, is_Some (w_fs w !! k) ->
                w_fs (world_of (post (Ok data))) !! k = w_fs w !! k)
  /\ (forall e, sent (fst (snd (post (Raise e)))) = sent c /\ world_of (post (Raise e)) = w).
Proof.
  intros Hpeer Hname Hcontent _. cbv zeta. intros _.
  pose proof (create_file_cases data raw text referer c w Hpeer Hname Hcontent) as Hcases.
  cbv zeta in Hcases.
  set (r := api_create_file cwd shared_dirs str_exn json_dumps (Ok data) referer (c, w)) in *.
  set (filename := PyStr.strip raw) in *.
  set (target := target_path cwd shared_dirs (w_fs w) referer filename) in *.
  unfold bad_extension, bad_name in Hcases.
  split; [|split; [|split]].
  - intros filepath (Hext & Hdots & Hslash & Hbs & Ht & Hex & Hcan).
    destruct Hcases as [(fp & _ & _ & Ht' & _ & _ & Hr)|(Hwhy & _)].
    + assert (fp = filepath) as -> by congruence. exact Hr.
    + rewrite Hext, Hdots, Hslash, Hbs in Hwhy. cbn in Hwhy.
      destruct Hwhy as [?|[?|[(m & Hm)|(fp & Hfp & [?|?])]]]; congruence.
  - intros Hnone.
    destruct Hcases as [(fp & Hext & Hbad & Ht & Hex & Hcan & _)|(_ & Hr)].
    + destruct (Hnone fp). apply negb_false_iff in Hext.
      apply orb_false_iff in Hbad as [Hbad Hbs].
      apply orb_false_iff in Hbad as [Hdots Hslash]. now repeat split.
    + now rewrite Hr.
  - intros k Hk.
    destruct Hcases as [(fp & _ & _ & _ & Hex & _ & Hr)|(_ & Hr)]; rewrite Hr;
      [|reflexivity].
    unfold world_of. cbn [fst snd w_fs set_fs]. apply lookup_insert_ne. intros <-.
    unfold os_path_exists in Hex. destruct Hk as [x Hx]. now rewrite Hx in Hex.
  - intros e. unfold api_create_file.
    erewrite run_try_raise by (erewrite run_bind_raise; reflexivity).
    now rewrite send_error_raises.
Qed.

End CreateFile.

(** C7, as the claim states it, fails: the name [a..b.txt] ends in
    [.txt] and has neither a separator nor a segment of two dots, and the
    target [/srv/pub/a..b.txt] does not exist, so the claim promises 201
    and the file; the handler sends no 201 and creates nothing, because
    it looks for two dots anywhere in the name. *)
Lemma create_file_refuses_inner_dots :
  let r := api_create_file "/" ["/srv/pub"] exn_name sample_dumps
             (Ok (JObj [("filename", JStr "a..b.txt"); ("content", JStr "x")])) ""
             (fresh_conn, sample_world) in
  PyStr.endswith "a..b.txt" ".txt" = true
  /\ PyStr.contains "a..b.txt" "/" = false
  /\ PyStr.contains "a..b.txt" PyStr.bs = false
  /\ PyStr.split "/" "a..b.txt" = ["a..b.txt"]
  /\ os_path_exists sample_tree "/srv/pub/a..b.txt" = false
  /\ can_create sample_tree "/srv/pub/a..b.txt" = true
  /\ PyStr.contains "a..b.txt" ".." = true
  /\ codes r = []
  /\ world_of r = sample_world.
Proof. vm_compute. repeat split; reflexivity. Qed.

Lemma create_file_created_or_refused_witness :
  api_create_file "/" ["/srv/pub"] exn_name sample_dumps (Ok sample_notes) ""
    (fresh_conn, sample_world)
  = (Ok tt, ({| sent := json_answer sample_dumps 201 success; peer_takes := None |},
             set_fs (<["/srv/pub/notes.txt" := File "hi"]> sample_tree) sample_world)).
Proof.
  destruct (create_file_created_or_refused "/" ["/srv/pub"] exn_name sample_dumps
              sample_notes "notes.txt" "hi" "" fresh_conn sample_world
              eq_refl eq_refl eq_refl eq_refl eq_refl)
    as (Hcreated & _).
  apply (Hcreated "/srv/pub/notes.txt"). vm_compute. repeat split; reflexivity.
Defined.

(* ------------------------------------------------------------------ *)
(** * Further properties of the code *)

(** ** Streaming transfer engine: any peer *)


Lemma firstn_rest {A} (l : list A) (k : nat) :
  l = (firstn k l ++ skipn (List.length (firstn k l)) l)%list.
Proof.
  revert k. induction l as [|x l IH]; intros [|k]; try reflexivity.
  simpl. f_equal. apply IH.
Qed.

(** The loop of [shutil.copyfileobj], which the inherited [copyfile] runs:
    it writes what is left of the file, in chunks of at most 64 KiB, up to
    the end or to the broken pipe. *)
Lemma copyfileobj_any fuel :
  forall data pos c,
    (List.length data - pos < fuel)%nat ->
    exists chunks rest pos' r c',
      copyfileobj fuel (open_at data pos) c = (r, open_at data pos', c')
      /\ sent c' = (sent c ++ map Write chunks)%list
      /\ skipn pos data = (concat chunks ++ rest)%list
      /\ (r = Ok tt /\ rest = [] \/ r = Raise BrokenPipeError)
      /\ (peer_takes c = None -> r = Ok tt)
      /\ Forall chunk_ok chunks.
Proof.
  induction fuel as [|fuel IH]; intros data pos c Hfuel; [lia|].
  simpl. unfold f_read. cbn [f_closed open_at f_data f_pos].
  set (k := Z.to_nat bufsize).
  assert (Hk : (0 < k)%nat) by (unfold k, bufsize; lia).
  destruct (firstn k (skipn pos data)) as [|b buf] eqn:Hbuf.
  - exists [], [], (pos + 0)%nat, (Ok tt), c. simpl. rewrite app_nil_r.
    repeat split; auto.
    destruct (skipn pos data); [reflexivity|]. destruct k; [lia|discriminate].
  - assert (Hlen : (List.length (b :: buf) <= k)%nat)
      by (rewrite <- Hbuf, length_firstn; lia).
    assert (Hleft : (List.length (b :: buf) <= List.length data - pos)%nat)
      by (rewrite <- Hbuf, length_firstn, length_skipn; lia).
    assert (Hsplit : skipn pos data
                     = ((b :: buf) ++ skipn (pos + List.length (b :: buf)) data)%list).
    { rewrite (firstn_rest (skipn pos data) k) at 1.
      rewrite Hbuf, skipn_skipn. do 2 f_equal. lia. }
    destruct (wfile_write (b :: buf) c) as [c1|e] eqn:Hw.
    + destruct (IH data (pos + List.length (b :: buf))%nat c1)
        as (chunks & rest & pos' & r & c' & Hrun & Hsent & Hcat & Hr & Hp & Hch);
        [simpl List.length in *; lia|].
      exists ((b :: buf) :: chunks), rest, pos', r, c'.
      unfold open_at in Hrun. rewrite Hrun.
      assert (Hc1 : sent c1 = (sent c ++ [Write (b :: buf)])%list
                    /\ (peer_takes c = None -> peer_takes c1 = None)).
      { unfold wfile_write in Hw. destruct (peer_takes c) as [n|] eqn:Hpt.
        - destruct (_ <=? _)%nat; [|discriminate]. injection Hw as <-.
          split; [reflexivity|discriminate].
        - injection Hw as <-. split; [reflexivity|]. intros _. exact Hpt. }
      destruct Hc1 as [Hs1 Hp1].
      repeat split.
      * rewrite Hsent, Hs1, <- app_assoc. reflexivity.
      * rewrite Hsplit. cbn [concat]. rewrite Hcat, <- app_assoc. reflexivity.
      * exact Hr.
      * intros Hnone. apply Hp, Hp1, Hnone.
      * constructor; [|exact Hch]. split; [discriminate|]. unfold k in Hlen. lia.
    + exists [], (skipn pos data), (pos + List.length (b :: buf))%nat, (Raise e), c.
      assert (He : e = BrokenPipeError /\ peer_takes c <> None).
      { unfold wfile_write in Hw. destruct (peer_takes c) as [n|]; [|discriminate].
        destruct (_ <=? _)%nat; [discriminate|]. injection Hw as <-.
        split; [reflexivity|discriminate]. }
      destruct He as [-> Hnn]. simpl. rewrite app_nil_r.
      repeat split; auto. intros Hnone. congruence.
Qed.

Lemma absorbed (r : exc unit) :
  r = Ok tt /\ True \/ r = Raise BrokenPipeError -> absorb_disconnect r = Ok tt.
Proof. intros [[-> _]| ->]; reflexivity. Qed.

(** X1: without a [Range] header the answer is 200 with the size of the
    file as [Content-Length], then the file from its first byte, in
    chunks of at most 64 KiB.  A peer that closes the connection ends the
    transfer without an exception, after a prefix of the file; with a peer
    that stays the whole file is written. *)
Theorem full_file_served (ctype last_modified : string) (data : list Byte.byte) (c : conn) :
  exists chunks rest c',
    do_GET_file None ctype last_modified data c = (Ok tt, c')
    /\ sent c' = (sent c ++ head_200 ctype last_modified (Z.of_nat (List.length data))
                  ++ map Write chunks)%list
    /\ data = (concat chunks ++ rest)%list
    /\ Forall chunk_ok chunks
    /\ (peer_takes c = None -> rest = []).
Proof.
  unfold do_GET_file, send_head_file, copyfile.
  set (c0 := emit EndHeaders (emit _ (emit _ (emit _ (emit (SendResponse 200) c))))).
  destruct (copyfileobj_any (S (List.length (f_data (f_open data)) - f_pos (f_open data)))
              data 0 c0)
    as (chunks & rest & pos' & r & c' & Hrun & Hsent & Hcat & Hr & Hp & Hch);
    [cbn; lia|].
  unfold open_at in Hrun. unfold f_open at 3. rewrite Hrun.
  exists chunks, rest, c'. repeat split.
  - f_equal. apply absorbed. destruct Hr as [[-> _]| ->]; auto.
  - rewrite Hsent. unfold c0, emit, head_200. cbn [sent]. now rewrite <- !app_assoc.
  - exact Hcat.
  - exact Hch.
  - intros Hnone. destruct Hr as [[_ Hrest]|Hr]; [exact Hrest|].
    rewrite Hp in Hr by exact Hnone. discriminate.
Qed.

Section RangeAnyPeer.
Import PyStr.
Variables (ctype last_modified : string).



End RangeAnyPeer.


Lemma match_range_suffix_form x : Re.match_range ("bytes=-" ++ x) = None.
Proof.
  unfold Re.match_range.
  change ("bytes=-" ++ x) with ("bytes=" ++ String "-" x).
  rewrite strip_prefix_app. reflexivity.
Qed.

(** X3: a [Range] header that is not empty and that the pattern does not
    match gets no answer.  [range_request] calls [send_error(416, ...)],
    which raises [TypeError] in [log_message] before the status line is
    written: the handler ends with that exception and has sent nothing,
    neither a status nor a header nor a file byte.  This is the fate of
    a suffix range [bytes=-N], whatever [N] is. *)
Theorem unmatched_range_unanswered (ctype last_modified h : string)
    (data : list Byte.byte) (c : conn) :
  h <> "" ->
  Re.match_range h = None ->
  do_GET_file (Some h) ctype last_modified data c = (Raise TypeError, c)
  /\ forall n,
       do_GET_file (Some ("bytes=-" ++ n)) ctype last_modified data c
       = (Raise TypeError, c).
Proof.
  assert (Hgen : forall h', h' <> "" -> Re.match_range h' = None ->
            do_GET_file (Some h') ctype last_modified data c = (Raise TypeError, c)).
  { intros h' Hne Hno. unfold do_GET_file, send_head_file, range_request.
    destruct h' as [|a h']; [congruence|]. rewrite Hno. reflexivity. }
  intros Hne Hno. split; [now apply Hgen|].
  intros n. apply Hgen; [discriminate|apply match_range_suffix_form].
Qed.

Lemma unmatched_range_unanswered_witness :
  do_GET_file (Some "items=0-5") "video/mp4" "m" sample40 fresh_conn
  = (Raise TypeError, fresh_conn).
Proof.
  apply (unmatched_range_unanswered "video/mp4" "m" "items=0-5" sample40 fresh_conn);
    [discriminate|reflexivity].
Defined.

(** X4: a [Range] header with an empty value.  [range_request] returns
    without sending anything and the inherited copy then writes the file:
    the connection receives no status line and no header, only the bytes
    of the file (all of them when the peer stays). *)
Theorem empty_range_header_no_head (ctype last_modified : string)
    (data : list Byte.byte) (c : conn) :
  exists chunks rest c',
    do_GET_file (Some "") ctype last_modified data c = (Ok tt, c')
    /\ sent c' = (sent c ++ map Write chunks)%list
    /\ data = (concat chunks ++ rest)%list
    /\ (peer_takes c = None -> rest = []).
Proof.
  unfold do_GET_file, send_head_file, range_request, copyfile.
  change (Re.match_range "") with (@None (string * string)). cbv iota.
  destruct (copyfileobj_any (S (List.length (f_data (f_open data)) - f_pos (f_open data)))
              data 0 c)
    as (chunks & rest & pos' & r & c' & Hrun & Hsent & Hcat & Hr & Hp & Hch);
    [cbn; lia|].
  unfold open_at in Hrun. unfold f_open at 3. rewrite Hrun.
  exists chunks, rest, c'. repeat split.
  - f_equal. apply absorbed. destruct Hr as [[-> _]| ->]; auto.
  - exact Hsent.
  - exact Hcat.
  - intros Hnone. destruct Hr as [[_ Hrest]|Hr]; [exact Hrest|].
    rewrite Hp in Hr by exact Hnone. discriminate.
Qed.

(* ------------------------------------------------------------------ *)
(** ** Namespace resolver: what it accepts and what it ignores *)

Section ResolverLemmas.
Import PyStr.

Lemma string_app_assoc (a b c : string) : (a ++ b) ++ c = a ++ b ++ c.
Proof.
  induction a as [|x a IH]; [reflexivity|].
  change (String x ((a ++ b) ++ c) = String x (a ++ b ++ c)). now f_equal.
Qed.

Lemma before_first_app c p s :
  lacks c p = true -> before_first c (p ++ s) = p ++ before_first c s.
Proof.
  unfold lacks. induction p as [|a p IH]; intros H; [reflexivity|].
  cbn [list_ascii_of_string forallb] in H. apply andb_true_iff in H as [Ha Hp].
  change (String a p ++ s) with (String a (p ++ s)).
  change (String a p ++ before_first c s) with (String a (p ++ before_first c s)).
  cbn [before_first]. apply negb_true_iff in Ha. rewrite Ha. f_equal. now apply IH.
Qed.

Lemma before_first_stop c p s :
  lacks c p = true -> before_first c (p ++ String c s) = p.
Proof.
  intros H. rewrite before_first_app by exact H.
  cbn [before_first]. rewrite Ascii.eqb_refl. apply append_empty_r.
Qed.

Lemma before_first_lacks c p : lacks c p = true -> before_first c p = p.
Proof.
  intros H. rewrite <- (append_empty_r p) at 1.
  rewrite before_first_app by exact H. apply append_empty_r.
Qed.

Lemma unquote_app p s :
  lacks "%" p = true -> Url.unquote (p ++ s) = p ++ Url.unquote s.
Proof.
  unfold lacks. induction p as [|a p IH]; intros H; [reflexivity|].
  cbn [list_ascii_of_string forallb] in H. apply andb_true_iff in H as [Ha Hp].
  change (String a p ++ s) with (String a (p ++ s)).
  change (String a p ++ Url.unquote s) with (String a (p ++ Url.unquote s)).
  cbn [Url.unquote]. apply negb_true_iff in Ha. rewrite Ha. f_equal. now apply IH.
Qed.

Lemma digits_lack c ds :
  is_digit c = false -> all_digits ds = true -> lacks c ds = true.
Proof.
  unfold all_digits, lacks. intros Hc. induction (list_ascii_of_string ds) as [|a l IH];
    [reflexivity|].
  cbn [forallb]. intros H. apply andb_true_iff in H as [Ha Hl].
  rewrite IH by exact Hl. rewrite andb_true_r. apply negb_true_iff.
  destruct (Ascii.eqb a c) eqn:He; [|reflexivity].
  apply Ascii.eqb_eq in He. congruence.
Qed.

Lemma lacks_app c a b : lacks c (a ++ b) = lacks c a && lacks c b.
Proof. unfold lacks. now rewrite list_ascii_app, forallb_app. Qed.

Lemma share_prefix_lacks c ds :
  is_digit c = false -> lacks c "/share" = true -> lacks c "/" = true ->
  all_digits ds = true ->
  lacks c ("/share" ++ ds ++ "/") = true.
Proof.
  intros Hc Hlit Hsl Hds.
  now rewrite !lacks_app, (digits_lack c ds Hc Hds), Hlit, Hsl.
Qed.

(** the first three steps of [translate_path] go through the share prefix *)
Lemma decode_share_path ds rest :
  all_digits ds = true ->
  Url.unquote (before_first "#" (before_first "?" ("/share" ++ ds ++ "/" ++ rest)))
  = "/share" ++ ds ++ "/"
    ++ Url.unquote (before_first "#" (before_first "?" rest)).
Proof.
  intros Hds.
  assert (Hassoc : forall s, "/share" ++ ds ++ "/" ++ s = ("/share" ++ ds ++ "/") ++ s).
  { intros s. now rewrite !string_app_assoc. }
  rewrite !Hassoc.
  rewrite (before_first_app "?") by (apply share_prefix_lacks; [reflexivity..|exact Hds]).
  rewrite (before_first_app "#") by (apply share_prefix_lacks; [reflexivity..|exact Hds]).
  rewrite unquote_app by (apply share_prefix_lacks; [reflexivity..|exact Hds]).
  reflexivity.
Qed.

End ResolverLemmas.

Lemma not_root_path x :
  String.eqb ("/share" ++ x) "/" || String.eqb ("/share" ++ x) "" = false.
Proof. reflexivity. Qed.

Lemma match_share_built ds r :
  all_digits ds = true ->
  Re.match_share ("/share" ++ ds ++ "/" ++ r)
  = match ds with
    | EmptyString => None
    | _ => option_map (pair ds) (Re.dot_star_end r)
    end.
Proof.
  intros Hds. unfold Re.match_share. rewrite strip_prefix_app.
  rewrite (span_digits_app ds ("/" ++ r)) by (auto; reflexivity).
  destruct ds as [|a ds]; [reflexivity|].
  change ("/" ++ r) with (String "/" r). cbv beta iota. now rewrite Ascii.eqb_refl.
Qed.

(** X5: a share index that is zero, missing or larger than the number of
    shares is rejected, whatever follows it in the path.  The path is
    well formed: at most 4300 ASCII characters, with escapes that decode
    to UTF-8. *)
Theorem share_index_out_of_range (cwd : string) (shared_dirs : list string)
    (ds rest : string) :
  all_digits ds = true ->
  well_formed_url ("/share" ++ ds ++ "/" ++ rest) = true ->
  PyStr.int_of ds < 1 \/ Z.of_nat (List.length shared_dirs) < PyStr.int_of ds ->
  translate_path cwd shared_dirs ("/share" ++ ds ++ "/" ++ rest) = None.
Proof.
  intros Hds _ Hout. unfold translate_path.
  rewrite decode_share_path by exact Hds. rewrite not_root_path.
  rewrite match_share_built by exact Hds.
  destruct ds as [|a ds]; [reflexivity|].
  destruct (Re.dot_star_end _) as [sub_path|]; [|reflexivity].
  cbn [option_map].
  replace ((0 <=? PyStr.int_of (String a ds) - 1)
           && (PyStr.int_of (String a ds) - 1 <? Z.of_nat (List.length shared_dirs)))
    with false by lia.
  reflexivity.
Qed.

Lemma share_index_out_of_range_witness :
  translate_path "/" ["/srv/pub"; "/srv/music"] ("/share" ++ "3" ++ "/" ++ "a.txt") = None
  /\ translate_path "/" ["/srv/pub"; "/srv/music"] ("/share" ++ "00" ++ "/" ++ "") = None.
Proof.
  split.
  - apply share_index_out_of_range;
      [reflexivity|reflexivity|right; vm_compute; reflexivity].
  - apply share_index_out_of_range;
      [reflexivity|reflexivity|left; vm_compute; reflexivity].
Defined.

(** X6: the query and the fragment of a request path never influence
    the resolution. *)
Theorem query_and_fragment_ignored (cwd : string) (shared_dirs : list string)
    (path extra : string) :
  lacks "?" path = true ->
  lacks "#" path = true ->
  translate_path cwd shared_dirs (path ++ "?" ++ extra) = translate_path cwd shared_dirs path
  /\ translate_path cwd shared_dirs (path ++ "#" ++ extra)
     = translate_path cwd shared_dirs path.
Proof.
  intros Hq Hf. unfold translate_path.
  change (path ++ "?" ++ extra) with (path ++ String "?" extra).
  change (path ++ "#" ++ extra) with (path ++ String "#" extra).
  rewrite (before_first_stop "?") by exact Hq.
  rewrite (before_first_lacks "?" path) by exact Hq.
  split; [reflexivity|].
  rewrite (before_first_app "?") by exact Hq.
  change (PyStr.before_first "?" (String "#" extra))
    with (String "#" (PyStr.before_first "?" extra)).
  rewrite (before_first_stop "#") by exact Hf.
  rewrite (before_first_lacks "#" path) by exact Hf.
  reflexivity.
Qed.

Lemma query_and_fragment_ignored_witness :
  translate_path "/" ["/srv/pub"] ("/share1/a.txt" ++ "?" ++ "v#t?x")
  = translate_path "/" ["/srv/pub"] "/share1/a.txt"
  /\ translate_path "/" ["/srv/pub"] ("/share1/a.txt" ++ "#" ++ "v#t?x")
     = translate_path "/" ["/srv/pub"] "/share1/a.txt".
Proof.
  apply query_and_fragment_ignored; reflexivity.
Defined.

Section PathLemmas.
Import PyStr.

Lemma substring_all_1 a : String.substring 0 1 (String a "") = String a "".
Proof. reflexivity. Qed.

(** [endswith] for a one-character suffix, by recursion on the string *)
Lemma endswith_cons a x c :
  endswith (String a x) (String c "")
  = match x with
    | EmptyString => Ascii.eqb a c
    | _ => endswith x (String c "")
    end.
Proof.
  unfold endswith. cbn [String.length Nat.leb].
  destruct x as [|b x].
  - cbn. destruct (Ascii.eqb a c); reflexivity.
  - cbn [String.length Nat.leb Nat.sub]. rewrite Nat.sub_0_r.
    replace (S (String.length x) - 1)%nat with (String.length x) by lia.
    reflexivity.
Qed.

Lemma endswith_empty c : endswith "" (String c "") = false.
Proof. reflexivity. Qed.

Lemma endswith_app a d c :
  d <> "" -> endswith (a ++ d) (String c "") = endswith d (String c "").
Proof.
  intros Hd. induction a as [|x a IH]; [reflexivity|].
  change (String x a ++ d) with (String x (a ++ d)).
  rewrite endswith_cons. destruct (a ++ d) eqn:Had; [|exact IH].
  destruct a as [|y a]; [change ("" ++ d) with d in Had; congruence|].
  change (String y a ++ d) with (String y (a ++ d)) in Had. discriminate.
Qed.

Lemma endswith_snoc a c : endswith (a ++ String c "") (String c "") = true.
Proof.
  rewrite endswith_app by discriminate. unfold endswith. cbn.
  now rewrite Ascii.eqb_refl.
Qed.

Lemma prefix_refl s : String.prefix s s = true.
Proof.
  induction s as [|a s IH]; [reflexivity|].
  cbn. destruct (ascii_dec a a); [exact IH|congruence].
Qed.

Lemma slash_prefix p :
  all_slashes p = true ->
  forall x, x <> "" -> endswith x "/" = false ->
    String.prefix p (x ++ "/") = String.prefix p x.
Proof.
  unfold all_slashes. induction p as [|c p IH]; intros Hp x Hx Hend.
  - destruct x; reflexivity.
  - cbn [list_ascii_of_string forallb] in Hp. apply andb_true_iff in Hp as [Hc Hp].
    apply Ascii.eqb_eq in Hc. subst c.
    destruct x as [|a x]; [congruence|].
    change (String a x ++ "/") with (String a (x ++ "/")).
    cbn [String.prefix]. destruct (ascii_dec "/" a) as [<-|Hne]; [|reflexivity].
    rewrite endswith_cons in Hend.
    destruct x as [|b x]; [discriminate Hend|].
    apply IH; [exact Hp|discriminate|exact Hend].
Qed.

Lemma split_nonempty c s : split c s <> [].
Proof.
  destruct s as [|a s]; [discriminate|].
  cbn [split]. destruct (Ascii.eqb a c); [discriminate|].
  destruct (split c s); discriminate.
Qed.

Lemma split_snoc_sep c x : split c (x ++ String c "") = (split c x ++ [""])%list.
Proof.
  induction x as [|a x IH].
  - change ("" ++ String c "") with (String c ""). cbn [split app].
    now rewrite Ascii.eqb_refl.
  - change (String a x ++ String c "") with (String a (x ++ String c "")).
    cbn [split]. rewrite IH. destruct (Ascii.eqb a c); [reflexivity|].
    pose proof (split_nonempty c x) as Hne.
    destruct (split c x) as [|y ys]; [congruence|reflexivity].
Qed.

Lemma norm_comps_trailing_empty i l :
  forall acc, PosixPath.norm_comps i acc (l ++ [""]) = PosixPath.norm_comps i acc l.
Proof.
  induction l as [|comp l IH]; intros acc; [reflexivity|].
  cbn [app PosixPath.norm_comps].
  destruct (String.eqb comp "" || String.eqb comp "."); [apply IH|].
  destruct (_ || _ || _); apply IH.
Qed.

(** a trailing slash does not change the normal form *)
Lemma normpath_trailing_slash x :
  x <> "" -> endswith x "/" = false ->
  PosixPath.normpath (x ++ "/") = PosixPath.normpath x.
Proof.
  intros Hx Hend. unfold PosixPath.normpath, startswith.
  rewrite !slash_prefix by (auto; reflexivity).
  rewrite split_snoc_sep, norm_comps_trailing_empty.
  destruct x as [|a x]; [congruence|]. reflexivity.
Qed.

(** joining nothing to a directory does not change what it names *)
Lemma abspath_join_empty cwd d :
  PosixPath.abspath cwd (PosixPath.join d "") = PosixPath.abspath cwd d.
Proof.
  unfold PosixPath.join. change (startswith "" "/") with false. cbv iota.
  destruct (String.eqb d "" || endswith d "/") eqn:Hd.
  { now rewrite append_empty_r. }
  apply orb_false_iff in Hd as [Hne Hend].
  apply String.eqb_neq in Hne.
  change (d ++ "/" ++ "") with (d ++ "/").
  unfold PosixPath.abspath, PosixPath.isabs, startswith.
  rewrite (slash_prefix "/") by (auto; reflexivity).
  destruct (String.prefix "/" d) eqn:Habs.
  - now apply normpath_trailing_slash.
  - unfold PosixPath.join, startswith.
    rewrite (slash_prefix "/") by (auto; reflexivity). rewrite Habs.
    destruct (String.eqb cwd "" || endswith cwd "/").
    + rewrite <- string_app_assoc. apply normpath_trailing_slash.
      * destruct cwd; [exact Hne|discriminate].
      * now rewrite endswith_app.
    + change (cwd ++ "/" ++ d ++ "/") with (cwd ++ "/" ++ (d ++ "/")).
      rewrite <- !string_app_assoc. apply normpath_trailing_slash.
      * destruct cwd; discriminate.
      * now rewrite endswith_app.
Qed.

End PathLemmas.

Lemma share_cards_from_imap dirs :
  forall i, share_cards_from i dirs
            = concat (imap (fun n d => share_card (i + n) d) dirs).
Proof.
  induction dirs as [|d dirs IH]; intros i; [reflexivity|].
  cbn [share_cards_from]. rewrite imap_cons. cbn [concat].
  rewrite Nat.add_0_r. f_equal. rewrite IH. f_equal.
  apply imap_ext. intros n x _. cbn. f_equal. lia.
Qed.

(** X7: the root view and the resolver agree.  The page has one card per
    share, in the order of the shares; the card of a share begins with the
    link [/share<i>/], where [i] counts from one; and that link resolves
    to the normalised directory of that very share. *)
Theorem share_links_resolve (cwd : string) (shared_dirs : list string) :
  list_shared_dirs_cards shared_dirs
  = concat (imap (fun n d => share_card (S n) d) shared_dirs)
  /\ forall n d,
       shared_dirs !! n = Some d ->
       hd_error (share_card (S n) d)
       = Some ("<a href=" ++ PyStr.dq ++ share_link (S n) ++ PyStr.dq
               ++ " class=" ++ PyStr.dq ++ "dir-item" ++ PyStr.dq ++ ">")
       /\ translate_path cwd shared_dirs (share_link (S n))
          = Some (PosixPath.abspath cwd d).
Proof.
  split; [apply share_cards_from_imap|].
  intros n d Hd. split.
  { unfold share_card, share_link. cbn [hd_error]. f_equal.
    now rewrite !string_app_assoc. }
  destruct (str_of_Z_digits (Z.of_nat (S n))) as [Hdig Hval]; [lia|].
  apply isdigit_all_digits in Hdig as [Hall Hne].
  unfold share_link.
  change ("/share" ++ PyStr.str_of_Z (Z.of_nat (S n)) ++ "/")
    with ("/share" ++ PyStr.str_of_Z (Z.of_nat (S n)) ++ "/" ++ "").
  unfold translate_path. rewrite decode_share_path by exact Hall.
  rewrite not_root_path.
  change (Url.unquote (PyStr.before_first "#" (PyStr.before_first "?" ""))) with "".
  rewrite match_share_built by exact Hall.
  destruct (PyStr.str_of_Z (Z.of_nat (S n))) as [|a ds] eqn:Hstr; [congruence|].
  cbn [Re.dot_star_end option_map]. rewrite Hval.
  pose proof (lookup_lt_Some _ _ _ Hd) as Hlt.
  rewrite (proj2 (Z.leb_le _ _)) by lia.
  rewrite (proj2 (Z.ltb_lt _ _)) by lia. cbn [andb].
  replace (Z.to_nat (Z.of_nat (S n) - 1)) with n by lia.
  rewrite Hd, abspath_join_empty. unfold PyStr.startswith. now rewrite prefix_refl.
Qed.

Lemma share_links_resolve_witness :
  translate_path "/" ["/srv/pub"; "/srv/music"] (share_link 2)
  = Some (PosixPath.abspath "/" "/srv/music").
Proof.
  exact (proj2 (proj2 (share_links_resolve "/" ["/srv/pub"; "/srv/music"])
                  1%nat "/srv/music" eq_refl)).
Defined.

(* ------------------------------------------------------------------ *)
(** ** Listing renderer: what a name can put into the page *)

Section RenderLemmas.
Import PyStr.

Lemma markup_not_safe c : Html.is_markup c = true -> Html.always_safe c || Ascii.eqb c "/" = false.
Proof.
  unfold Html.is_markup. intros H.
  repeat (apply orb_true_iff in H as [H|H]);
    apply Ascii.eqb_eq in H; subst c; reflexivity.
Qed.

Lemma hex_digit_plain k : (k < 16)%nat -> Html.is_markup (Html.hex_digit k) = false.
Proof.
  intros Hk. do 16 (destruct k as [|k]; [reflexivity|]). lia.
Qed.

Lemma quote_no_markup s : no_markup (Html.quote s) = true.
Proof.
  unfold no_markup. induction s as [|c s IH]; [reflexivity|].
  cbn [Html.quote].
  destruct (Html.always_safe c || Ascii.eqb c "/") eqn:Hsafe.
  - cbn [list_ascii_of_string forallb]. rewrite IH, andb_true_r.
    destruct (Html.is_markup c) eqn:Hm; [|reflexivity].
    apply markup_not_safe in Hm. congruence.
  - cbn [list_ascii_of_string forallb]. rewrite IH.
    pose proof (nat_ascii_bounded c) as Hb.
    rewrite !hex_digit_plain; [reflexivity| |].
    + apply Nat.mod_upper_bound. lia.
    + apply Nat.Div0.div_lt_upper_bound. lia.
Qed.

Lemma replace_char_absent c rep s :
  lacks c s = true -> Html.replace_char c rep s = s.
Proof.
  unfold lacks. induction s as [|a s IH]; [reflexivity|].
  cbn [list_ascii_of_string forallb Html.replace_char]. intros H.
  apply andb_true_iff in H as [Ha Hs]. apply negb_true_iff in Ha. rewrite Ha.
  rewrite IH by exact Hs. reflexivity.
Qed.

Lemma no_markup_lacks c s :
  Html.is_markup c = true -> no_markup s = true -> lacks c s = true.
Proof.
  unfold no_markup, lacks. intros Hc.
  induction (list_ascii_of_string s) as [|a l IH]; [reflexivity|].
  cbn [forallb]. intros H. apply andb_true_iff in H as [Ha Hl].
  rewrite IH by exact Hl. rewrite andb_true_r. apply negb_true_iff.
  destruct (Ascii.eqb a c) eqn:He; [|reflexivity].
  apply Ascii.eqb_eq in He. subst a. apply negb_true_iff in Ha. congruence.
Qed.

(** X8: what a name can put into a line of the directory view.  The line
    is the link markup around two texts made from the name (with a slash
    added for a directory): the [href] value, which is the percent-quoted
    name, and the link text, which is the HTML-escaped name.  Neither
    holds a character that opens or closes a tag or ends an attribute
    value.  A file outside the preview set gets an [onclick] attribute
    with the escaped name; the two [replace] calls that are to protect its
    quotes never change anything, the quotes being escaped already. *)
Theorem entry_line_shape (fs : gmap string node) (path name : string) :
  let is_dir := os_path_isdir fs (PosixPath.join path name) in
  let shown := if is_dir then name ++ "/" else name in
  let href := Html.quote shown in
  let text := Html.escape shown in
  let onclick := " onclick=" ++ dq ++ "return confirmDownload('" ++ text ++ "')" ++ dq in
  no_markup href = true
  /\ no_markup text = true
  /\ Html.replace_char (ascii_of_nat 34) (bs ++ dq)
       (Html.replace_char "'" (bs ++ "'") text) = text
  /\ exists attribute,
       entry_line fs path name
       = "<li><a href=" ++ dq ++ href ++ dq ++ attribute ++ ">" ++ text ++ "</a></li>"
       /\ (attribute = "" \/ is_dir = false /\ attribute = onclick).
Proof.
  cbv zeta.
  set (shown := if os_path_isdir fs (PosixPath.join path name) then name ++ "/" else name).
  assert (Htext : no_markup (Html.escape shown) = true) by apply escape_no_markup.
  assert (Hjs : Html.replace_char (ascii_of_nat 34) (bs ++ dq)
                  (Html.replace_char "'" (bs ++ "'") (Html.escape shown))
                = Html.escape shown).
  { rewrite (replace_char_absent "'") by (apply no_markup_lacks; [reflexivity|exact Htext]).
    apply replace_char_absent, no_markup_lacks; [reflexivity|exact Htext]. }
  split; [apply quote_no_markup|]. split; [exact Htext|]. split; [exact Hjs|].
  unfold entry_line. fold shown.
  destruct (os_path_isdir fs (PosixPath.join path name)) eqn:Hdir.
  - exists "". split; [reflexivity|now left].
  - destruct (bool_decide _).
    + exists "". split; [reflexivity|now left].
    + eexists. split; [|right; split; reflexivity].
      rewrite Hjs. now rewrite !string_app_assoc.
Qed.

End RenderLemmas.

Lemma unquote_empty s : Url.unquote s = "" -> s = "".
Proof.
  destruct s as [|c s]; [reflexivity|]. cbn [Url.unquote].
  destruct (Ascii.eqb c "%"); [|discriminate].
  destruct s as [|h [|l s]]; try discriminate.
  destruct (Url.hex_val h); [|discriminate].
  destruct (Url.hex_val l); discriminate.
Qed.

Lemma app_fixed (a b : string) : String.eqb (a ++ b) a = String.eqb b "".
Proof.
  induction a as [|c a IH].
  - reflexivity.
  - change (String c a ++ b) with (String c (a ++ b)). cbn [String.eqb].
    now rewrite Ascii.eqb_refl.
Qed.

(** X9: the directory view of a well-formed request path (at most 4300
    ASCII characters, with escapes that decode to UTF-8) of the form
    [/share<digits>/<rest>], over names in ASCII.  Its heading shows
    [share<digits>/]
    followed by the decoded rest, and the parent link is there exactly
    when the rest, as it stands in the request, is not empty. *)
Theorem parent_link_below_share_root (fs : gmap string node)
    (path current_url share_index rest : string) (names : list string) :
  well_formed_url current_url = true ->
  Forall (fun a => ascii_text a = true) names ->
  Re.match_share current_url = Some (share_index, rest) ->
  list_directory_listing fs path current_url names
  = ([ ("<div class=" ++ PyStr.dq ++ "file-list" ++ PyStr.dq ++ ">")%string;
       ("<h2>目录：" ++ ("share" ++ share_index ++ "/" ++ Url.unquote rest) ++ "</h2>")%string;
       "<ul>" ]
     ++ (if String.eqb rest "" then [] else [up_link])
     ++ map (entry_line fs path) (sort_names fs path names)
     ++ [ "</ul>"; "</div>" ])%list.
Proof.
  intros _ _ Hm. unfold list_directory_listing, display_of. rewrite Hm.
  assert (Hshown : forall r, "share" ++ share_index ++ "/" ++ r
                             = ("share" ++ share_index ++ "/") ++ r)
    by (intros r; now rewrite !string_app_assoc).
  destruct (String.eqb (Url.unquote rest) "") eqn:Hrel.
  - apply String.eqb_eq in Hrel. rewrite Hrel.
    apply unquote_empty in Hrel. subst rest.
    rewrite String.eqb_refl, Hshown, append_empty_r. reflexivity.
  - rewrite (Hshown (Url.unquote rest)), app_fixed, Hrel.
    destruct (String.eqb rest "") eqn:Hrest.
    + apply String.eqb_eq in Hrest. subst rest. discriminate.
    + reflexivity.
Qed.

Lemma parent_link_below_share_root_witness :
  list_directory_listing sample_tree "/srv/pub" "/share1/docs/" ["a.txt"]
  = ([ ("<div class=" ++ PyStr.dq ++ "file-list" ++ PyStr.dq ++ ">")%string;
       ("<h2>目录：" ++ ("share" ++ "1" ++ "/" ++ Url.unquote "docs/") ++ "</h2>")%string;
       "<ul>" ]
     ++ (if String.eqb "docs/" "" then [] else [up_link])
     ++ map (entry_line sample_tree "/srv/pub") (sort_names sample_tree "/srv/pub" ["a.txt"])
     ++ [ "</ul>"; "</div>" ])%list.
Proof.
  apply (parent_link_below_share_root sample_tree "/srv/pub" "/share1/docs/" "1" "docs/");
    [reflexivity|repeat constructor|reflexivity].
Defined.

(* ------------------------------------------------------------------ *)
(** ** Control channel: from the request to the monitor *)

Section StripLemmas.
Import PyStr.

Lemma digit_not_space c : is_digit c = true -> is_space c = false.
Proof.
  unfold is_digit, is_space. intros H.
  apply andb_true_iff in H as [H1 H2]. apply Nat.leb_le in H1. apply Nat.leb_le in H2.
  apply orb_false_iff. split; apply andb_false_iff.
  - right. apply Nat.leb_gt. lia.
  - right. apply Nat.leb_gt. lia.
Qed.

Lemma digit_ascii c : is_digit c = true -> (nat_of_ascii c < 128)%nat.
Proof.
  unfold is_digit. intros H. apply andb_true_iff in H as [_ H]. apply Nat.leb_le in H. lia.
Qed.

(** An ASCII character starts no white space of two or three bytes, and
    ends none. *)
Lemma ascii_not_lead2 a b : (nat_of_ascii a < 128)%nat -> is_space2 a b = false.
Proof.
  intros H. unfold is_space2.
  replace (nat_of_ascii a =? 194)%nat with false by (symmetry; apply Nat.eqb_neq; lia).
  reflexivity.
Qed.

Lemma ascii_not_lead3 a b c : (nat_of_ascii a < 128)%nat -> is_space3 a b c = false.
Proof.
  intros H. unfold is_space3.
  replace (nat_of_ascii a =? 225)%nat with false by (symmetry; apply Nat.eqb_neq; lia).
  replace (nat_of_ascii a =? 226)%nat with false by (symmetry; apply Nat.eqb_neq; lia).
  replace (nat_of_ascii a =? 227)%nat with false by (symmetry; apply Nat.eqb_neq; lia).
  reflexivity.
Qed.

Lemma ascii_not_last2 a b : (nat_of_ascii b < 128)%nat -> is_space2 a b = false.
Proof.
  intros H. unfold is_space2.
  replace (nat_of_ascii b =? 133)%nat with false by (symmetry; apply Nat.eqb_neq; lia).
  replace (nat_of_ascii b =? 160)%nat with false by (symmetry; apply Nat.eqb_neq; lia).
  apply andb_false_r.
Qed.

Lemma ascii_not_last3 a b c : (nat_of_ascii c < 128)%nat -> is_space3 a b c = false.
Proof.
  intros H. unfold is_space3.
  replace (nat_of_ascii c =? 128)%nat with false by (symmetry; apply Nat.eqb_neq; lia).
  replace (128 <=? nat_of_ascii c)%nat with false by (symmetry; apply Nat.leb_gt; lia).
  replace (nat_of_ascii c =? 168)%nat with false by (symmetry; apply Nat.eqb_neq; lia).
  replace (nat_of_ascii c =? 169)%nat with false by (symmetry; apply Nat.eqb_neq; lia).
  replace (nat_of_ascii c =? 175)%nat with false by (symmetry; apply Nat.eqb_neq; lia).
  replace (nat_of_ascii c =? 159)%nat with false by (symmetry; apply Nat.eqb_neq; lia).
  now rewrite !andb_false_r.
Qed.

(** [lstrip] stops at an ASCII character that is no white space. *)
Lemma lstrip_head a s :
  is_space a = false -> (nat_of_ascii a < 128)%nat -> lstrip (String a s) = String a s.
Proof.
  intros Hsp Ha. cbn [lstrip]. rewrite Hsp.
  destruct s as [|b s]; [reflexivity|]. rewrite ascii_not_lead2 by exact Ha.
  destruct s as [|c s]; [reflexivity|]. now rewrite ascii_not_lead3 by exact Ha.
Qed.

(** and so does [rstrip], seen on the reversed bytes *)
Lemma rstrip_rev_head a l :
  is_space a = false -> (nat_of_ascii a < 128)%nat -> rstrip_rev (a :: l) = a :: l.
Proof.
  intros Hsp Ha. cbn [rstrip_rev]. rewrite Hsp.
  destruct l as [|b l]; [reflexivity|]. rewrite ascii_not_last2 by exact Ha.
  destruct l as [|c l]; [reflexivity|]. now rewrite ascii_not_last3 by exact Ha.
Qed.

(** [rstrip] never removes such a character, wherever it stands. *)
Lemma rstrip_rev_keeps a n :
  is_space a = false -> (nat_of_ascii a < 128)%nat ->
  forall l, (List.length l <= n)%nat ->
    exists l', rstrip_rev (l ++ [a])%list = (l' ++ [a])%list.
Proof.
  intros Hsp Ha. induction n as [|n IH]; intros l Hl.
  - destruct l; [|simpl in Hl; lia]. exists []. now apply rstrip_rev_head.
  - destruct l as [|x l]; [exists []; now apply rstrip_rev_head|].
    simpl in Hl. change ((x :: l) ++ [a])%list with (x :: (l ++ [a]))%list.
    cbn [rstrip_rev]. destruct (is_space x); [apply IH; lia|].
    destruct l as [|b l].
    { cbn [app]. rewrite ascii_not_lead2 by exact Ha. now exists [x]. }
    simpl in Hl. change ((b :: l) ++ [a])%list with (b :: (l ++ [a]))%list. cbv iota.
    destruct (is_space2 b x); [apply IH; lia|].
    destruct l as [|c l].
    { cbn [app]. rewrite ascii_not_lead3 by exact Ha. now exists [x; b]. }
    simpl in Hl. change ((c :: l) ++ [a])%list with (c :: (l ++ [a]))%list. cbv iota.
    destruct (is_space3 c b x); [apply IH; lia|].
    now exists (x :: b :: c :: l).
Qed.

Lemma rstrip_keeps_head a s :
  is_space a = false -> (nat_of_ascii a < 128)%nat ->
  exists r, rstrip (String a s) = String a r.
Proof.
  intros Hsp Ha. unfold rstrip. cbn [list_ascii_of_string rev].
  destruct (rstrip_rev_keeps a (List.length (rev (list_ascii_of_string s))) Hsp Ha
              (rev (list_ascii_of_string s)) (Nat.le_refl _)) as [l' Hl'].
  rewrite Hl', rev_app_distr. cbn [rev app string_of_list_ascii]. eauto.
Qed.

Lemma rstrip_digits s : all_digits s = true -> rstrip s = s.
Proof.
  unfold all_digits, rstrip. intros H.
  assert (Hrev : rstrip_rev (rev (list_ascii_of_string s)) = rev (list_ascii_of_string s)).
  { destruct (rev (list_ascii_of_string s)) as [|a l] eqn:Hl; [reflexivity|].
    assert (Ha : is_digit a = true).
    { rewrite forallb_forall in H. apply H, in_rev. rewrite Hl. now left. }
    apply rstrip_rev_head; [now apply digit_not_space|now apply digit_ascii]. }
  rewrite Hrev, rev_involutive. apply string_of_list_ascii_of_string.
Qed.

Lemma strip_digits s : all_digits s = true -> strip s = s.
Proof.
  intros H. unfold strip.
  assert (Hl : lstrip s = s).
  { destruct s as [|a s]; [reflexivity|].
    unfold all_digits in H. cbn [list_ascii_of_string forallb] in H.
    apply andb_true_iff in H as [Ha _].
    apply lstrip_head; [now apply digit_not_space|now apply digit_ascii]. }
  rewrite Hl. now apply rstrip_digits.
Qed.

Lemma positive_text n :
  0 < n ->
  strip (str_of_Z n) = str_of_Z n
  /\ is_positive_integer (str_of_Z n) = true
  /\ int_of (str_of_Z n) = n.
Proof.
  intros Hn. destruct (str_of_Z_digits n) as [Hd Hv]; [lia|].
  destruct (isdigit_all_digits _ Hd) as [Hall _].
  split; [now apply strip_digits|]. split; [|exact Hv].
  unfold is_positive_integer. rewrite Hd, Hv. cbn [andb]. now apply Z.gtb_lt.
Qed.

End StripLemmas.

Lemma api_shutdown_accepts str_exn json_dumps data n c w :
  peer_takes c = None ->
  w_fs w !! schedule_file <> Some Dir ->
  Py.dict_get data "seconds" JNull = Ok (JInt n) ->
  0 < n ->
  api_shutdown str_exn json_dumps (Ok data) (c, w)
  = (Ok tt,
     ({| sent := (sent c ++ [ SendResponse 200;
                              SendHeader "Content-type" "application/json";
                              EndHeaders;
                              Write (list_byte_of_string (json_dumps success)) ])%list;
         peer_takes := None |},
      {| w_fs := <[schedule_file := File (PyStr.str_of_Z n)]> (w_fs w);
         w_shutdown_status := "电脑端将于" ++ PyStr.str_of_Z n ++ "秒后关机";
         w_cmds := w_cmds w; w_stdout := w_stdout w |})).
Proof.
  intros Hpeer Hnodir Hget Hn. unfold api_shutdown. apply run_try_ok.
  erewrite run_bind by reflexivity. cbn [fst snd].
  erewrite run_bind by (rewrite Hget; reflexivity).
  cbn [Py.as_int]. rewrite (proj2 (Z.leb_gt _ _)) by lia.
  erewrite run_bind.
  2:{ unfold on_world. cbn [fst snd].
      rewrite (write_file_relative schedule_file _ w eq_refl Hnodir). reflexivity. }
  erewrite run_bind by reflexivity.
  rewrite reply_json_run by exact Hpeer. reflexivity.
Qed.

(** X10: a shutdown request with a positive integer, from the handler to
    the monitor.  [/api/shutdown] answers 200, sets the status, writes the
    decimal text of the number into the schedule sentinel and runs nothing
    itself.  In the next turn of the monitor the text passes
    [is_positive_integer] and is read back as the same number:
    [schedule_shutdown] is called with it, and the sentinel is deleted
    exactly when that call reports success. *)
Theorem shutdown_request_scheduled (platform : string)
    (run_result : list string -> exc (Z * string)) (str_exn : exn -> string)
    (json_dumps : json -> string) (data : json) (n : Z) (c : conn) (w : world) :
  peer_takes c = None ->
  w_fs w !! schedule_file <> Some Dir ->
  Py.dict_get data "seconds" JNull = Ok (JInt n) ->
  0 < n ->
  let r := api_shutdown str_exn json_dumps (Ok data) (c, w) in
  let w0 := world_of r in
  let w1 := snd (monitor_cancel platform run_result str_exn (os_listdir_cwd (w_fs w0)) w0) in
  let w' := after_cycle platform run_result str_exn w0 in
  fst r = Ok tt
  /\ codes r = (statuses_of (sent c) ++ [200])%list
  /\ w_shutdown_status w0 = "电脑端将于" ++ PyStr.str_of_Z n ++ "秒后关机"
  /\ w_fs w0 = <[schedule_file := File (PyStr.str_of_Z n)]> (w_fs w)
  /\ w_cmds w0 = w_cmds w
  /\ w_cmds w' = (w_cmds w1 ++ schedule_commands platform n)%list
  /\ w_fs w' = (if schedule_reports_success platform run_result n
                then delete schedule_file (w_fs w1)
                else w_fs w1).
Proof.
  intros Hpeer Hnodir Hget Hn. cbv zeta.
  rewrite (api_shutdown_accepts str_exn json_dumps data n c w
             Hpeer Hnodir Hget Hn).
  unfold codes, world_of. cbn [fst snd sent w_fs w_shutdown_status w_cmds].
  split; [reflexivity|]. split; [now rewrite statuses_of_app|].
  do 3 (split; [reflexivity|]).
  set (w0 := {| w_fs := <[schedule_file := File (PyStr.str_of_Z n)]> (w_fs w);
                w_shutdown_status := _; w_cmds := w_cmds w; w_stdout := w_stdout w |}).
  assert (Hfile : w_fs w0 !! schedule_file = Some (File (PyStr.str_of_Z n)))
    by apply lookup_insert_eq.
  destruct (after_cycle_unfold platform run_result str_exn w0 _ Hfile)
    as (Hlisted & Hkeep & Hcycle).
  destruct (monitor_schedule_spec platform run_result str_exn _ _ _ Hlisted Hkeep)
    as (w' & Hrun & Hspec).
  destruct (positive_text n Hn) as (Hstrip & Hpos & Hval).
  rewrite Hstrip, Hpos, Hval in Hspec.
  rewrite Hcycle, Hrun. exact Hspec.
Qed.

Lemma shutdown_request_scheduled_witness :
  let r := api_shutdown exn_name sample_dumps (Ok (JObj [("seconds", JInt 90)]))
             (fresh_conn, empty_world) in
  codes r = [200]
  /\ w_cmds (after_cycle "win32" run_ok exn_name (world_of r))
     = [["shutdown"; "/s"; "/t"; "90"]]
  /\ w_fs (after_cycle "win32" run_ok exn_name (world_of r)) !! schedule_file = None.
Proof.
  assert (Hnodir : w_fs empty_world !! schedule_file <> Some Dir)
    by (vm_compute; discriminate).
  assert (Hn : 0 < 90) by lia.
  pose proof (shutdown_request_scheduled "win32" run_ok exn_name sample_dumps
                (JObj [("seconds", JInt 90)]) 90 fresh_conn empty_world
                eq_refl Hnodir eq_refl Hn) as H.
  cbv zeta in H. destruct H as (_ & Hcodes & _ & _ & _ & Hcmds & Hfs).
  split; [exact Hcodes|]. split.
  - rewrite Hcmds. vm_compute. reflexivity.
  - rewrite Hfs. vm_compute. reflexivity.
Defined.

Section CancelLemmas.
Variable platform : string.
Variable run_result : list string -> exc (Z * string).
Variable str_exn : exn -> string.

(** the loop over the legacy files removes those that are files, and
    nothing else *)
Lemma remove_legacy_spec names :
  Forall (fun f => PyStr.contains f "/" = false) names ->
  forall w, exists w',
    remove_legacy str_exn names w = (Ok tt, w')
    /\ w_cmds w' = w_cmds w
    /\ w_shutdown_status w' = w_shutdown_status w
    /\ forall k, w_fs w' !! k
                 = match w_fs w !! k with
                   | Some (File content) =>
                       if bool_decide (k ∈ names) then None else Some (File content)
                   | other => other
                   end.
Proof.
  induction 1 as [|f names Hf _ IH]; intros w.
  - exists w. repeat split. intros k. now destruct (w_fs w !! k) as [[?|]|].
  - cbn [remove_legacy].
    assert (Hstep : exists w1,
               try_except (remove f ;; print ("已删除提示文件：" ++ f))
                 (fun e => print ("删除提示文件失败 " ++ f ++ ": " ++ str_exn e)) w
               = (Ok tt, w1)
               /\ w_cmds w1 = w_cmds w
               /\ w_shutdown_status w1 = w_shutdown_status w
               /\ w_fs w1 = match w_fs w !! f with
                            | Some (File _) => delete f (w_fs w)
                            | _ => w_fs w
                            end).
    { unfold try_except, mbind, M_bind, bind, remove, fs_update, os_remove.
      rewrite (no_slash_key f Hf).
      destruct (w_fs w !! f) as [[content|]|]; eexists; repeat split. }
    destruct Hstep as (w1 & Hrun1 & Hc1 & Hs1 & Hfs1).
    destruct (IH w1) as (w' & Hrun & Hc & Hs & Hfs).
    exists w'. split; [|split; [congruence|split; [congruence|]]].
    { erewrite run_bind by exact Hrun1. exact Hrun. }
    intros k. rewrite Hfs, Hfs1.
    destruct (decide (k = f)) as [->|Hne].
    + rewrite (bool_decide_eq_true_2 (f ∈ f :: names)) by apply list_elem_of_here.
      destruct (w_fs w !! f) as [[content|]|] eqn:Hk.
      * now rewrite lookup_delete_eq.
      * now rewrite Hk.
      * now rewrite Hk.
    + assert (Hk : match w_fs w !! f with
                   | Some (File _) => delete f (w_fs w)
                   | _ => w_fs w
                   end !! k = w_fs w !! k).
      { destruct (w_fs w !! f) as [[?|]|]; [now apply lookup_delete_ne|reflexivity..]. }
      rewrite Hk. destruct (w_fs w !! k) as [[content|]|]; [|reflexivity..].
      assert (Hiff : bool_decide (k ∈ f :: names) = bool_decide (k ∈ names)).
      { apply bool_decide_ext. rewrite elem_of_cons. tauto. }
      now rewrite Hiff.
Qed.

Lemma removed_is_legacy fs k content :
  fs !! k = Some (File content) ->
  bool_decide (k ∈ filter (fun n => is_legacy_name n = true) (os_listdir_cwd fs))
  = legacy_file fs k.
Proof.
  intros Hk. unfold legacy_file, os_listdir_cwd. rewrite Hk, andb_true_r.
  destruct (is_legacy_name k) eqn:Hleg; cbn [andb].
  - destruct (PyStr.contains k "/") eqn:Hslash; cbn [negb].
    + apply bool_decide_eq_false_2. rewrite !list_elem_of_filter. intros (_ & Hs & _). congruence.
    + apply bool_decide_eq_true_2. rewrite !list_elem_of_filter, elem_of_elements, elem_of_dom.
      rewrite Hk. eauto.
  - apply bool_decide_eq_false_2. rewrite list_elem_of_filter. intros [Hl _]. congruence.
Qed.

Lemma legacy_names_plain fs :
  Forall (fun f => PyStr.contains f "/" = false)
    (filter (fun n => is_legacy_name n = true) (os_listdir_cwd fs)).
Proof.
  eapply Forall_impl; [apply legacy_names_ok|]. intros f [Hf _]. exact Hf.
Qed.

Lemma cancel_shutdown_spec w :
  exists w',
    cancel_shutdown platform run_result str_exn w
    = (Ok (cancel_reports_success platform run_result), w')
    /\ w_cmds w' = (w_cmds w ++ cancel_commands platform)%list
    /\ w_shutdown_status w' = w_shutdown_status w
    /\ w_fs w' = (if cancel_reports_success platform run_result
                  then without_legacy (w_fs w)
                  else w_fs w).
Proof.
  assert (Hafter : forall w0, exists w',
             (names ← fs_query (fun fs => filter (fun n => is_legacy_name n = true)
                                            (os_listdir_cwd fs));
              remove_legacy str_exn names ;; ret true) w0 = (Ok true, w')
             /\ w_cmds w' = w_cmds w0
             /\ w_shutdown_status w' = w_shutdown_status w0
             /\ w_fs w' = without_legacy (w_fs w0)).
  { intros w0.
    destruct (remove_legacy_spec _ (legacy_names_plain (w_fs w0)) w0)
      as (w' & Hrun & Hc & Hs & Hfs).
    exists w'. split; [|split; [exact Hc|split; [exact Hs|]]].
    - erewrite run_bind by reflexivity. erewrite run_bind by exact Hrun. reflexivity.
    - apply map_eq. intros k. rewrite Hfs. unfold without_legacy.
      destruct (w_fs w0 !! k) as [[content|]|] eqn:Hk.
      + rewrite (removed_is_legacy _ _ _ Hk).
        destruct (legacy_file (w_fs w0) k) eqn:Hleg; symmetry.
        * apply map_lookup_filter_None. right. intros x _. cbn [fst]. congruence.
        * apply map_lookup_filter_Some. split; [exact Hk|exact Hleg].
      + symmetry. apply map_lookup_filter_Some. split; [exact Hk|].
        unfold legacy_file. cbn [fst]. rewrite Hk. apply andb_false_r.
      + symmetry. apply map_lookup_filter_None. now left. }
  unfold cancel_shutdown, cancel_reports_success, cancel_commands.
  destruct (String.eqb platform "win32").
  - destruct (run_result ["shutdown"; "/a"]) as [[rc err]|e] eqn:Hrr.
    + set (line := if rc =? 0 then "Windows 关机已取消。"
                   else if PyStr.contains err "There is no shutdown in progress"
                        then "没有正在进行的关机计划。"
                        else "取消失败: " ++ err).
      destruct (Hafter {| w_fs := w_fs w; w_shutdown_status := w_shutdown_status w;
                          w_cmds := w_cmds w ++ [["shutdown"; "/a"]];
                          w_stdout := w_stdout w ++ [line] |})
        as (w' & Hrun & Hc & Hs & Hfs).
      exists w'. split; [|split; [exact Hc|split; [exact Hs|exact Hfs]]].
      apply run_try_ok. erewrite run_bind; [exact Hrun|].
      erewrite run_bind by (unfold subprocess_run; rewrite Hrr; reflexivity).
      cbn [fst snd]. subst line.
      destruct (rc =? 0); [reflexivity|]. now destruct (PyStr.contains _ _).
    + eexists. split.
      * erewrite run_try_raise.
        2:{ apply run_bind_raise. apply run_bind_raise.
            unfold subprocess_run. rewrite Hrr. reflexivity. }
        reflexivity.
      * repeat split.
  - set (line := if is_unix platform then "Linux/macos: 取消关机（依赖文件信号）"
                 else "不支持的操作系统，无法取消关机。").
    destruct (Hafter {| w_fs := w_fs w; w_shutdown_status := w_shutdown_status w;
                        w_cmds := w_cmds w; w_stdout := w_stdout w ++ [line] |})
      as (w' & Hrun & Hc & Hs & Hfs).
    exists w'. split; [|split; [|split; [exact Hs|exact Hfs]]].
    + apply run_try_ok. erewrite run_bind; [exact Hrun|].
      subst line. now destruct (is_unix platform).
    + rewrite Hc. cbn [w_cmds]. now rewrite app_nil_r.
Qed.

End CancelLemmas.

(** X11: what [cancel_shutdown] does.  It never raises.  On win32 it runs
    [shutdown /a] and nothing else, elsewhere it runs nothing.  It returns
    [False] only when that command could not be run; any return code of
    the command, and an unsupported platform, give [True].  When it
    returns [True] the files of the working directory that match the
    legacy pattern are gone and every other entry is as before; when it
    returns [False] no file was touched. *)
Theorem cancel_shutdown_effect (platform : string)
    (run_result : list string -> exc (Z * string)) (str_exn : exn -> string) (w : world) :
  let r := cancel_shutdown platform run_result str_exn w in
  fst r = Ok (cancel_reports_success platform run_result)
  /\ w_cmds (snd r) = (w_cmds w ++ cancel_commands platform)%list
  /\ w_shutdown_status (snd r) = w_shutdown_status w
  /\ forall k,
       w_fs (snd r) !! k
       = if cancel_reports_success platform run_result && legacy_file (w_fs w) k
         then None else w_fs w !! k.
Proof.
  cbv zeta.
  destruct (cancel_shutdown_spec platform run_result str_exn w)
    as (w' & -> & Hc & Hs & Hfs).
  cbn [fst snd]. repeat split; [exact Hc|exact Hs|].
  intros k. rewrite Hfs.
  destruct (cancel_reports_success platform run_result); cbn [andb]; [|reflexivity].
  unfold without_legacy.
  destruct (legacy_file (w_fs w) k) eqn:Hleg.
  - apply map_lookup_filter_None. right. intros x _. cbn [fst]. congruence.
  - destruct (w_fs w !! k) as [x|] eqn:Hk.
    + apply map_lookup_filter_Some. split; [exact Hk|exact Hleg].
    + apply map_lookup_filter_None. now left.
Qed.

Section TurnLemmas.
Variable platform : string.
Variable run_result : list string -> exc (Z * string).
Variable str_exn : exn -> string.

(** the cancel part of a turn, when the cancel sentinel is listed and is
    a file *)
Lemma monitor_cancel_spec files w text :
  cancel_file ∈ files ->
  w_fs w !! cancel_file = Some (File text) ->
  exists w1,
    monitor_cancel platform run_result str_exn files w = (Ok tt, w1)
    /\ w_cmds w1 = (w_cmds w ++ cancel_commands platform)%list
    /\ w_shutdown_status w1 = w_shutdown_status w
    /\ w_fs w1 = delete cancel_file
                   (if cancel_reports_success platform run_result
                    then without_legacy (w_fs w) else w_fs w).
Proof.
  intros Hin Hfile. unfold monitor_cancel. rewrite bool_decide_eq_true_2 by exact Hin.
  erewrite run_bind by reflexivity.
  destruct (cancel_shutdown_spec platform run_result str_exn
              (snd (print "检测到 取消关机.txt" w)))
    as (w2 & Hrun & Hc & Hs & Hfs).
  cbn [snd print w_fs w_cmds w_shutdown_status] in Hc, Hs, Hfs.
  erewrite run_bind by exact Hrun.
  assert (Hthere : w_fs w2 !! cancel_file = Some (File text)).
  { rewrite Hfs. destruct (cancel_reports_success platform run_result); [|exact Hfile].
    apply map_lookup_filter_Some. split; [exact Hfile|reflexivity]. }
  eexists. split.
  - apply run_try_ok. erewrite run_bind; [reflexivity|].
    unfold remove, fs_update, os_remove. change (fs_key cancel_file) with cancel_file.
    rewrite Hthere. reflexivity.
  - cbn [w_cmds w_shutdown_status w_fs set_fs]. rewrite Hfs. repeat split; assumption.
Qed.

(** the cancel part does nothing when the cancel sentinel is not listed,
    and so does the schedule part *)
Lemma monitor_cancel_idle files w :
  cancel_file ∉ files ->
  monitor_cancel platform run_result str_exn files w = (Ok tt, w).
Proof. intros H. unfold monitor_cancel. now rewrite bool_decide_eq_false_2. Qed.

Lemma monitor_schedule_idle files w :
  schedule_file ∉ files ->
  monitor_schedule platform run_result str_exn files w = (Ok tt, w).
Proof. intros H. unfold monitor_schedule. now rewrite bool_decide_eq_false_2. Qed.

Lemma not_listed fs name :
  PyStr.contains name "/" = false -> fs !! name = None -> name ∉ os_listdir_cwd fs.
Proof.
  intros Hn Hnone Hin. apply listed_iff in Hin; [|exact Hn].
  rewrite Hnone in Hin. now destruct Hin.
Qed.

Lemma cycle_run w w1 w2 :
  monitor_cancel platform run_result str_exn (os_listdir_cwd (w_fs w)) w = (Ok tt, w1) ->
  monitor_schedule platform run_result str_exn (os_listdir_cwd (w_fs w)) w1 = (Ok tt, w2) ->
  after_cycle platform run_result str_exn w = w2.
Proof.
  intros H1 H2.
  unfold after_cycle, shutdown_monitor_cycle, try_except, mbind, M_bind, bind, fs_query.
  now rewrite H1, H2.
Qed.

End TurnLemmas.

(** X12: a cancel request, from the handler to the monitor, when no
    schedule request is waiting.  [/api/cancel_shutdown] answers 200, sets
    the status, creates the empty cancel sentinel and runs nothing itself.
    The next turn of the monitor runs the commands of [cancel_shutdown]
    and no other, deletes the sentinel, and leaves the status alone. *)
Theorem cancel_request_handled (platform : string)
    (run_result : list string -> exc (Z * string)) (str_exn : exn -> string)
    (json_dumps : json -> string) (c : conn) (w : world) :
  peer_takes c = None ->
  w_fs w !! cancel_file <> Some Dir ->
  w_fs w !! schedule_file = None ->
  let r := api_cancel_shutdown str_exn json_dumps (c, w) in
  let w0 := world_of r in
  let w' := after_cycle platform run_result str_exn w0 in
  fst r = Ok tt
  /\ codes r = (statuses_of (sent c) ++ [200])%list
  /\ w_fs w0 = <[cancel_file := File ""]> (w_fs w)
  /\ w_cmds w0 = w_cmds w
  /\ w_shutdown_status w0 = "电脑端已取消关机"
  /\ w_cmds w' = (w_cmds w ++ cancel_commands platform)%list
  /\ w_fs w' !! cancel_file = None
  /\ w_shutdown_status w' = "电脑端已取消关机".
Proof.
  intros Hpeer Hnodir Hnone. cbv zeta.
  assert (Hrun : api_cancel_shutdown str_exn json_dumps (c, w)
                 = (Ok tt,
                    ({| sent := (sent c ++ [ SendResponse 200;
                                             SendHeader "Content-type" "application/json";
                                             EndHeaders;
                                             Write (list_byte_of_string (json_dumps success)) ])%list;
                        peer_takes := None |},
                     {| w_fs := <[cancel_file := File ""]> (w_fs w);
                        w_shutdown_status := "电脑端已取消关机";
                        w_cmds := w_cmds w; w_stdout := w_stdout w |}))).
  { unfold api_cancel_shutdown. apply run_try_ok.
    erewrite run_bind.
    2:{ unfold on_world. cbn [fst snd].
        rewrite (write_file_relative cancel_file "" w eq_refl Hnodir). reflexivity. }
    erewrite run_bind by reflexivity.
    rewrite reply_json_run by exact Hpeer. reflexivity. }
  rewrite Hrun. unfold codes, world_of. cbn [fst snd sent w_fs w_shutdown_status w_cmds].
  split; [reflexivity|]. split; [now rewrite statuses_of_app|].
  do 3 (split; [reflexivity|]).
  set (w0 := {| w_fs := <[cancel_file := File ""]> (w_fs w);
                w_shutdown_status := _; w_cmds := w_cmds w; w_stdout := w_stdout w |}).
  assert (Hfile : w_fs w0 !! cancel_file = Some (File "")) by apply lookup_insert_eq.
  assert (Hlisted : cancel_file ∈ os_listdir_cwd (w_fs w0))
    by (apply listed_iff; [reflexivity|rewrite Hfile; eauto]).
  assert (Hnot : schedule_file ∉ os_listdir_cwd (w_fs w0)).
  { apply not_listed; [reflexivity|]. cbn [w0 w_fs].
    rewrite lookup_insert_ne by discriminate. exact Hnone. }
  destruct (monitor_cancel_spec platform run_result str_exn _ w0 "" Hlisted Hfile)
    as (w1 & Hcancel & Hc & Hs & Hfs).
  rewrite (cycle_run platform run_result str_exn w0 w1 w1 Hcancel
             (monitor_schedule_idle platform run_result str_exn _ w1 Hnot)).
  split; [exact Hc|]. split; [|exact Hs].
  rewrite Hfs. apply lookup_delete_eq.
Qed.

Lemma cancel_request_handled_witness :
  let r := api_cancel_shutdown exn_name sample_dumps (fresh_conn, empty_world) in
  codes r = [200]
  /\ w_cmds (after_cycle "win32" run_ok exn_name (world_of r)) = [["shutdown"; "/a"]]
  /\ w_fs (after_cycle "win32" run_ok exn_name (world_of r)) !! cancel_file = None.
Proof.
  assert (Hnodir : w_fs empty_world !! cancel_file <> Some Dir)
    by (vm_compute; discriminate).
  pose proof (cancel_request_handled "win32" run_ok exn_name sample_dumps
                fresh_conn empty_world eq_refl Hnodir eq_refl) as H.
  cbv zeta in H. destruct H as (_ & Hcodes & _ & _ & _ & Hcmds & Hfs & _).
  split; [exact Hcodes|]. split; [exact Hcmds|exact Hfs].
Defined.



(** X14: a turn of the monitor that finds neither sentinel in the working
    directory changes nothing: no command, no file, no status, and no line
    printed. *)
Theorem idle_turn_changes_nothing (platform : string)
    (run_result : list string -> exc (Z * string)) (str_exn : exn -> string) (w : world) :
  w_fs w !! cancel_file = None ->
  w_fs w !! schedule_file = None ->
  shutdown_monitor_cycle platform run_result str_exn w = (Ok tt, w).
Proof.
  intros Hc Hs.
  unfold shutdown_monitor_cycle, try_except, mbind, M_bind, bind, fs_query.
  rewrite (monitor_cancel_idle platform run_result str_exn _ w)
    by (apply not_listed; [reflexivity|exact Hc]).
  rewrite (monitor_schedule_idle platform run_result str_exn _ w)
    by (apply not_listed; [reflexivity|exact Hs]).
  reflexivity.
Qed.

Lemma idle_turn_changes_nothing_witness :
  shutdown_monitor_cycle "win32" run_ok exn_name sample_world = (Ok tt, sample_world).
Proof.
  apply idle_turn_changes_nothing; reflexivity.
Defined.

(** *** What the monitor leaves alone *)

Section Footprint.
Variable platform : string.
Variable run_result : list string -> exc (Z * string).
Variable str_exn : exn -> string.

(** a relation between the world before and after that every step of
    the monitor respects; a command is a step only on win32 *)
Variable R : world -> world -> Prop.
Hypothesis R_refl : forall w, R w w.
Hypothesis R_trans : forall w1 w2 w3, R w1 w2 -> R w2 w3 -> R w1 w3.
Hypothesis R_print : forall line, preserves R (print line).
Hypothesis R_remove : forall f, preserves R (remove f).
Hypothesis R_run :
  String.eqb platform "win32" = true ->
  forall argv, preserves R (subprocess_run run_result argv).

Lemma footprint_remove_legacy names : preserves R (remove_legacy str_exn names).
Proof.
  induction names as [|f names IH]; [now apply preserves_ret|].
  cbn [remove_legacy]. apply (preserves_bind R R_trans); [|intros _; exact IH].
  apply (preserves_try R R_trans); [|intros e; apply R_print].
  apply (preserves_bind R R_trans); [apply R_remove|intros _; apply R_print].
Qed.

Lemma footprint_cancel_shutdown : preserves R (cancel_shutdown platform run_result str_exn).
Proof.
  unfold cancel_shutdown. apply (preserves_try R R_trans).
  2:{ intros e. apply (preserves_bind R R_trans); [apply R_print|].
      intros _. now apply preserves_ret. }
  apply (preserves_bind R R_trans).
  { destruct (String.eqb platform "win32") eqn:Hwin.
    - apply (preserves_bind R R_trans); [now apply R_run|].
      intros result. destruct (fst result =? 0); [apply R_print|].
      destruct (PyStr.contains _ _); apply R_print.
    - destruct (is_unix platform); apply R_print. }
  intros _. apply (preserves_bind R R_trans); [intros w; apply R_refl|intros names].
  apply (preserves_bind R R_trans); [apply footprint_remove_legacy|].
  intros _. now apply preserves_ret.
Qed.

Lemma footprint_schedule_shutdown seconds :
  preserves R (schedule_shutdown platform run_result str_exn seconds).
Proof.
  unfold schedule_shutdown. apply (preserves_try R R_trans).
  2:{ intros e. apply (preserves_bind R R_trans); [apply R_print|].
      intros _. now apply preserves_ret. }
  destruct (String.eqb platform "win32") eqn:Hwin.
  - apply (preserves_bind R R_trans); [now apply R_run|].
    intros result.
    destruct (fst result =? 0);
      (apply (preserves_bind R R_trans); [apply R_print|intros _; now apply preserves_ret]).
  - destruct (is_unix platform);
      (apply (preserves_bind R R_trans); [apply R_print|intros _; now apply preserves_ret]).
Qed.

Lemma footprint_monitor_cancel files :
  preserves R (monitor_cancel platform run_result str_exn files).
Proof.
  unfold monitor_cancel. destruct (bool_decide _); [|now apply preserves_ret].
  apply (preserves_bind R R_trans); [apply R_print|intros _].
  apply (preserves_bind R R_trans); [apply footprint_cancel_shutdown|intros _].
  apply (preserves_try R R_trans); [|intros e; apply R_print].
  apply (preserves_bind R R_trans); [apply R_remove|intros _; apply R_print].
Qed.

Lemma footprint_monitor_schedule files :
  preserves R (monitor_schedule platform run_result str_exn files).
Proof.
  unfold monitor_schedule. destruct (bool_decide _); [|now apply preserves_ret].
  apply (preserves_try R R_trans); [|intros e; apply R_print].
  apply (preserves_bind R R_trans); [intros w; apply R_refl|intros text].
  apply (preserves_bind R R_trans); [apply R_print|intros _].
  destruct (is_positive_integer _); [|apply R_print].
  apply (preserves_bind R R_trans); [apply R_print|intros _].
  apply (preserves_bind R R_trans); [apply footprint_schedule_shutdown|intros ok].
  destruct ok; [|apply R_print].
  apply (preserves_bind R R_trans); [apply R_remove|intros _; apply R_print].
Qed.

Lemma footprint_cycle : preserves R (shutdown_monitor_cycle platform run_result str_exn).
Proof.
  unfold shutdown_monitor_cycle.
  apply (preserves_try R R_trans); [|intros e; apply R_print].
  apply (preserves_bind R R_trans); [intros w; apply R_refl|intros files].
  apply (preserves_bind R R_trans); [apply footprint_monitor_cancel|intros _].
  apply footprint_monitor_schedule.
Qed.

Lemma footprint_cycles n w : R w (after_cycles platform run_result str_exn n w).
Proof.
  induction n as [|n IH]; [apply R_refl|].
  eapply R_trans; [exact IH|]. apply footprint_cycle.
Qed.

End Footprint.

Lemma quiet_refl w : quiet w w.
Proof. split; reflexivity. Qed.

Lemma quiet_trans w1 w2 w3 : quiet w1 w2 -> quiet w2 w3 -> quiet w1 w3.
Proof. intros [Hs1 Hf1] [Hs2 Hf2]. split; [congruence|]. now transitivity (w_fs w2). Qed.

Lemma quiet_remove f : preserves quiet (remove f).
Proof.
  intros w. unfold remove, fs_update, os_remove.
  destruct (w_fs w !! fs_key f) as [[content|]|]; cbn [snd]; split;
    try reflexivity.
  apply delete_subseteq.
Qed.

(** X15: over any number of turns, whatever the sentinels hold and
    whatever the commands answer, the monitor never changes the shutdown
    status that [/api/shutdown_status] reports, and never creates or
    changes a file: every entry of the file system afterwards was there
    before, with the same content. *)
Theorem monitor_only_deletes (platform : string)
    (run_result : list string -> exc (Z * string)) (str_exn : exn -> string)
    (n : nat) (w : world) :
  let w' := after_cycles platform run_result str_exn n w in
  w_shutdown_status w' = w_shutdown_status w
  /\ forall k x, w_fs w' !! k = Some x -> w_fs w !! k = Some x.
Proof.
  cbv zeta.
  assert (H : quiet w (after_cycles platform run_result str_exn n w)).
  { apply footprint_cycles.
    - apply quiet_refl.
    - apply quiet_trans.
    - intros line w0. split; reflexivity.
    - apply quiet_remove.
    - intros _ argv w0. split; reflexivity. }
  destruct H as [Hs Hf]. split; [exact Hs|].
  intros k x Hk. exact (lookup_weaken _ _ _ _ Hk Hf).
Qed.




(* ------------------------------------------------------------------ *)
(** ** Mailbox: a message from one side to the other *)

Lemma api_send_text_stores str_exn json_dumps now data raw client_ip c w :
  peer_takes c = None ->
  w_fs w !! mailbox_to_server <> Some Dir ->
  Py.dict_get data "text" (JStr "") = Ok (JStr raw) ->
  PyStr.strip raw <> "" ->
  exists lines,
    api_send_text str_exn json_dumps now (Ok data) client_ip (c, w)
    = (Ok tt,
       ({| sent := (sent c ++ json_answer json_dumps 200 success)%list;
           peer_takes := None |},
        {| w_fs := <[mailbox_to_server :=
                       File (json_dumps (mobile_message now (PyStr.strip raw) client_ip))]>
                     (w_fs w);
           w_shutdown_status := w_shutdown_status w;
           w_cmds := w_cmds w; w_stdout := lines |})).
Proof.
  intros Hpeer Hnodir Hget Htext. eexists. unfold api_send_text. apply run_try_ok.
  erewrite run_bind by reflexivity. cbn [fst snd].
  erewrite run_bind by (rewrite Hget; reflexivity).
  erewrite run_bind by reflexivity.
  rewrite (proj2 (String.eqb_neq _ _) Htext).
  erewrite run_bind.
  2:{ unfold on_world. cbn [fst snd].
      rewrite (write_file_relative mailbox_to_server _ w eq_refl Hnodir). reflexivity. }
  erewrite run_bind by reflexivity.
  rewrite reply_json_answer by exact Hpeer. reflexivity.
Qed.

Lemma check_messages_delivers json_loads w content message :
  w_fs w !! mailbox_to_server = Some (File content) ->
  json_loads content = Ok message ->
  check_messages json_loads w
  = (Ok (Some message), set_fs (delete mailbox_to_server (w_fs w)) w).
Proof.
  intros Hslot Hload. unfold check_messages. apply run_try_ok.
  erewrite run_bind by reflexivity.
  unfold os_path_exists. change (fs_key mailbox_to_server) with mailbox_to_server.
  rewrite Hslot.
  erewrite run_bind.
  2:{ unfold read_file, read_text. change (fs_key mailbox_to_server) with mailbox_to_server.
      rewrite Hslot. reflexivity. }
  erewrite run_bind by (rewrite Hload; reflexivity).
  erewrite run_bind.
  2:{ unfold remove, fs_update, os_remove.
      change (fs_key mailbox_to_server) with mailbox_to_server.
      rewrite Hslot. reflexivity. }
  reflexivity.
Qed.

Lemma check_messages_empty json_loads w :
  w_fs w !! mailbox_to_server = None -> check_messages json_loads w = (Ok None, w).
Proof.
  intros Hslot. unfold check_messages. apply run_try_ok.
  erewrite run_bind by reflexivity.
  unfold os_path_exists. change (fs_key mailbox_to_server) with mailbox_to_server.
  now rewrite Hslot.
Qed.

(** X17: a text from the phone reaches the desktop window once.  When
    the request carries a text that is not blank, [/api/send_text] answers
    200 and stores the stripped text with the address of the sender;
    whatever the slot held before is overwritten.  If the stored document
    reads back as it was written, the next poll of the window returns that
    message and empties the slot, and the poll after that finds nothing. *)
Theorem send_text_delivered_once (str_exn : exn -> string) (json_dumps : json -> string)
    (json_loads : string -> exc json) (now data : json) (raw client_ip : string)
    (c : conn) (w : world) :
  let message := mobile_message now (PyStr.strip raw) client_ip in
  peer_takes c = None ->
  w_fs w !! mailbox_to_server <> Some Dir ->
  Py.dict_get data "text" (JStr "") = Ok (JStr raw) ->
  PyStr.strip raw <> "" ->
  json_loads (json_dumps message) = Ok message ->
  let r := api_send_text str_exn json_dumps now (Ok data) client_ip (c, w) in
  let first := check_messages json_loads (world_of r) in
  let second := check_messages json_loads (snd first) in
  fst r = Ok tt
  /\ sent (fst (snd r)) = (sent c ++ json_answer json_dumps 200 success)%list
  /\ fst first = Ok (Some message)
  /\ w_fs (snd first) = delete mailbox_to_server (w_fs w)
  /\ fst second = Ok None
  /\ snd second = snd first.
Proof.
  intros message Hpeer Hnodir Hget Htext Hload. cbv zeta.
  destruct (api_send_text_stores str_exn json_dumps now data raw client_ip c w
              Hpeer Hnodir Hget Htext) as (lines & ->).
  unfold world_of. cbn [fst snd sent].
  split; [reflexivity|]. split; [reflexivity|].
  erewrite check_messages_delivers; [|apply lookup_insert_eq|exact Hload].
  cbn [fst snd w_fs set_fs].
  rewrite delete_insert_eq.
  split; [reflexivity|]. split; [reflexivity|].
  rewrite check_messages_empty by apply lookup_delete_eq.
  split; reflexivity.
Qed.

Lemma send_text_delivered_once_witness :
  let message := mobile_message sample_now "hello" "192.168.1.7" in
  let r := api_send_text exn_name sample_dumps sample_now
             (Ok (JObj [("text", JStr "  hello ")])) "192.168.1.7"
             (fresh_conn, empty_world) in
  fst (check_messages (sample_loads message) (world_of r)) = Ok (Some message).
Proof.
  assert (Hnodir : w_fs empty_world !! mailbox_to_server <> Some Dir)
    by (vm_compute; discriminate).
  assert (Htext : PyStr.strip "  hello " <> "") by (vm_compute; discriminate).
  pose proof (send_text_delivered_once exn_name sample_dumps
                (sample_loads (mobile_message sample_now "hello" "192.168.1.7"))
                sample_now (JObj [("text", JStr "  hello ")]) "  hello " "192.168.1.7"
                fresh_conn empty_world eq_refl Hnodir eq_refl Htext eq_refl) as H.
  cbv zeta in H. exact (proj1 (proj2 (proj2 H))).
Defined.

Lemma save_text_message_stores str_exn json_dumps now local_ip text sender_type w :
  w_fs w !! mailbox_to_mobile <> Some Dir ->
  exists lines,
    save_text_message str_exn json_dumps now local_ip text sender_type w
    = (Ok tt,
       {| w_fs := <[mailbox_to_mobile :=
                      File (json_dumps (desktop_message now local_ip text sender_type))]>
                    (w_fs w);
          w_shutdown_status := w_shutdown_status w;
          w_cmds := w_cmds w; w_stdout := lines |}).
Proof.
  intros Hnodir. eexists. unfold save_text_message. apply run_try_ok.
  erewrite run_bind by (apply (write_file_relative mailbox_to_mobile _ w eq_refl Hnodir)).
  reflexivity.
Qed.

Lemma api_check_message_found str_exn json_dumps json_loads c w content message text sender_ip :
  peer_takes c = None ->
  w_fs w !! mailbox_to_mobile = Some (File content) ->
  json_loads content = Ok message ->
  Py.dict_get message "text" (JStr "") = Ok text ->
  Py.dict_get message "sender_ip" (JStr "未知IP") = Ok sender_ip ->
  api_check_message str_exn json_dumps json_loads (c, w)
  = (Ok tt,
     ({| sent := (sent c ++ json_answer json_dumps 200
                    (JObj [("has_message", JBool true); ("text", text);
                           ("sender_ip", sender_ip)]))%list;
         peer_takes := None |}, w)).
Proof.
  intros Hpeer Hslot Hload Htext Hip. unfold api_check_message. apply run_try_ok.
  erewrite run_bind by reflexivity. cbn [fst snd].
  unfold os_path_exists. change (fs_key mailbox_to_mobile) with mailbox_to_mobile.
  rewrite Hslot.
  erewrite run_bind.
  2:{ erewrite run_bind.
      2:{ unfold on_world, read_file, read_text.
          change (fs_key mailbox_to_mobile) with mailbox_to_mobile.
          cbn [snd]. rewrite Hslot. reflexivity. }
      cbn [fst].
      erewrite run_bind by (rewrite Hload; reflexivity).
      erewrite run_bind by (rewrite Htext; reflexivity).
      erewrite run_bind by (rewrite Hip; reflexivity).
      reflexivity. }
  apply reply_json_answer. exact Hpeer.
Qed.

Lemma api_check_message_none str_exn json_dumps json_loads c w :
  peer_takes c = None ->
  w_fs w !! mailbox_to_mobile = None ->
  api_check_message str_exn json_dumps json_loads (c, w)
  = (Ok tt,
     ({| sent := (sent c ++ json_answer json_dumps 200
                    (JObj [("has_message", JBool false)]))%list;
         peer_takes := None |}, w)).
Proof.
  intros Hpeer Hslot. unfold api_check_message. apply run_try_ok.
  erewrite run_bind by reflexivity. cbn [fst snd].
  unfold os_path_exists. change (fs_key mailbox_to_mobile) with mailbox_to_mobile.
  rewrite Hslot.
  erewrite run_bind by reflexivity.
  apply reply_json_answer. exact Hpeer.
Qed.

Lemma api_confirm_message_found str_exn json_dumps c w content :
  peer_takes c = None ->
  w_fs w !! mailbox_to_mobile = Some (File content) ->
  exists c' w',
    api_confirm_message str_exn json_dumps (c, w) = (Ok tt, (c', w'))
    /\ w_fs w' = delete mailbox_to_mobile (w_fs w).
Proof.
  intros Hpeer Hslot. do 2 eexists. split.
  - unfold api_confirm_message. apply run_try_ok.
    erewrite run_bind by reflexivity. cbn [fst snd].
    unfold os_path_exists. change (fs_key mailbox_to_mobile) with mailbox_to_mobile.
    rewrite Hslot.
    erewrite run_bind.
    2:{ erewrite run_bind.
        2:{ unfold on_world, remove, fs_update, os_remove.
            change (fs_key mailbox_to_mobile) with mailbox_to_mobile.
            cbn [snd]. rewrite Hslot. reflexivity. }
        reflexivity. }
    apply reply_json_answer. exact Hpeer.
  - reflexivity.
Qed.

(** X18: a text from the desktop window reaches the phone, and stays
    until it is confirmed.  After the send-text action stored a message
    that reads back as it was written, [/api/check_message] answers 200
    with [has_message] true, the text as typed and the address of the
    desktop, and leaves the world as it is, so that a second poll gives the
    same answer.  After [/api/confirm_message] the poll answers with
    [has_message] false. *)
Theorem desktop_text_polled_until_confirmed (str_exn : exn -> string)
    (json_dumps : json -> string) (json_loads : string -> exc json) (now : json)
    (local_ip text sender_type : string) (c : conn) (w : world) :
  let message := desktop_message now local_ip text sender_type in
  peer_takes c = None ->
  w_fs w !! mailbox_to_mobile <> Some Dir ->
  json_loads (json_dumps message) = Ok message ->
  let w1 := snd (save_text_message str_exn json_dumps now local_ip text sender_type w) in
  let poll := api_check_message str_exn json_dumps json_loads (c, w1) in
  let confirmed := api_confirm_message str_exn json_dumps (c, w1) in
  let later := api_check_message str_exn json_dumps json_loads (c, world_of confirmed) in
  sent (fst (snd poll))
  = (sent c ++ json_answer json_dumps 200
       (JObj [("has_message", JBool true); ("text", JStr text);
              ("sender_ip", JStr local_ip)]))%list
  /\ world_of poll = w1
  /\ sent (fst (snd later))
     = (sent c ++ json_answer json_dumps 200 (JObj [("has_message", JBool false)]))%list.
Proof.
  intros message Hpeer Hnodir Hload. cbv zeta.
  destruct (save_text_message_stores str_exn json_dumps now local_ip text sender_type w Hnodir)
    as (lines & ->).
  cbn [snd].
  set (w1 := {| w_fs := _; w_shutdown_status := _; w_cmds := _; w_stdout := lines |}).
  assert (Hslot : w_fs w1 !! mailbox_to_mobile = Some (File (json_dumps message)))
    by apply lookup_insert_eq.
  rewrite (api_check_message_found str_exn json_dumps json_loads c w1 _ message
             (JStr text) (JStr local_ip) Hpeer Hslot Hload eq_refl eq_refl).
  unfold world_of. cbn [fst snd sent].
  split; [reflexivity|]. split; [reflexivity|].
  destruct (api_confirm_message_found str_exn json_dumps c w1 _ Hpeer Hslot)
    as (c' & w' & -> & Hfs).
  cbn [snd].
  rewrite api_check_message_none; [reflexivity|exact Hpeer|].
  rewrite Hfs. apply lookup_delete_eq.
Qed.

Lemma desktop_text_polled_until_confirmed_witness :
  let message := desktop_message sample_now "192.168.1.2" "hello" "computer" in
  let w1 := snd (save_text_message exn_name sample_dumps sample_now "192.168.1.2"
                   "hello" "computer" empty_world) in
  world_of (api_check_message exn_name sample_dumps (sample_loads message) (fresh_conn, w1))
  = w1.
Proof.
  assert (Hnodir : w_fs empty_world !! mailbox_to_mobile <> Some Dir)
    by (vm_compute; discriminate).
  pose proof (desktop_text_polled_until_confirmed exn_name sample_dumps
                (sample_loads (desktop_message sample_now "192.168.1.2" "hello" "computer"))
                sample_now "192.168.1.2" "hello" "computer" fresh_conn empty_world
                eq_refl Hnodir eq_refl) as H.
  cbv zeta in H. exact (proj1 (proj2 H)).
Defined.

Section KeepsWorld.
Context {A B : Type}.

Lemma kw_ret (a : A) : keeps_world (ret a : M (conn * world) A).
Proof. intros s. reflexivity. Qed.

Lemma kw_bind (m : M (conn * world) A) (k : A -> M (conn * world) B) :
  keeps_world m -> (forall a, keeps_world (k a)) -> keeps_world (m ≫= k).
Proof.
  intros Hm Hk s. unfold mbind, M_bind, bind.
  specialize (Hm s). destruct (m s) as [[a|e] s1]; cbn [snd] in *; [|exact Hm].
  now rewrite Hk.
Qed.

Lemma kw_try (m : M (conn * world) A) (h : exn -> M (conn * world) A) :
  keeps_world m -> (forall e, keeps_world (h e)) -> keeps_world (try_except m h).
Proof.
  intros Hm Hh s. unfold try_except.
  specialize (Hm s). destruct (m s) as [[a|e] s1]; cbn [snd] in *; [exact Hm|].
  now rewrite Hh.
Qed.

Lemma kw_lift_exc (r : exc A) : keeps_world (lift_exc r : M (conn * world) A).
Proof. intros s. now destruct r. Qed.

Lemma kw_query (q : world -> exc A) :
  keeps_world (on_world (fun w => (q w, w))).
Proof. intros s. reflexivity. Qed.

End KeepsWorld.

Lemma kw_send o : keeps_world (send o).
Proof. intros s. reflexivity. Qed.

Lemma kw_send_error code message : keeps_world (send_error code message).
Proof. intros s. reflexivity. Qed.

Lemma kw_wfile_write data : keeps_world (wfile_write_h data).
Proof. intros s. unfold wfile_write_h. now destruct (wfile_write data (fst s)). Qed.

Lemma kw_reply_json json_dumps code body : keeps_world (reply_json json_dumps code body).
Proof.
  unfold reply_json. repeat (apply kw_bind; [apply kw_send|intros _]). apply kw_wfile_write.
Qed.

(** X19: the two query endpoints never change the world, whatever the
    files hold, whether or not the stored message can be read, and whether
    or not the peer still takes the answer: after [/api/check_message] and
    after [/api/shutdown_status] the files, the status, the commands run
    and the lines printed are as before. *)
Theorem query_endpoints_read_only (str_exn : exn -> string) (json_dumps : json -> string)
    (json_loads : string -> exc json) (c : conn) (w : world) :
  world_of (api_check_message str_exn json_dumps json_loads (c, w)) = w
  /\ world_of (api_shutdown_status json_dumps (c, w)) = w.
Proof.
  unfold world_of. split.
  - apply (kw_try (A := unit)); [|intros e; apply kw_send_error].
    apply kw_bind; [apply (kw_query (fun w => Ok (os_path_exists (w_fs w) mailbox_to_mobile)))|].
    intros present. apply kw_bind; [|intros response; apply kw_reply_json].
    destruct present; [|apply kw_ret].
    apply kw_bind; [apply (kw_query (fun w => read_text (w_fs w) mailbox_to_mobile))|].
    intros content. apply kw_bind; [apply kw_lift_exc|intros message].
    apply kw_bind; [apply kw_lift_exc|intros text].
    apply kw_bind; [apply kw_lift_exc|intros ip]. apply kw_ret.
  - apply (kw_bind (A := string)); [apply (kw_query (fun w => Ok (w_shutdown_status w)))|].
    intros status. apply kw_reply_json.
Qed.

(* ------------------------------------------------------------------ *)
(** ** Request dispatcher: routing *)

Lemma not_listed_eqb (path a : string) (l : list string) :
  path ∉ a :: l -> String.eqb path a = false /\ path ∉ l.
Proof.
  intros H. apply not_elem_of_cons in H as [Hne Hl]. split; [|exact Hl].
  now apply String.eqb_neq.
Qed.

(** X20: a POST to a path that is none of the nine API paths changes
    nothing and is not answered.  Whether the path names a place inside
    a share, the root or anything else, the branch taken ends in
    [send_error], which raises in [log_message] before the status line:
    the handler ends with an exception, the connection has received
    nothing and the world is as it was.  The path is compared as sent,
    so an API path with a query string is such a path. *)
Theorem post_outside_api_unanswered (cwd : string) (shared_dirs : list string)
    (str_exn : exn -> string) (json_dumps : json -> string)
    (json_loads : string -> exc json) (now : json) (rq : request) (c : conn) (w : world) :
  rq_path rq ∉ api_paths ->
  let r := do_POST cwd shared_dirs str_exn json_dumps json_loads now rq (c, w) in
  (exists e, fst r = Raise e) /\ snd r = (c, w).
Proof.
  intros Hpath. unfold api_paths in Hpath.
  apply not_listed_eqb in Hpath as [H1 Hpath].
  apply not_listed_eqb in Hpath as [H2 Hpath].
  apply not_listed_eqb in Hpath as [H3 Hguard].
  cbv zeta. unfold do_POST. rewrite H1, H2, H3.
  rewrite bool_decide_eq_false_2 by exact Hguard.
  unfold guarded_api_paths in Hguard.
  apply not_listed_eqb in Hguard as [H4 Hguard].
  apply not_listed_eqb in Hguard as [H5 Hguard].
  apply not_listed_eqb in Hguard as [H6 Hguard].
  apply not_listed_eqb in Hguard as [H7 Hguard].
  apply not_listed_eqb in Hguard as [H8 Hguard].
  apply not_listed_eqb in Hguard as [H9 _].
  unfold dispatch. rewrite H4, H5, H6, H7, H8, H9.
  destruct (translate_path cwd shared_dirs (rq_path rq)) as [p|];
    [destruct (String.eqb p "/__root__")|];
    rewrite send_error_raises; split; eauto.
Qed.

Lemma post_outside_api_unanswered_witness :
  let post path :=
    do_POST "/" ["/srv/pub"] exn_name sample_dumps (sample_loads JNull) sample_now
      (bare_request path) (fresh_conn, sample_world) in
  snd (post "/share1/music/") = (fresh_conn, sample_world)
  /\ snd (post "/api/cancel_shutdown?now") = (fresh_conn, sample_world)
  /\ snd (post "/") = (fresh_conn, sample_world).
Proof.
  assert (H : forall path, path ∉ api_paths ->
            snd (do_POST "/" ["/srv/pub"] exn_name sample_dumps (sample_loads JNull)
                   sample_now (bare_request path) (fresh_conn, sample_world))
            = (fresh_conn, sample_world)).
  { intros path Hpath.
    exact (proj2 (post_outside_api_unanswered "/" ["/srv/pub"] exn_name sample_dumps
                    (sample_loads JNull) sample_now (bare_request path) fresh_conn
                    sample_world Hpath)). }
  cbv zeta. repeat split; apply H;
    unfold api_paths; intros Hin; repeat (apply elem_of_cons in Hin as [Hin|Hin]; [discriminate|]);
    now apply elem_of_nil in Hin.
Defined.

(* ------------------------------------------------------------------ *)
(** ** Configuration files and the port dialog *)

Lemma minus_not_number s : PyStr.isdigit (PyStr.strip (String "-" s)) = false.
Proof.
  unfold PyStr.strip.
  rewrite lstrip_head by (try reflexivity; vm_compute; lia).
  destruct (rstrip_keeps_head "-" s) as [r ->]; [reflexivity|vm_compute; lia|].
  reflexivity.
Qed.

Lemma natural_text n :
  0 <= n ->
  PyStr.strip (PyStr.str_of_Z n) = PyStr.str_of_Z n
  /\ PyStr.isdigit (PyStr.str_of_Z n) = true
  /\ PyStr.int_of (PyStr.str_of_Z n) = n.
Proof.
  intros Hn. destruct (str_of_Z_digits n Hn) as [Hd Hv].
  destruct (isdigit_all_digits _ Hd) as [Hall _].
  split; [now apply strip_digits|]. now split.
Qed.

(** X21: the port dialog accepts the decimal text of a number exactly
    when the number lies between 80 and 65535, both included, and then
    yields that number.  A negative number fails the digit test. *)
Theorem port_accepted_in_range (port : Z) :
  validate_and_accept (PyStr.str_of_Z port) = inr port <-> 80 <= port <= 65535.
Proof.
  unfold validate_and_accept.
  destruct (Z.ltb_spec port 0) as [Hneg|Hpos].
  - unfold PyStr.str_of_Z at 1 2. rewrite (proj2 (Z.ltb_lt _ _) Hneg).
    rewrite minus_not_number. cbn [negb]. split; [discriminate|lia].
  - destruct (natural_text port Hpos) as (Hstrip & Hd & Hv).
    rewrite Hstrip, Hd, Hv. cbn [negb].
    destruct (Z.ltb_spec port 80); cbn [orb].
    + split; [discriminate|lia].
    + destruct (Z.gtb_spec port 65535).
      * split; [discriminate|lia].
      * split; [lia|reflexivity].
Qed.

Lemma port_accepted_in_range_witness : validate_and_accept "8080" = inr 8080.
Proof.
  apply (proj2 (port_accepted_in_range 8080)). lia.
Defined.

Lemma read_file_there name content w :
  PyStr.contains name "/" = false ->
  w_fs w !! name = Some (File content) ->
  read_file name w = (Ok content, w).
Proof.
  intros Hname Hfile. unfold read_file, read_text.
  rewrite (no_slash_key name Hname), Hfile. reflexivity.
Qed.

Lemma exists_there name x fs :
  PyStr.contains name "/" = false -> fs !! name = Some x -> os_path_exists fs name = true.
Proof.
  intros Hname Hfile. unfold os_path_exists. now rewrite (no_slash_key name Hname), Hfile.
Qed.

Lemma exists_missing name fs :
  PyStr.contains name "/" = false -> fs !! name = None -> os_path_exists fs name = false.
Proof.
  intros Hname Hfile. unfold os_path_exists. now rewrite (no_slash_key name Hname), Hfile.
Qed.

(** X22: the port that was saved is the port that is loaded.  When the
    port file is not a directory and the document written reads back as
    it was written, [save_port_config] returns [True] and a following
    [load_port_config] returns the same port, leaving the files as they
    are.  Without a port file [load_port_config] returns 20261, and so it
    does when the file does not hold JSON. *)
Theorem port_config_round_trip (str_exn : exn -> string) (json_dump : json -> string)
    (json_load : string -> exc json) (str_json : json -> string) (port : Z) (w : world) :
  w_fs w !! PORT_CONFIG_FILE <> Some Dir ->
  json_load (json_dump (JObj [("port", JInt port)])) = Ok (JObj [("port", JInt port)]) ->
  let saved := save_port_config str_exn json_dump port w in
  let loaded := load_port_config str_exn json_load str_json (snd saved) in
  fst saved = Ok true
  /\ fst loaded = Ok (JInt port)
  /\ w_fs (snd loaded) = w_fs (snd saved)
  /\ (forall w0, w_fs w0 !! PORT_CONFIG_FILE = None ->
                 fst (load_port_config str_exn json_load str_json w0) = Ok (JInt 20261))
  /\ (forall w0 content e,
        w_fs w0 !! PORT_CONFIG_FILE = Some (File content) ->
        json_load content = Raise e ->
        fst (load_port_config str_exn json_load str_json w0) = Ok (JInt 20261)).
Proof.
  intros Hnodir Hload. cbv zeta.
  assert (Hsave : exists lines,
             save_port_config str_exn json_dump port w
             = (Ok true,
                {| w_fs := <[PORT_CONFIG_FILE := File (json_dump (JObj [("port", JInt port)]))]>
                             (w_fs w);
                   w_shutdown_status := w_shutdown_status w;
                   w_cmds := w_cmds w; w_stdout := lines |})).
  { eexists. unfold save_port_config. apply run_try_ok.
    erewrite run_bind by (apply (write_file_relative PORT_CONFIG_FILE _ w eq_refl Hnodir)).
    erewrite run_bind by reflexivity. reflexivity. }
  destruct Hsave as (lines & ->). cbn [fst snd].
  split; [reflexivity|].
  set (w1 := {| w_fs := _; w_shutdown_status := _; w_cmds := _; w_stdout := lines |}).
  assert (Hfile : w_fs w1 !! PORT_CONFIG_FILE = Some (File (json_dump (JObj [("port", JInt port)]))))
    by apply lookup_insert_eq.
  assert (Hrun : exists lines',
             load_port_config str_exn json_load str_json w1
             = (Ok (JInt port),
                {| w_fs := w_fs w1; w_shutdown_status := w_shutdown_status w1;
                   w_cmds := w_cmds w1; w_stdout := lines' |})).
  { eexists. unfold load_port_config. apply run_try_ok.
    erewrite run_bind by reflexivity.
    rewrite (exists_there PORT_CONFIG_FILE _ _ eq_refl Hfile).
    erewrite run_bind by (apply (read_file_there PORT_CONFIG_FILE _ w1 eq_refl Hfile)).
    erewrite run_bind by (rewrite Hload; reflexivity).
    erewrite run_bind by reflexivity.
    erewrite run_bind by reflexivity. reflexivity. }
  destruct Hrun as (lines' & ->). cbn [fst snd w_fs].
  split; [reflexivity|]. split; [reflexivity|]. split.
  - intros w0 Hnone. unfold load_port_config.
    erewrite run_try_ok; [reflexivity|].
    erewrite run_bind by reflexivity.
    rewrite (exists_missing PORT_CONFIG_FILE _ eq_refl Hnone).
    erewrite run_bind by reflexivity. reflexivity.
  - intros w0 content e Hfile0 Hbad. unfold load_port_config.
    erewrite run_try_raise; [reflexivity|].
    erewrite run_bind by reflexivity.
    rewrite (exists_there PORT_CONFIG_FILE _ _ eq_refl Hfile0).
    erewrite run_bind by (apply (read_file_there PORT_CONFIG_FILE _ w0 eq_refl Hfile0)).
    apply run_bind_raise. rewrite Hbad. reflexivity.
Qed.

Lemma port_config_round_trip_witness :
  let document := JObj [("port", JInt 8080)] in
  fst (load_port_config exn_name (sample_loads document) sample_dumps
         (snd (save_port_config exn_name sample_dumps 8080 empty_world)))
  = Ok (JInt 8080).
Proof.
  assert (Hnodir : w_fs empty_world !! PORT_CONFIG_FILE <> Some Dir)
    by (vm_compute; discriminate).
  pose proof (port_config_round_trip exn_name sample_dumps
                (sample_loads (JObj [("port", JInt 8080)])) sample_dumps 8080 empty_world
                Hnodir eq_refl) as H.
  cbv zeta in H. exact (proj1 (proj2 H)).
Defined.

(** X23: the share list that was saved is the list that is loaded.
    When the configuration file is not a directory and the document
    written reads back as it was written, [save_shared_folders_config]
    returns [True] and a following [load_shared_folders_config] returns
    the same paths in the same order.  A stored value without a length,
    such as a number, is answered with the empty list, as is a missing
    file. *)
Theorem shared_folders_round_trip (str_exn : exn -> string) (json_dump : json -> string)
    (json_load : string -> exc json) (folders : list string) (w : world) :
  w_fs w !! CONFIG_FILE <> Some Dir ->
  json_load (json_dump (JArr (map JStr folders))) = Ok (JArr (map JStr folders)) ->
  let saved := save_shared_folders_config str_exn json_dump folders w in
  let loaded := load_shared_folders_config str_exn json_load (snd saved) in
  fst saved = Ok true
  /\ fst loaded = Ok (JArr (map JStr folders))
  /\ w_fs (snd loaded) = w_fs (snd saved)
  /\ (forall w0, w_fs w0 !! CONFIG_FILE = None ->
                 fst (load_shared_folders_config str_exn json_load w0) = Ok (JArr []))
  /\ (forall w0 content v,
        w_fs w0 !! CONFIG_FILE = Some (File content) ->
        json_load content = Ok v ->
        py_len v = Raise TypeError ->
        fst (load_shared_folders_config str_exn json_load w0) = Ok (JArr [])).
Proof.
  intros Hnodir Hload. cbv zeta.
  assert (Hsave : exists lines,
             save_shared_folders_config str_exn json_dump folders w
             = (Ok true,
                {| w_fs := <[CONFIG_FILE := File (json_dump (JArr (map JStr folders)))]> (w_fs w);
                   w_shutdown_status := w_shutdown_status w;
                   w_cmds := w_cmds w; w_stdout := lines |})).
  { eexists. unfold save_shared_folders_config. apply run_try_ok.
    erewrite run_bind by (apply (write_file_relative CONFIG_FILE _ w eq_refl Hnodir)).
    erewrite run_bind by reflexivity. reflexivity. }
  destruct Hsave as (lines & ->). cbn [fst snd].
  split; [reflexivity|].
  set (w1 := {| w_fs := _; w_shutdown_status := _; w_cmds := _; w_stdout := lines |}).
  assert (Hfile : w_fs w1 !! CONFIG_FILE = Some (File (json_dump (JArr (map JStr folders)))))
    by apply lookup_insert_eq.
  assert (Hrun : exists lines',
             load_shared_folders_config str_exn json_load w1
             = (Ok (JArr (map JStr folders)),
                {| w_fs := w_fs w1; w_shutdown_status := w_shutdown_status w1;
                   w_cmds := w_cmds w1; w_stdout := lines' |})).
  { eexists. unfold load_shared_folders_config. apply run_try_ok.
    erewrite run_bind by reflexivity.
    rewrite (exists_there CONFIG_FILE _ _ eq_refl Hfile).
    erewrite run_bind by (apply (read_file_there CONFIG_FILE _ w1 eq_refl Hfile)).
    erewrite run_bind by (rewrite Hload; reflexivity).
    erewrite run_bind by reflexivity.
    erewrite run_bind by reflexivity. reflexivity. }
  destruct Hrun as (lines' & ->). cbn [fst snd w_fs].
  split; [reflexivity|]. split; [reflexivity|]. split.
  - intros w0 Hnone. unfold load_shared_folders_config.
    erewrite run_try_ok; [reflexivity|].
    erewrite run_bind by reflexivity.
    rewrite (exists_missing CONFIG_FILE _ eq_refl Hnone).
    erewrite run_bind by reflexivity. reflexivity.
  - intros w0 content v Hfile0 Hv Hlen. unfold load_shared_folders_config.
    erewrite run_try_raise; [reflexivity|].
    erewrite run_bind by reflexivity.
    rewrite (exists_there CONFIG_FILE _ _ eq_refl Hfile0).
    erewrite run_bind by (apply (read_file_there CONFIG_FILE _ w0 eq_refl Hfile0)).
    erewrite run_bind by (rewrite Hv; reflexivity).
    apply run_bind_raise. rewrite Hlen. reflexivity.
Qed.

Lemma shared_folders_round_trip_witness :
  let document := JArr (map JStr ["/srv/pub"; "/srv/music"]) in
  fst (load_shared_folders_config exn_name (sample_loads document)
         (snd (save_shared_folders_config exn_name sample_dumps
                 ["/srv/pub"; "/srv/music"] empty_world)))
  = Ok document.
Proof.
  assert (Hnodir : w_fs empty_world !! CONFIG_FILE <> Some Dir)
    by (vm_compute; discriminate).
  pose proof (shared_folders_round_trip exn_name sample_dumps
                (sample_loads (JArr (map JStr ["/srv/pub"; "/srv/music"])))
                ["/srv/pub"; "/srv/music"] empty_world Hnodir eq_refl) as H.
  cbv zeta in H. exact (proj1 (proj2 H)).
Defined.

(* ------------------------------------------------------------------ *)
(** ** Request dispatcher: creating an entry in a listed directory *)

Section ChildLemmas.
Import PyStr.

Lemma contains_char s c : contains s (String c "") = negb (lacks c s).
Proof.
  unfold lacks. induction s as [|a s IH]; [reflexivity|].
  cbn [contains String.prefix list_ascii_of_string forallb]. rewrite IH.
  destruct (ascii_dec c a) as [->|Hne].
  - rewrite Ascii.eqb_refl. now destruct s.
  - assert (Ascii.eqb a c = false) as -> by (apply Ascii.eqb_neq; congruence).
    reflexivity.
Qed.

Lemma child_is_comp name : child_name name = true -> is_comp name = true.
Proof.
  unfold child_name, bad_name, is_comp. intros H.
  apply andb_true_iff in H as [H Hdot]. apply andb_true_iff in H as [Hbad Hne].
  apply negb_true_iff, orb_false_iff in Hbad as [Hbad _].
  apply orb_false_iff in Hbad as [Hdots Hslash].
  rewrite contains_char in Hslash. apply negb_false_iff in Hslash.
  rewrite Hne, Hslash, Hdot. cbn [andb].
  destruct (String.eqb name "..") eqn:Htwo; [|reflexivity].
  apply String.eqb_eq in Htwo. subst name. discriminate Hdots.
Qed.

Lemma is_comp_inv c :
  is_comp c = true ->
  String.eqb c "" = false /\ lacks "/" c = true
  /\ String.eqb c "." = false /\ String.eqb c ".." = false.
Proof.
  unfold is_comp. intros H.
  apply andb_true_iff in H as [H H4]. apply andb_true_iff in H as [H H3].
  apply andb_true_iff in H as [H1 H2].
  repeat split; try assumption; now apply negb_true_iff.
Qed.

Lemma comp_head c :
  is_comp c = true -> exists a r, c = String a r /\ Ascii.eqb a "/" = false.
Proof.
  intros H. apply is_comp_inv in H as (Hne & Hl & _).
  destruct c as [|a r]; [discriminate|]. exists a, r. split; [reflexivity|].
  unfold lacks in Hl. cbn [list_ascii_of_string forallb] in Hl.
  apply andb_true_iff in Hl as [Ha _]. now apply negb_true_iff.
Qed.

Lemma split_lacks c s : lacks c s = true -> split c s = [s].
Proof.
  unfold lacks. induction s as [|a s IH]; [reflexivity|].
  cbn [list_ascii_of_string forallb split]. intros H.
  apply andb_true_iff in H as [Ha Hs]. apply negb_true_iff in Ha. rewrite Ha.
  now rewrite IH.
Qed.

Lemma split_app_sep c x y :
  lacks c x = true -> split c (x ++ String c y) = x :: split c y.
Proof.
  unfold lacks. induction x as [|a x IH]; intros H.
  - change ("" ++ String c y) with (String c y). cbn [split]. now rewrite Ascii.eqb_refl.
  - cbn [list_ascii_of_string forallb] in H. apply andb_true_iff in H as [Ha Hx].
    apply negb_true_iff in Ha.
    change (String a x ++ String c y) with (String a (x ++ String c y)).
    cbn [split]. now rewrite Ha, IH.
Qed.

Lemma join_cons x y l : join "/" (x :: y :: l) = x ++ String "/" (join "/" (y :: l)).
Proof. reflexivity. Qed.

Lemma split_join cs :
  cs <> [] -> Forall (fun c => is_comp c = true) cs -> split "/" (join "/" cs) = cs.
Proof.
  intros Hne Hall. induction Hall as [|x l Hx Hl IH]; [congruence|].
  apply is_comp_inv in Hx as (_ & Hlx & _).
  destruct l as [|y l].
  - cbn [join String.concat]. now apply split_lacks.
  - rewrite join_cons, split_app_sep by exact Hlx. f_equal. apply IH. discriminate.
Qed.

Lemma norm_comps_ok cs :
  Forall (fun c => is_comp c = true) cs ->
  forall acc, PosixPath.norm_comps true acc cs = (acc ++ cs)%list.
Proof.
  induction 1 as [|x l Hx Hl IH]; intros acc; [now rewrite app_nil_r|].
  apply is_comp_inv in Hx as (H1 & _ & H3 & H4).
  cbn [PosixPath.norm_comps]. rewrite H1, H3, H4. cbn [orb negb].
  rewrite IH. now rewrite <- app_assoc.
Qed.

Lemma join_head cs :
  cs <> [] -> Forall (fun c => is_comp c = true) cs ->
  exists a r, join "/" cs = String a r /\ Ascii.eqb a "/" = false.
Proof.
  intros Hne Hall. destruct Hall as [|x l Hx Hl]; [congruence|].
  destruct (comp_head x Hx) as (a & r & -> & Ha).
  destruct l as [|y l].
  - exists a, r. now split.
  - exists a, (r ++ String "/" (join "/" (y :: l))). split; [|exact Ha].
    now rewrite join_cons.
Qed.

Lemma join_snoc cs name :
  cs <> [] -> join "/" (cs ++ [name]) = join "/" cs ++ "/" ++ name.
Proof.
  induction cs as [|x l IH]; [congruence|]. intros _.
  destruct l as [|y l].
  - reflexivity.
  - change ((x :: y :: l) ++ [name])%list with (x :: (y :: (l ++ [name])))%list.
    rewrite !join_cons.
    change (y :: l ++ [name])%list with ((y :: l) ++ [name])%list.
    rewrite IH by discriminate.
    change (String "/" (join "/" (y :: l) ++ "/" ++ name))
      with (String "/" (join "/" (y :: l)) ++ "/" ++ name).
    now rewrite string_app_assoc.
Qed.

Lemma endswith_comp c : is_comp c = true -> endswith c "/" = false.
Proof.
  intros H. apply is_comp_inv in H as (Hne & Hl & _).
  unfold lacks in Hl. induction c as [|a c IH]; [reflexivity|].
  cbn [list_ascii_of_string forallb] in Hl. apply andb_true_iff in Hl as [Ha Hc].
  rewrite endswith_cons. destruct c as [|b c]; [now apply negb_true_iff in Ha|].
  apply IH; [reflexivity|exact Hc].
Qed.

Lemma endswith_join cs :
  cs <> [] -> Forall (fun c => is_comp c = true) cs -> endswith (join "/" cs) "/" = false.
Proof.
  intros Hne Hall. induction Hall as [|x l Hx Hl IH]; [congruence|].
  destruct l as [|y l]; [now apply endswith_comp|].
  rewrite join_cons, endswith_app by discriminate.
  rewrite endswith_cons.
  destruct (join_head (y :: l)) as (a & r & Hj & _); [discriminate|exact Hl|].
  rewrite Hj. rewrite <- Hj. apply IH. discriminate.
Qed.

End ChildLemmas.

Section NormalForm.
Import PyStr.

Lemma split_no_sep c s : Forall (fun x => lacks c x = true) (split c s).
Proof.
  induction s as [|a s IH]; [repeat constructor|].
  cbn [split]. destruct (Ascii.eqb a c) eqn:Ha.
  - constructor; [reflexivity|exact IH].
  - destruct (split c s) as [|x xs]; [repeat constructor; unfold lacks; cbn; now rewrite Ha|].
    inversion IH as [|? ? Hx Hxs]; subst. constructor; [|exact Hxs].
    unfold lacks in *. cbn [list_ascii_of_string forallb]. now rewrite Ha, Hx.
Qed.

Lemma Forall_removelast {A} (P : A -> Prop) l : Forall P l -> Forall P (removelast l).
Proof.
  induction 1 as [|x l Hx Hl IH]; [constructor|].
  cbn [removelast]. destruct l; [constructor|]. constructor; assumption.
Qed.

Lemma norm_comps_kept comps :
  Forall (fun x => lacks "/" x = true) comps ->
  forall acc, Forall (fun c => is_comp c = true) acc ->
              Forall (fun c => is_comp c = true) (PosixPath.norm_comps true acc comps).
Proof.
  induction 1 as [|comp rest Hc Hrest IH]; intros acc Hacc; [exact Hacc|].
  cbn [PosixPath.norm_comps].
  destruct (String.eqb comp "" || String.eqb comp ".") eqn:Hskip; [now apply IH|].
  apply orb_false_iff in Hskip as [He Hd].
  destruct (String.eqb comp "..") eqn:Hup; cbn [negb orb andb].
  - assert (Hlast : match last acc with
                    | Some l => String.eqb l ".."
                    | None => false
                    end = false).
    { destruct (last acc) as [l|] eqn:Hl; [|reflexivity].
      apply last_Some_elem_of in Hl.
      rewrite Forall_forall in Hacc. specialize (Hacc l Hl).
      now apply is_comp_inv in Hacc as (_ & _ & _ & ?). }
    rewrite Hlast. apply IH. now apply Forall_removelast.
  - apply IH. apply Forall_app. split; [exact Hacc|].
    repeat constructor. unfold is_comp. now rewrite He, Hc, Hd, Hup.
Qed.

Lemma rooted_nil pre : rooted pre [] = pre.
Proof. unfold rooted. apply append_empty_r. Qed.

(** the normal form of an absolute path *)
Lemma normpath_structure y :
  PosixPath.isabs y = true ->
  exists pre cs,
    (pre = "/" \/ pre = "//")
    /\ Forall (fun c => is_comp c = true) cs
    /\ PosixPath.normpath y = rooted pre cs.
Proof.
  unfold PosixPath.isabs. intros Habs. unfold PosixPath.normpath.
  destruct (String.eqb y "") eqn:Hy; [apply String.eqb_eq in Hy; now subst|].
  rewrite Habs.
  pose proof (norm_comps_kept (split "/" y) (split_no_sep "/" y) [] (List.Forall_nil _)) as Hcs.
  set (cs := PosixPath.norm_comps _ [] (split "/" y)) in *.
  destruct (startswith y "//" && negb (startswith y "///")).
  - exists "//", cs. split; [now right|]. split; [exact Hcs|]. reflexivity.
  - exists "/", cs. split; [now left|]. split; [exact Hcs|]. reflexivity.
Qed.

Lemma normpath_rooted pre cs :
  pre = "/" \/ pre = "//" ->
  cs <> [] ->
  Forall (fun c => is_comp c = true) cs ->
  PosixPath.normpath (rooted pre cs) = rooted pre cs.
Proof.
  intros Hpre Hne Hall. unfold rooted.
  destruct (join_head cs Hne Hall) as (a & r & Hj & Ha).
  pose proof (split_join cs Hne Hall) as Hsplit.
  assert (Hna : "/"%char <> a) by (intros <-; discriminate).
  destruct Hpre as [-> | ->].
  - change ("/" ++ join "/" cs) with (String "/" (join "/" cs)).
    set (P := String "/" (join "/" cs)).
    assert (H0 : String.eqb P "" = false) by reflexivity.
    assert (H1 : String.prefix "/" P = true) by (subst P; rewrite Hj; reflexivity).
    assert (H2 : String.prefix "//" P = false).
    { subst P. rewrite Hj. cbn [String.prefix].
      destruct (ascii_dec "/" "/"); [|congruence].
      destruct (ascii_dec "/" a); [congruence|reflexivity]. }
    assert (H3 : split "/" P = "" :: cs).
    { subst P. cbn [split]. now rewrite Ascii.eqb_refl, Hsplit. }
    unfold PosixPath.normpath, startswith. rewrite H0, H1, H2, H3.
    cbn [andb Nat.eqb negb PosixPath.norm_comps String.eqb orb].
    rewrite norm_comps_ok by exact Hall. cbn [app].
    change ("/" ++ join "/" cs) with P. now rewrite H0.
  - change ("//" ++ join "/" cs) with (String "/" (String "/" (join "/" cs))).
    set (P := String "/" (String "/" (join "/" cs))).
    assert (H0 : String.eqb P "" = false) by reflexivity.
    assert (H1 : String.prefix "/" P = true) by (subst P; rewrite Hj; reflexivity).
    assert (H2 : String.prefix "//" P = true) by (subst P; rewrite Hj; reflexivity).
    assert (H4 : String.prefix "///" P = false).
    { subst P. rewrite Hj. cbn [String.prefix].
      destruct (ascii_dec "/" "/"); [|congruence].
      destruct (ascii_dec "/" a); [congruence|reflexivity]. }
    assert (H3 : split "/" P = "" :: "" :: cs).
    { subst P. cbn [split]. now rewrite Ascii.eqb_refl, Hsplit. }
    unfold PosixPath.normpath, startswith. rewrite H0, H1, H2, H4, H3.
    cbn [andb Nat.eqb negb PosixPath.norm_comps String.eqb orb].
    rewrite norm_comps_ok by exact Hall. cbn [app].
    change ("//" ++ join "/" cs) with P. now rewrite H0.
Qed.

End NormalForm.

Section RootedLemmas.
Import PyStr.

Lemma rstrip_sep_snoc x : PosixPath.rstrip_sep (x ++ "/") = PosixPath.rstrip_sep x.
Proof.
  induction x as [|a x IH]; [reflexivity|].
  change (String a x ++ "/") with (String a (x ++ "/")).
  cbn [PosixPath.rstrip_sep]. now rewrite IH.
Qed.

Lemma rstrip_sep_id x : endswith x "/" = false -> PosixPath.rstrip_sep x = x.
Proof.
  induction x as [|a x IH]; [reflexivity|].
  rewrite endswith_cons. cbn [PosixPath.rstrip_sep]. destruct x as [|b x].
  - cbn [PosixPath.rstrip_sep]. now intros ->.
  - intros H. rewrite (IH H). reflexivity.
Qed.

Lemma not_all_slashes a r t :
  Ascii.eqb a "/" = false ->
  forall p, forallb (Ascii.eqb "/") (list_ascii_of_string (p ++ String a r ++ t)) = false.
Proof.
  intros Ha p. rewrite list_ascii_app, forallb_app.
  change (String a r ++ t) with (String a (r ++ t)).
  cbn [list_ascii_of_string forallb]. rewrite Ascii.eqb_sym, Ha. apply andb_false_r.
Qed.

Lemma join_rooted pre cs name :
  pre = "/" \/ pre = "//" ->
  Forall (fun c => is_comp c = true) cs ->
  is_comp name = true ->
  PosixPath.join (rooted pre cs) name = rooted pre (cs ++ [name]).
Proof.
  intros Hpre Hall Hname. unfold PosixPath.join, rooted, startswith.
  destruct (comp_head name Hname) as (a & r & Hn & Ha).
  assert (Hrel : String.prefix "/" name = false).
  { rewrite Hn. cbn [String.prefix]. destruct (ascii_dec "/" a) as [<-|]; [discriminate|reflexivity]. }
  rewrite Hrel.
  assert (Hne : String.eqb (pre ++ join "/" cs) "" = false)
    by (destruct Hpre as [-> | ->]; reflexivity).
  rewrite Hne. cbn [orb].
  destruct cs as [|x l].
  - cbn [join String.concat app]. rewrite append_empty_r.
    assert (endswith pre "/" = true) as -> by (destruct Hpre as [-> | ->]; reflexivity).
    reflexivity.
  - rewrite endswith_app.
    2:{ destruct (join_head (x :: l)) as (b & t & Hj & _); [discriminate|exact Hall|].
        rewrite Hj. discriminate. }
    rewrite endswith_join by (try discriminate; exact Hall).
    rewrite join_snoc by discriminate. now rewrite !string_app_assoc.
Qed.

Lemma split_rooted pre cs :
  pre = "/" \/ pre = "//" ->
  cs <> [] ->
  Forall (fun c => is_comp c = true) cs ->
  split "/" (rooted pre cs) = ((if String.eqb pre "/" then [""] else [""; ""]) ++ cs)%list.
Proof.
  intros Hpre Hne Hall. unfold rooted.
  pose proof (split_join cs Hne Hall) as Hsplit.
  destruct Hpre as [-> | ->].
  - change ("/" ++ join "/" cs) with (String "/" (join "/" cs)).
    cbn [split]. now rewrite Ascii.eqb_refl, Hsplit.
  - change ("//" ++ join "/" cs) with (String "/" (String "/" (join "/" cs))).
    cbn [split]. now rewrite Ascii.eqb_refl, Hsplit.
Qed.

Lemma basename_rooted pre cs name :
  pre = "/" \/ pre = "//" ->
  Forall (fun c => is_comp c = true) cs ->
  is_comp name = true ->
  PosixPath.basename (rooted pre (cs ++ [name])) = name.
Proof.
  intros Hpre Hall Hname. unfold PosixPath.basename.
  rewrite split_rooted; [|exact Hpre|now destruct cs|].
  2:{ apply Forall_app. split; [exact Hall|now repeat constructor]. }
  rewrite app_assoc, last_snoc. reflexivity.
Qed.

Lemma dirname_rooted pre cs name :
  pre = "/" \/ pre = "//" ->
  Forall (fun c => is_comp c = true) cs ->
  is_comp name = true ->
  PosixPath.dirname (rooted pre (cs ++ [name])) = rooted pre cs.
Proof.
  intros Hpre Hall Hname. unfold PosixPath.dirname.
  rewrite split_rooted; [|exact Hpre|now destruct cs|].
  2:{ apply Forall_app. split; [exact Hall|now repeat constructor]. }
  assert (Hparts : forall e, ((""%string :: e) ++ cs ++ [name])%list
                             = (((""%string :: e) ++ cs) ++ [name])%list)
    by (intros e; now rewrite app_assoc).
  assert (Hhead : forall e,
             match (((""%string :: e) ++ cs) ++ [name])%list with
             | [] | [_] => ""
             | _ =>
                 let head := join "/" (removelast (((""%string :: e) ++ cs) ++ [name])) ++ "/" in
                 if forallb (Ascii.eqb "/") (list_ascii_of_string head) then head
                 else PosixPath.rstrip_sep head
             end
             = let head := join "/" ((""%string :: e) ++ cs) ++ "/" in
               if forallb (Ascii.eqb "/") (list_ascii_of_string head) then head
               else PosixPath.rstrip_sep head).
  { intros e. rewrite removelast_last.
    destruct e as [|e1 e]; destruct cs as [|x l]; try reflexivity;
      cbn [app]; destruct l; try reflexivity; destruct e; reflexivity. }
  unfold rooted.
  destruct Hpre as [-> | ->]; cbn [String.eqb Ascii.eqb Bool.eqb];
    rewrite Hparts, Hhead; cbv zeta; cbn [app].
  - destruct cs as [|x l]; [reflexivity|].
    destruct (join_head (x :: l)) as (a & r & Hj & Ha); [discriminate|exact Hall|].
    rewrite join_cons.
    change ("" ++ String "/" (join "/" (x :: l))) with (String "/" (join "/" (x :: l))).
    assert (Hmixed : forallb (Ascii.eqb "/")
                       (list_ascii_of_string (String "/" (join "/" (x :: l)) ++ "/")) = false).
    { rewrite Hj. exact (not_all_slashes a r "/" Ha "/"). }
    rewrite Hmixed, rstrip_sep_snoc.
    change ("/" ++ join "/" (x :: l)) with (String "/" (join "/" (x :: l))).
    apply rstrip_sep_id. rewrite endswith_cons, Hj, <- Hj.
    apply endswith_join; [discriminate|exact Hall].
  - destruct cs as [|x l]; [reflexivity|].
    destruct (join_head (x :: l)) as (a & r & Hj & Ha); [discriminate|exact Hall|].
    change (join "/" ("" :: "" :: x :: l))
      with (String "/" (String "/" (join "/" (x :: l)))).
    assert (Hmixed : forallb (Ascii.eqb "/")
                       (list_ascii_of_string
                          (String "/" (String "/" (join "/" (x :: l))) ++ "/")) = false).
    { rewrite Hj. exact (not_all_slashes a r "/" Ha "//"). }
    rewrite Hmixed, rstrip_sep_snoc.
    change ("//" ++ join "/" (x :: l)) with (String "/" (String "/" (join "/" (x :: l)))).
    apply rstrip_sep_id. rewrite !endswith_cons, Hj, <- Hj.
    apply endswith_join; [discriminate|exact Hall].
Qed.

Lemma isabs_rooted pre cs :
  pre = "/" \/ pre = "//" -> PosixPath.isabs (rooted pre cs) = true.
Proof.
  unfold PosixPath.isabs, startswith, rooted.
  intros [-> | ->].
  - change ("/" ++ join "/" cs) with (String "/" (join "/" cs)).
    cbn [String.prefix]. destruct (ascii_dec "/" "/"); [|congruence].
    now destruct (join "/" cs).
  - change ("//" ++ join "/" cs) with (String "/" (String "/" (join "/" cs))).
    cbn [String.prefix]. destruct (ascii_dec "/" "/"); [|congruence]. reflexivity.
Qed.

End RootedLemmas.

Section ListedLemmas.
Import PyStr.

Lemma normpath_rooted_any pre cs :
  pre = "/" \/ pre = "//" ->
  Forall (fun c => is_comp c = true) cs ->
  PosixPath.normpath (rooted pre cs) = rooted pre cs.
Proof.
  intros Hpre Hall. destruct cs as [|x l].
  - destruct Hpre as [-> | ->]; reflexivity.
  - apply normpath_rooted; [exact Hpre|discriminate|exact Hall].
Qed.

(** what [translate_path] returns is an absolute path in normal form *)
Lemma translate_path_rooted cwd shared_dirs current path :
  PosixPath.isabs cwd = true ->
  translate_path cwd shared_dirs current = Some path ->
  exists pre cs,
    (pre = "/" \/ pre = "//")
    /\ Forall (fun c => is_comp c = true) cs
    /\ path = rooted pre cs.
Proof.
  intros Hcwd. unfold translate_path.
  destruct (_ || _).
  { intros [= <-]. exists "/", ["__root__"]. split; [now left|]. split; [|reflexivity].
    repeat constructor. }
  destruct (Re.match_share _) as [[g1 sub_path]|]; [|discriminate].
  destruct (_ && _); [|discriminate].
  destruct (shared_dirs !! _) as [share_dir|]; [|discriminate].
  destruct (startswith _ _); [|discriminate].
  intros [= <-]. unfold PosixPath.abspath.
  apply normpath_structure.
  destruct (PosixPath.isabs (PosixPath.join share_dir sub_path)) eqn:Habs; [exact Habs|].
  unfold PosixPath.isabs in *. unfold PosixPath.join at 1. rewrite Habs.
  destruct cwd as [|a cwd]; [discriminate|].
  unfold startswith in *. cbn [String.prefix] in Hcwd.
  destruct (ascii_dec "/" a) as [<-|]; [|discriminate].
  destruct (_ || _).
  - change (String "/" cwd ++ PosixPath.join share_dir sub_path)
      with (String "/" (cwd ++ PosixPath.join share_dir sub_path)).
    cbn [String.prefix]. destruct (ascii_dec "/" "/"); [|congruence].
    now destruct (cwd ++ _).
  - change (String "/" cwd ++ "/" ++ PosixPath.join share_dir sub_path)
      with (String "/" (cwd ++ "/" ++ PosixPath.join share_dir sub_path)).
    cbn [String.prefix]. destruct (ascii_dec "/" "/"); [|congruence].
    now destruct (cwd ++ _).
Qed.

(** a child of a directory that [translate_path] returned *)
Lemma listed_child cwd shared_dirs current path name :
  PosixPath.isabs cwd = true ->
  translate_path cwd shared_dirs current = Some path ->
  is_comp name = true ->
  let target := PosixPath.join path name in
  fs_key path = path
  /\ String.eqb path "" = false
  /\ fs_key target = target
  /\ PosixPath.isabs target = true
  /\ PosixPath.dirname target = path
  /\ PosixPath.basename target = name.
Proof.
  intros Hcwd Htr Hname. cbv zeta.
  destruct (translate_path_rooted cwd shared_dirs current path Hcwd Htr)
    as (pre & cs & Hpre & Hall & ->).
  assert (Hall' : Forall (fun c => is_comp c = true) (cs ++ [name]))
    by (apply Forall_app; split; [exact Hall|now repeat constructor]).
  rewrite join_rooted by assumption.
  unfold fs_key. rewrite !isabs_rooted by exact Hpre.
  rewrite !normpath_rooted_any by assumption.
  rewrite dirname_rooted, basename_rooted by assumption.
  repeat split. destruct Hpre as [-> | ->]; reflexivity.
Qed.

End ListedLemmas.

Section ListedTarget.
Variables (cwd : string) (shared_dirs : list string).
Variables (referer current path name : string) (w : world).
Hypothesis Hcwd : PosixPath.isabs cwd = true.
Hypothesis Hreferer : Re.match_referer referer = Some current.
Hypothesis Hpath : translate_path cwd shared_dirs current = Some path.
Hypothesis Hdir : os_path_isdir (w_fs w) path = true.
Hypothesis Hname : is_comp name = true.
Hypothesis Hnew : os_path_exists (w_fs w) (PosixPath.join path name) = false.

Lemma listed_lookups :
  w_fs w !! path = Some Dir /\ w_fs w !! PosixPath.join path name = None.
Proof.
  destruct (listed_child cwd shared_dirs current path name Hcwd Hpath Hname)
    as (Hkp & _ & Hkt & _).
  cbv zeta in Hkt.
  unfold os_path_isdir in Hdir. unfold os_path_exists in Hnew.
  rewrite Hkp in Hdir. rewrite Hkt in Hnew. split.
  - now destruct (w_fs w !! path) as [[?|]|].
  - now destruct (w_fs w !! PosixPath.join path name).
Qed.

Lemma listed_target_path :
  target_path cwd shared_dirs (w_fs w) referer name = inl (PosixPath.join path name).
Proof.
  destruct (listed_child cwd shared_dirs current path name Hcwd Hpath Hname)
    as (_ & Hne & _).
  unfold target_path. now rewrite Hreferer, Hpath, Hne, Hdir.
Qed.

Lemma listed_write text :
  write_file (PosixPath.join path name) (Ok text) w
  = (Ok tt, set_fs (<[PosixPath.join path name := File text]> (w_fs w)) w).
Proof.
  destruct (listed_child cwd shared_dirs current path name Hcwd Hpath Hname)
    as (_ & _ & Hkt & Habs & Hd & _).
  cbv zeta in Hkt, Habs, Hd.
  destruct listed_lookups as [Hp Ht].
  rewrite write_file_ok; [now rewrite Hkt|].
  unfold can_create, open_w. now rewrite Hkt, Ht, Habs, Hd, Hp.
Qed.

Lemma listed_write_refused e :
  write_file (PosixPath.join path name) (Raise e) w
  = (Raise e, set_fs (<[PosixPath.join path name := File ""]> (w_fs w)) w).
Proof.
  destruct (listed_child cwd shared_dirs current path name Hcwd Hpath Hname)
    as (_ & _ & Hkt & Habs & Hd & _).
  cbv zeta in Hkt, Habs, Hd.
  destruct listed_lookups as [Hp Ht].
  unfold write_file.
  erewrite run_bind.
  2:{ unfold fs_update, open_w. rewrite Hkt, Ht, Habs, Hd, Hp. reflexivity. }
  reflexivity.
Qed.

Lemma listed_makedirs :
  os_makedirs (PosixPath.join path name) w
  = (Ok tt, set_fs (<[PosixPath.join path name := Dir]> (w_fs w)) w).
Proof.
  destruct (listed_child cwd shared_dirs current path name Hcwd Hpath Hname)
    as (Hkp & Hne & Hkt & Habs & Hd & Hb).
  cbv zeta in Hkt, Habs, Hd, Hb.
  destruct listed_lookups as [Hp Ht].
  apply is_comp_inv in Hname as (Hnonempty & _).
  unfold os_makedirs. cbn [makedirs]. unfold os_path_split. rewrite Hd, Hb, Hnonempty.
  erewrite run_bind by reflexivity.
  unfold os_path_exists. rewrite Hkp, Hp, Hne, Hnonempty. cbn [negb andb].
  unfold mkdir, fs_update, os_mkdir. now rewrite Hkt, Ht, Habs, Hd, Hp.
Qed.

End ListedTarget.

(** X24: a directory made in a listed directory.  The [Referer] is well
    formed (at most 4300 ASCII characters, with escapes that decode to
    UTF-8) and names a share path that resolves to an existing
    directory.  The stripped name is not empty, not a dot, has no
    separator and no two dots in a row, is a name that the file system
    takes (no NUL character, at most 255 bytes) and names nothing that
    exists there.  Then [/api/create_dir] answers 201 and the one change
    to the file system is a new empty directory with that name, directly
    in the directory of the [Referer]. *)
Theorem create_dir_in_listed_directory (cwd : string) (shared_dirs : list string)
    (str_exn : exn -> string) (json_dumps : json -> string)
    (data : json) (raw referer current path : string) (c : conn) (w : world) :
  let name := PyStr.strip raw in
  let target := PosixPath.join path name in
  peer_takes c = None ->
  PosixPath.isabs cwd = true ->
  well_formed_url referer = true ->
  Re.match_referer referer = Some current ->
  translate_path cwd shared_dirs current = Some path ->
  os_path_isdir (w_fs w) path = true ->
  Py.dict_get data "dirname" (JStr "") = Ok (JStr raw) ->
  child_name name = true ->
  storable_name name = true ->
  os_path_exists (w_fs w) target = false ->
  let r := api_create_dir cwd shared_dirs str_exn json_dumps (Ok data) referer (c, w) in
  fst r = Ok tt
  /\ sent (fst (snd r)) = (sent c ++ json_answer json_dumps 201 success)%list
  /\ w_fs (world_of r) = <[target := Dir]> (w_fs w)
  /\ PosixPath.dirname target = path
  /\ PosixPath.basename target = name.
Proof.
  intros name target Hpeer Hcwd _ Hreferer Hpath Hdir Hget Hchild _ Hnew. cbv zeta.
  subst target. set (target := PosixPath.join path name) in *.
  pose proof (child_is_comp name Hchild) as Hcomp.
  destruct (listed_child cwd shared_dirs current path name Hcwd Hpath Hcomp)
    as (_ & _ & _ & _ & Hd & Hb).
  assert (Hrun : api_create_dir cwd shared_dirs str_exn json_dumps (Ok data) referer (c, w)
                 = (Ok tt,
                    ({| sent := (sent c ++ json_answer json_dumps 201 success)%list;
                        peer_takes := None |},
                     set_fs (<[target := Dir]> (w_fs w)) w))).
  { unfold api_create_dir. apply run_try_ok.
    erewrite run_bind by reflexivity. cbn [fst snd].
    erewrite run_bind by (rewrite Hget; reflexivity).
    erewrite run_bind by reflexivity. fold name.
    unfold child_name in Hchild.
    apply andb_true_iff in Hchild as [Hchild _].
    apply andb_true_iff in Hchild as [Hbad Hne].
    apply negb_true_iff in Hbad. apply negb_true_iff in Hne.
    rewrite Hne, Hbad.
    erewrite run_bind by reflexivity. cbn [fst snd].
    rewrite (listed_target_path cwd shared_dirs referer current path name w
               Hcwd Hreferer Hpath Hdir Hcomp).
    erewrite run_bind by reflexivity. cbn [fst snd]. fold target. rewrite Hnew.
    erewrite run_bind.
    2:{ unfold on_world. cbn [fst snd].
        pose proof (listed_makedirs cwd shared_dirs current path name w
                      Hcwd Hpath Hdir Hcomp Hnew) as Hmk.
        fold target in Hmk. rewrite Hmk. reflexivity. }
    apply reply_json_answer. exact Hpeer. }
  rewrite Hrun. unfold world_of. cbn [fst snd sent w_fs set_fs].
  repeat split; assumption.
Qed.

Lemma create_dir_in_listed_directory_witness :
  let r := api_create_dir "/" ["/srv/pub"] exn_name sample_dumps
             (Ok (JObj [("dirname", JStr " photos ")])) "http://h:1/share1/music/"
             (fresh_conn, sample_world) in
  w_fs (world_of r) = <["/srv/pub/music/photos" := Dir]> sample_tree.
Proof.
  pose proof (create_dir_in_listed_directory "/" ["/srv/pub"] exn_name sample_dumps
                (JObj [("dirname", JStr " photos ")]) " photos "
                "http://h:1/share1/music/" "/share1/music/" "/srv/pub/music"
                fresh_conn sample_world
                eq_refl eq_refl eq_refl eq_refl eq_refl eq_refl eq_refl eq_refl eq_refl
                eq_refl) as H.
  cbv zeta in H. exact (proj1 (proj2 (proj2 H))).
Defined.

(** X25: a file uploaded into a listed directory.  The content type is
    multipart, the first [file] item of the form is bytes and its first
    [filename] item is a text that passes the same tests and that the
    file system takes as a name (no NUL character, at most 255 bytes);
    the [Referer] is well formed (at most 4300 ASCII characters, with
    escapes that decode to UTF-8) and resolves to an existing directory
    in which the name is free.  Then [/api/upload] answers 201 and the
    one change to the file system is a new file with those bytes,
    directly in the directory of the [Referer].  When the [file] item is
    text, the write raises after the file was opened: no answer is sent,
    the handler ends in the [TypeError] of [send_error], and an empty
    file with that name is left behind. *)
Theorem upload_in_listed_directory (cwd : string) (shared_dirs : list string)
    (str_exn : exn -> string) (json_dumps : json -> string)
    (content_type : string) (form : gmap string (list form_value))
    (item : form_value) (items names : list form_value)
    (raw referer current path : string) (c : conn) (w : world) :
  let name := PyStr.strip raw in
  let target := PosixPath.join path name in
  peer_takes c = None ->
  PosixPath.isabs cwd = true ->
  PyStr.contains content_type "multipart/form-data" = true ->
  form !! "file" = Some (item :: items) ->
  form !! "filename" = Some (FText raw :: names) ->
  well_formed_url referer = true ->
  Re.match_referer referer = Some current ->
  translate_path cwd shared_dirs current = Some path ->
  os_path_isdir (w_fs w) path = true ->
  child_name name = true ->
  storable_name name = true ->
  os_path_exists (w_fs w) target = false ->
  let r := api_upload cwd shared_dirs str_exn json_dumps content_type (Ok form) referer (c, w) in
  PosixPath.dirname target = path
  /\ match item with
     | FBytes content =>
         fst r = Ok tt
         /\ sent (fst (snd r)) = (sent c ++ json_answer json_dumps 201 success)%list
         /\ w_fs (world_of r) = <[target := File (string_of_list_byte content)]> (w_fs w)
     | FText _ =>
         fst r = Raise TypeError
         /\ sent (fst (snd r)) = sent c
         /\ w_fs (world_of r) = <[target := File ""]> (w_fs w)
     end.
Proof.
  intros name target Hpeer Hcwd Htype Hfile Hfname _ Hreferer Hpath Hdir Hchild _ Hnew. cbv zeta.
  subst target. set (target := PosixPath.join path name) in *.
  pose proof (child_is_comp name Hchild) as Hcomp.
  destruct (listed_child cwd shared_dirs current path name Hcwd Hpath Hcomp)
    as (_ & _ & _ & _ & Hd & _).
  split; [exact Hd|].
  unfold child_name in Hchild.
  apply andb_true_iff in Hchild as [Hchild _].
  apply andb_true_iff in Hchild as [Hbad Hne].
  apply negb_true_iff in Hbad. apply negb_true_iff in Hne.
  assert (Hhead :
            api_upload cwd shared_dirs str_exn json_dumps content_type (Ok form) referer (c, w)
            = try_except
                (on_world (write_file target (bytes_value item)) ;;
                 reply_json json_dumps 201 success)
                (fun e => send_error 500 (str_exn e)) (c, w)).
  { unfold api_upload. rewrite Htype. cbn [negb].
    unfold try_except at 1 2.
    erewrite run_bind by reflexivity. cbn [fst snd].
    rewrite Hfile, Hfname. cbn [blank_value]. fold name. rewrite Hne.
    erewrite run_bind by reflexivity. fold name. rewrite Hbad.
    erewrite run_bind by reflexivity. cbn [fst snd].
    rewrite (listed_target_path cwd shared_dirs referer current path name w
               Hcwd Hreferer Hpath Hdir Hcomp).
    erewrite run_bind by reflexivity. cbn [fst snd]. fold target. rewrite Hnew.
    reflexivity. }
  rewrite Hhead. clear Hhead.
  destruct item as [text|content]; cbn [bytes_value].
  - erewrite run_try_raise.
    2:{ apply run_bind_raise. unfold on_world. cbn [fst snd].
        pose proof (listed_write_refused cwd shared_dirs current path name w
                      Hcwd Hpath Hdir Hcomp Hnew TypeError) as Hwr.
        fold target in Hwr. rewrite Hwr. reflexivity. }
    rewrite send_error_raises. unfold world_of. cbn [fst snd w_fs set_fs].
    repeat split.
  - erewrite run_try_ok.
    2:{ erewrite run_bind.
        2:{ unfold on_world. cbn [fst snd].
            pose proof (listed_write cwd shared_dirs current path name w
                          Hcwd Hpath Hdir Hcomp Hnew (string_of_list_byte content)) as Hwr.
            fold target in Hwr. rewrite Hwr. reflexivity. }
        apply reply_json_answer. exact Hpeer. }
    unfold world_of. cbn [fst snd sent w_fs set_fs]. repeat split.
Qed.

Lemma upload_in_listed_directory_witness :
  let r := api_upload "/" ["/srv/pub"] exn_name sample_dumps
             "multipart/form-data; boundary=x" (Ok (sample_form "a.bin" sample40))
             "http://h:1/share1/music/" (fresh_conn, sample_world) in
  w_fs (world_of r)
  = <["/srv/pub/music/a.bin" := File (string_of_list_byte sample40)]> sample_tree.
Proof.
  pose proof (upload_in_listed_directory "/" ["/srv/pub"] exn_name sample_dumps
                "multipart/form-data; boundary=x" (sample_form "a.bin" sample40)
                (FBytes sample40) [] [] "a.bin"
                "http://h:1/share1/music/" "/share1/music/" "/srv/pub/music"
                fresh_conn sample_world
                eq_refl eq_refl eq_refl eq_refl eq_refl eq_refl eq_refl eq_refl
                eq_refl eq_refl eq_refl eq_refl) as H.
  cbv zeta in H. exact (proj2 (proj2 (proj2 H))).
Defined.

Lemma valid_filename_child name : invalid_filename name = false -> child_name name = true.
Proof.
  unfold invalid_filename, child_name. intros H.
  apply orb_false_iff in H as [Hext Hbad]. rewrite Hbad. cbn [negb andb].
  unfold bad_extension in Hext. apply negb_false_iff in Hext.
  destruct (String.eqb name "") eqn:He.
  { apply String.eqb_eq in He. subst name. discriminate Hext. }
  destruct (String.eqb name ".") eqn:Hd; [|reflexivity].
  apply String.eqb_eq in Hd. subst name. discriminate Hext.
Qed.

(** X26: a text file made in a listed directory.  The [Referer] is well
    formed (at most 4300 ASCII characters, with escapes that decode to
    UTF-8) and resolves to an existing directory; the stripped file name
    passes both tests, is a name that the file system takes (no NUL
    character, at most 255 bytes) and names nothing that exists there.
    Then [/api/create_file] cannot fail on the file system: with a text
    content it answers 201 and the one change is the new file with that
    content, directly in the directory of the [Referer].  With a content
    that is not text, the write raises after the file was opened: no
    answer is sent, the handler ends in the [TypeError] of [send_error],
    and an empty file with that name is left behind. *)
Theorem create_file_in_listed_directory (cwd : string) (shared_dirs : list string)
    (str_exn : exn -> string) (json_dumps : json -> string)
    (data content : json) (raw referer current path : string) (c : conn) (w : world) :
  let name := PyStr.strip raw in
  let target := PosixPath.join path name in
  peer_takes c = None ->
  PosixPath.isabs cwd = true ->
  well_formed_url referer = true ->
  Re.match_referer referer = Some current ->
  translate_path cwd shared_dirs current = Some path ->
  os_path_isdir (w_fs w) path = true ->
  Py.dict_get data "filename" (JStr "") = Ok (JStr raw) ->
  Py.dict_get data "content" (JStr "") = Ok content ->
  invalid_filename name = false ->
  storable_name name = true ->
  os_path_exists (w_fs w) target = false ->
  let r := api_create_file cwd shared_dirs str_exn json_dumps (Ok data) referer (c, w) in
  PosixPath.dirname target = path
  /\ match content with
     | JStr text =>
         fst r = Ok tt
         /\ sent (fst (snd r)) = (sent c ++ json_answer json_dumps 201 success)%list
         /\ w_fs (world_of r) = <[target := File text]> (w_fs w)
     | _ =>
         fst r = Raise TypeError
         /\ sent (fst (snd r)) = sent c
         /\ w_fs (world_of r) = <[target := File ""]> (w_fs w)
     end.
Proof.
  intros name target Hpeer Hcwd _ Hreferer Hpath Hdir Hget Hcontent Hvalid _ Hnew. cbv zeta.
  subst target. set (target := PosixPath.join path name) in *.
  pose proof (child_is_comp name (valid_filename_child name Hvalid)) as Hcomp.
  destruct (listed_child cwd shared_dirs current path name Hcwd Hpath Hcomp)
    as (_ & _ & _ & _ & Hd & _).
  split; [exact Hd|].
  unfold invalid_filename in Hvalid. apply orb_false_iff in Hvalid as [Hext Hbad].
  assert (Hhead :
            api_create_file cwd shared_dirs str_exn json_dumps (Ok data) referer (c, w)
            = try_except
                (on_world (write_file target (Py.text_of content)) ;;
                 reply_json json_dumps 201 success)
                (fun e => send_error 500 (str_exn e)) (c, w)).
  { unfold api_create_file. unfold try_except at 1 2.
    erewrite run_bind by reflexivity. cbn [fst snd].
    erewrite run_bind by (rewrite Hget; reflexivity).
    erewrite run_bind by reflexivity.
    erewrite run_bind by (rewrite Hcontent; reflexivity).
    fold name. rewrite Hext, Hbad.
    erewrite run_bind by reflexivity. cbn [fst snd].
    rewrite (listed_target_path cwd shared_dirs referer current path name w
               Hcwd Hreferer Hpath Hdir Hcomp).
    erewrite run_bind by reflexivity. cbn [fst snd]. fold target. rewrite Hnew.
    reflexivity. }
  rewrite Hhead. clear Hhead.
  pose proof (listed_write cwd shared_dirs current path name w
                Hcwd Hpath Hdir Hcomp Hnew) as Hok.
  pose proof (listed_write_refused cwd shared_dirs current path name w
                Hcwd Hpath Hdir Hcomp Hnew TypeError) as Hno.
  fold target in Hok, Hno.
  assert (Hfail : Py.text_of content = Raise TypeError ->
            let r := try_except
                       (on_world (write_file target (Py.text_of content)) ;;
                        reply_json json_dumps 201 success)
                       (fun e => send_error 500 (str_exn e)) (c, w) in
            fst r = Raise TypeError
            /\ sent (fst (snd r)) = sent c
            /\ w_fs (world_of r) = <[target := File ""]> (w_fs w)).
  { intros Hte. cbv zeta. erewrite run_try_raise.
    2:{ apply run_bind_raise. unfold on_world. cbn [fst snd].
        rewrite Hte, Hno. reflexivity. }
    rewrite send_error_raises. unfold world_of. cbn [fst snd w_fs set_fs].
    repeat split. }
  destruct content as [|b|n|repr|text|items|members]; try (apply Hfail; reflexivity).
  erewrite run_try_ok.
  2:{ erewrite run_bind.
      2:{ unfold on_world. cbn [fst snd Py.text_of]. rewrite Hok. reflexivity. }
      apply reply_json_answer. exact Hpeer. }
  unfold world_of. cbn [fst snd sent w_fs set_fs]. repeat split.
Qed.

Lemma create_file_in_listed_directory_witness :
  let r := api_create_file "/" ["/srv/pub"] exn_name sample_dumps (Ok sample_notes)
             "http://h:1/share1/music/" (fresh_conn, sample_world) in
  w_fs (world_of r) = <["/srv/pub/music/notes.txt" := File "hi"]> sample_tree.
Proof.
  pose proof (create_file_in_listed_directory "/" ["/srv/pub"] exn_name sample_dumps
                sample_notes (JStr "hi") "notes.txt"
                "http://h:1/share1/music/" "/share1/music/" "/srv/pub/music"
                fresh_conn sample_world
                eq_refl eq_refl eq_refl eq_refl eq_refl eq_refl eq_refl eq_refl eq_refl
                eq_refl eq_refl) as H.
  cbv zeta in H. exact (proj2 (proj2 (proj2 H))).
Defined.

(* ------------------------------------------------------------------ *)
(** ** Namespace resolver: the root of a share *)

Lemma match_share_bare ds : all_digits ds = true -> Re.match_share ("/share" ++ ds) = None.
Proof.
  intros Hds. unfold Re.match_share. rewrite strip_prefix_app.
  rewrite <- (append_empty_r ds).
  rewrite (span_digits_app ds "") by (auto; reflexivity).
  now destruct ds.
Qed.

(** X27: the root of a share is reached only with the slash.  The path
    [/share<digits>] without a slash after the digits is rejected, with or
    without a query, whatever the index and whatever is shared. *)
Theorem share_root_needs_slash (cwd : string) (shared_dirs : list string)
    (ds query : string) :
  all_digits ds = true ->
  translate_path cwd shared_dirs ("/share" ++ ds) = None
  /\ translate_path cwd shared_dirs ("/share" ++ ds ++ String "?" query) = None.
Proof.
  intros Hds.
  assert (Hq : lacks "?" ("/share" ++ ds) = true)
    by (rewrite lacks_app, (digits_lack "?" ds eq_refl Hds); reflexivity).
  assert (Hf : lacks "#" ("/share" ++ ds) = true)
    by (rewrite lacks_app, (digits_lack "#" ds eq_refl Hds); reflexivity).
  assert (Hp : lacks "%" ("/share" ++ ds) = true)
    by (rewrite lacks_app, (digits_lack "%" ds eq_refl Hds); reflexivity).
  assert (Hdec : Url.unquote ("/share" ++ ds) = "/share" ++ ds).
  { rewrite <- (append_empty_r ("/share" ++ ds)) at 1.
    rewrite unquote_app by exact Hp. cbn [Url.unquote]. apply append_empty_r. }
  assert (Hbare : translate_path cwd shared_dirs ("/share" ++ ds) = None).
  { unfold translate_path.
    rewrite (before_first_lacks "?") by exact Hq.
    rewrite (before_first_lacks "#") by exact Hf.
    rewrite Hdec, not_root_path, match_share_bare by exact Hds. reflexivity. }
  split; [exact Hbare|].
  unfold translate_path.
  rewrite <- string_app_assoc, (before_first_stop "?") by exact Hq.
  rewrite (before_first_lacks "#") by exact Hf.
  rewrite Hdec, not_root_path, match_share_bare by exact Hds. reflexivity.
Qed.

Lemma share_root_needs_slash_witness :
  translate_path "/" ["/srv/pub"] ("/share" ++ "1") = None
  /\ translate_path "/" ["/srv/pub"] ("/share" ++ "1" ++ String "?" "sort=name") = None.
Proof.
  apply share_root_needs_slash. reflexivity.
Defined.

(* ------------------------------------------------------------------ *)
(** ** The share list of the desktop window *)

Lemma drop_one_spec fs win path :
  list_widget win = shared_paths win ->
  NoDup (shared_paths win) ->
  let win' := drop_one fs win path in
  list_widget win' = shared_paths win'
  /\ NoDup (shared_paths win')
  /\ (exists added,
        shared_paths win' = (shared_paths win ++ added)%list
        /\ Forall (fun p => os_path_isdir fs p = true /\ p = path) added)
  /\ (os_path_isdir fs path = true -> path ∈ shared_paths win').
Proof.
  intros Hmirror Hnodup. cbv zeta. unfold drop_one.
  destruct (os_path_isdir fs path) eqn:Hdir.
  - destruct (bool_decide (path ∈ shared_paths win)) eqn:Hin.
    + apply bool_decide_eq_true in Hin. cbn [set_label shared_paths list_widget].
      split; [exact Hmirror|]. split; [exact Hnodup|]. split; [|now intros _].
      exists []. split; [now rewrite app_nil_r|constructor].
    + apply bool_decide_eq_false in Hin. cbn [shared_paths list_widget].
      split; [now rewrite Hmirror|]. split; [|split].
      * apply NoDup_app. repeat split; [exact Hnodup| |apply NoDup_singleton].
        intros x Hx Hx'. apply list_elem_of_singleton in Hx'. now subst.
      * exists [path]. split; [reflexivity|]. now repeat constructor.
      * intros _. apply elem_of_app. right. now apply list_elem_of_singleton.
  - cbn [set_label shared_paths list_widget].
    split; [exact Hmirror|]. split; [exact Hnodup|]. split; [|discriminate].
    exists []. split; [now rewrite app_nil_r|constructor].
Qed.

(** X28: dropping paths on the window keeps its share list in order.
    If the list widget shows the share list and the list has no path
    twice, then after [dropEvent] the widget still shows the list and no
    path is in it twice; the paths that were there stay where they are,
    and what is added at the end are dropped paths that are directories.
    Every dropped directory is in the list afterwards. *)
Theorem drop_keeps_share_list (fs : gmap string node) (urls : list string) (win : window) :
  list_widget win = shared_paths win ->
  NoDup (shared_paths win) ->
  let win' := dropEvent fs urls win in
  list_widget win' = shared_paths win'
  /\ NoDup (shared_paths win')
  /\ (exists added,
        shared_paths win' = (shared_paths win ++ added)%list
        /\ Forall (fun p => os_path_isdir fs p = true /\ p ∈ urls) added)
  /\ (forall p, p ∈ urls -> os_path_isdir fs p = true -> p ∈ shared_paths win').
Proof.
  unfold dropEvent. revert win.
  induction urls as [|url urls IH]; intros win Hmirror Hnodup; cbv zeta.
  - cbn [fold_left]. repeat split; try assumption.
    + exists []. split; [now rewrite app_nil_r|constructor].
    + intros p Hp. now apply elem_of_nil in Hp.
  - cbn [fold_left].
    destruct (drop_one_spec fs win url Hmirror Hnodup)
      as (Hm1 & Hn1 & (added1 & Ha1 & Hf1) & Hin1).
    destruct (IH (drop_one fs win url) Hm1 Hn1)
      as (Hm2 & Hn2 & (added2 & Ha2 & Hf2) & Hin2).
    repeat split; [exact Hm2|exact Hn2| |].
    + exists (added1 ++ added2)%list. split.
      * now rewrite Ha2, Ha1, <- app_assoc.
      * apply Forall_app. split.
        -- eapply Forall_impl; [exact Hf1|]. intros p [Hd ->]. split; [exact Hd|].
           apply list_elem_of_here.
        -- eapply Forall_impl; [exact Hf2|]. intros p [Hd Hp]. split; [exact Hd|].
           now apply list_elem_of_further.
    + intros p Hp Hd. apply elem_of_cons in Hp as [->|Hp]; [|now apply Hin2].
      rewrite Ha2. apply elem_of_app. left. now apply Hin1.
Qed.

Lemma drop_keeps_share_list_witness :
  let win := {| shared_paths := ["/srv/pub"]; list_widget := ["/srv/pub"];
                status_label := "" |} in
  "/srv/pub/music"
  ∈ shared_paths (dropEvent sample_tree ["/srv/pub/music"; "/srv/pub/b.txt"; "/srv/pub"] win).
Proof.
  assert (Hnodup : NoDup ["/srv/pub"%string]) by apply NoDup_singleton.
  apply (proj2 (proj2 (proj2
           (drop_keeps_share_list sample_tree
              ["/srv/pub/music"; "/srv/pub/b.txt"; "/srv/pub"]
              {| shared_paths := ["/srv/pub"]; list_widget := ["/srv/pub"];
                 status_label := "" |} eq_refl Hnodup)))).
  - apply list_elem_of_here.
  - reflexivity.
Defined.

Lemma remove_first_app x pre l :
  x ∉ pre -> remove_first x (pre ++ x :: l) = (pre ++ l)%list.
Proof.
  induction pre as [|y pre IH]; intros Hx.
  - cbn [app remove_first]. now rewrite String.eqb_refl.
  - apply not_elem_of_cons in Hx as [Hne Hx]. cbn [app remove_first].
    assert (String.eqb y x = false) as -> by (apply String.eqb_neq; congruence).
    now rewrite IH.
Qed.

Lemma remove_invalid_filter (valid : string -> bool) l :
  forall pre,
    Forall (fun p => valid p = true) pre ->
    remove_invalid (List.filter (fun p => negb (valid p)) l) (pre ++ l)
    = (pre ++ List.filter valid l)%list.
Proof.
  unfold remove_invalid. induction l as [|x l IH]; intros pre Hpre; [reflexivity|].
  cbn [List.filter]. destruct (valid x) eqn:Hx; cbn [negb].
  - replace (pre ++ x :: l)%list with ((pre ++ [x]) ++ l)%list by now rewrite <- app_assoc.
    rewrite IH.
    + now rewrite <- app_assoc.
    + apply Forall_app. split; [exact Hpre|now repeat constructor].
  - cbn [fold_left].
    rewrite bool_decide_eq_true_2 by (apply elem_of_app; right; apply list_elem_of_here).
    rewrite remove_first_app.
    + now apply IH.
    + intros Hin. rewrite Forall_forall in Hpre. specialize (Hpre x Hin). congruence.
Qed.

Lemma filter_none_invalid (valid : string -> bool) l :
  List.filter (fun p => negb (valid p)) l = [] -> List.filter valid l = l.
Proof.
  induction l as [|x l IH]; [reflexivity|].
  cbn [List.filter]. destruct (valid x); cbn [negb]; [|discriminate].
  intros H. now rewrite IH.
Qed.

Lemma save_config_spec str_exn json_dump win w :
  let r := save_config str_exn json_dump (win, w) in
  shared_paths (fst r) = shared_paths win
  /\ list_widget (fst r) = list_widget win
  /\ (w_fs w !! CONFIG_FILE <> Some Dir ->
      w_fs (snd r) = <[CONFIG_FILE := File (json_dump (JArr (map JStr (shared_paths win))))]>
                       (w_fs w)).
Proof.
  cbv zeta. unfold save_config.
  split; [|split].
  - destruct (save_shared_folders_config _ _ _ _) as [[[]|e] w']; reflexivity.
  - destruct (save_shared_folders_config _ _ _ _) as [[[]|e] w']; reflexivity.
  - intros Hnodir. unfold save_shared_folders_config.
    erewrite run_try_ok.
    2:{ erewrite run_bind by (apply (write_file_relative CONFIG_FILE _ w eq_refl Hnodir)).
        erewrite run_bind by reflexivity. reflexivity. }
    reflexivity.
Qed.

(** X29: what is served is what the window lists.  When
    [start_sharing] starts a server thread, the paths given to it, the
    global [shared_dirs] and the share list of the window are one and the
    same list: the paths of the share list that are directories, in their
    order, and there is at least one.  The list widget shows them if it
    showed the share list before, and the configuration file holds them if
    it can be written.  When no thread is started, [shared_dirs] is left
    as it was. *)
Theorem started_shares_are_listed (str_exn : exn -> string) (json_dump : json -> string)
    (reply_yes : bool) (current_port : Z) (win : window) (shared_dirs : list string)
    (w : world) :
  let valid p := os_path_exists (w_fs w) p && os_path_isdir (w_fs w) p in
  let '(win', shared_dirs', w', started) :=
    start_sharing str_exn json_dump reply_yes current_port win shared_dirs w in
  match started with
  | Some served =>
      served = List.filter valid (shared_paths win)
      /\ served <> []
      /\ shared_dirs' = served
      /\ shared_paths win' = served
      /\ Forall (fun p => os_path_isdir (w_fs w) p = true) served
      /\ (list_widget win = shared_paths win -> list_widget win' = served)
      /\ (w_fs w !! CONFIG_FILE <> Some Dir ->
          w_fs w' !! CONFIG_FILE = Some (File (json_dump (JArr (map JStr served)))))
  | None => shared_dirs' = shared_dirs
  end.
Proof.
  cbv zeta. unfold start_sharing.
  set (valid := fun p => os_path_exists (w_fs w) p && os_path_isdir (w_fs w) p).
  destruct (shared_paths win) as [|p0 rest] eqn:Hpaths; [reflexivity|].
  rewrite <- Hpaths.
  assert (Hdirs : Forall (fun p => os_path_isdir (w_fs w) p = true)
                    (List.filter valid (shared_paths win))).
  { apply Forall_forall. intros p Hp. apply list_elem_of_In, filter_In in Hp as [_ Hp].
    unfold valid in Hp. now apply andb_true_iff in Hp as [_ Hp]. }
  set (served := List.filter valid (shared_paths win)) in *.
  assert (Hfinish : forall win1 w1,
             shared_paths win1 = served ->
             (list_widget win = shared_paths win -> list_widget win1 = served) ->
             (w_fs w !! CONFIG_FILE <> Some Dir -> w_fs w1 !! CONFIG_FILE <> Some Dir) ->
             let '(win', shared_dirs', w', started) :=
               match served with
               | [] => (win1, shared_dirs, w1, None)
               | _ :: _ =>
                   let (win2, w2) := save_config str_exn json_dump (win1, w1) in
                   (set_label ("开始共享 " ++ PyStr.str_of_Z (Z.of_nat (List.length served))
                               ++ " 个文件夹，端口: " ++ PyStr.str_of_Z current_port ++ "...")
                      win2,
                    served, w2, Some served)
               end in
             match started with
             | Some served0 =>
                 served0 = served
                 /\ served0 <> []
                 /\ shared_dirs' = served0
                 /\ shared_paths win' = served0
                 /\ Forall (fun p => os_path_isdir (w_fs w) p = true) served0
                 /\ (list_widget win = shared_paths win -> list_widget win' = served0)
                 /\ (w_fs w !! CONFIG_FILE <> Some Dir ->
                     w_fs w' !! CONFIG_FILE
                     = Some (File (json_dump (JArr (map JStr served0)))))
             | None => shared_dirs' = shared_dirs
             end).
  { intros win1 w1 Hsp Hlw Hcfg.
    destruct served as [|s0 served'] eqn:Hserved; [reflexivity|].
    destruct (save_config_spec str_exn json_dump win1 w1) as (Hp2 & Hl2 & Hf2).
    cbv zeta in Hp2, Hl2, Hf2.
    destruct (save_config str_exn json_dump (win1, w1)) as [win2 w2].
    cbn [fst snd] in Hp2, Hl2, Hf2.
    cbn [set_label shared_paths list_widget].
    split; [reflexivity|]. split; [discriminate|]. split; [reflexivity|].
    split; [congruence|]. split; [exact Hdirs|]. split.
    - intros Hm. rewrite Hl2. now apply Hlw.
    - intros Hnodir. rewrite (Hf2 (Hcfg Hnodir)), Hsp. apply lookup_insert_eq. }
  change (fun p : string => negb (os_path_exists (w_fs w) p && os_path_isdir (w_fs w) p))
    with (fun p : string => negb (valid p)).
  destruct (List.filter (fun p => negb (valid p)) (shared_paths win)) as [|i0 invalid]
    eqn:Hinvalid.
  - apply Hfinish.
    + subst served. symmetry. now apply filter_none_invalid.
    + intros Hm. rewrite Hm. subst served. symmetry. now apply filter_none_invalid.
    + auto.
  - destruct reply_yes; [|reflexivity].
    rewrite <- Hinvalid.
    pose proof (remove_invalid_filter valid (shared_paths win) [] (List.Forall_nil _)) as Hrm.
    cbn [app] in Hrm. fold served in Hrm.
    set (win0 := update_list_widget _).
    destruct (save_config_spec str_exn json_dump win0 w) as (Hp1 & Hl1 & Hf1).
    cbv zeta in Hp1, Hl1, Hf1.
    destruct (save_config str_exn json_dump (win0, w)) as [win1 w1].
    cbn [fst snd] in Hp1, Hl1, Hf1.
    apply Hfinish.
    + rewrite Hp1. subst win0. cbn [update_list_widget shared_paths]. exact Hrm.
    + intros _. rewrite Hl1. subst win0. cbn [update_list_widget shared_paths list_widget].
      exact Hrm.
    + intros Hnodir. rewrite (Hf1 Hnodir), lookup_insert_eq. discriminate.
Qed.

Lemma started_shares_are_listed_witness :
  let win := {| shared_paths := ["/srv/pub/music"; "/srv/gone"; "/srv/pub"];
                list_widget := ["/srv/pub/music"; "/srv/gone"; "/srv/pub"];
                status_label := "" |} in
  snd (start_sharing exn_name sample_dumps true 20261 win [] sample_world)
  = Some ["/srv/pub/music"; "/srv/pub"].
Proof.
  pose proof (started_shares_are_listed exn_name sample_dumps true 20261
                {| shared_paths := ["/srv/pub/music"; "/srv/gone"; "/srv/pub"];
                   list_widget := ["/srv/pub/music"; "/srv/gone"; "/srv/pub"];
                   status_label := "" |} [] sample_world) as H.
  cbv zeta in H.
  destruct (start_sharing exn_name sample_dumps true 20261 _ [] sample_world)
    as [[[win' dirs'] w'] [served|]] eqn:Hrun.
  - destruct H as (-> & _). reflexivity.
  - vm_compute in Hrun. discriminate Hrun.
Defined.

Lemma NoDup_drop_middle {A} (l1 l2 : list A) x : NoDup (l1 ++ x :: l2) -> NoDup (l1 ++ l2).
Proof.
  rewrite !NoDup_app, NoDup_cons. intros (H1 & Hd & _ & H2).
  repeat split; [exact H1| |exact H2].
  intros y Hy Hy2. apply (Hd y Hy). now apply list_elem_of_further.
Qed.

(** X30: deleting from the share list, and clearing it, keep the window
    in order.  If the list widget shows the share list and the list has no
    path twice, the same holds after [delete_selected] and after
    [clear_all], and every path left was there before.  Whenever one of
    them changes the list and the configuration file can be written, the
    file holds the new list afterwards. *)
Theorem list_edits_keep_window_in_order (str_exn : exn -> string)
    (json_dump : json -> string) (current_row : Z) (win : window) (w : world) :
  list_widget win = shared_paths win ->
  NoDup (shared_paths win) ->
  w_fs w !! CONFIG_FILE <> Some Dir ->
  forall edit,
    edit = delete_selected str_exn json_dump current_row
    \/ edit = clear_all str_exn json_dump ->
    let win' := fst (edit (win, w)) in
    let w' := snd (edit (win, w)) in
    list_widget win' = shared_paths win'
    /\ NoDup (shared_paths win')
    /\ (forall p, p ∈ shared_paths win' -> p ∈ shared_paths win)
    /\ (shared_paths win' <> shared_paths win ->
        w_fs w' !! CONFIG_FILE
        = Some (File (json_dump (JArr (map JStr (shared_paths win')))))).
Proof.
  intros Hmirror Hnodup Hnodir edit Hedit. cbv zeta.
  assert (Hsaved : forall win1,
             list_widget win1 = shared_paths win1 ->
             NoDup (shared_paths win1) ->
             (forall p, p ∈ shared_paths win1 -> p ∈ shared_paths win) ->
             let r := save_config str_exn json_dump (win1, w) in
             list_widget (fst r) = shared_paths (fst r)
             /\ NoDup (shared_paths (fst r))
             /\ (forall p, p ∈ shared_paths (fst r) -> p ∈ shared_paths win)
             /\ (shared_paths (fst r) <> shared_paths win ->
                 w_fs (snd r) !! CONFIG_FILE
                 = Some (File (json_dump (JArr (map JStr (shared_paths (fst r)))))))).
  { intros win1 Hm1 Hn1 Hsub. cbv zeta.
    destruct (save_config_spec str_exn json_dump win1 w) as (Hp & Hl & Hf).
    cbv zeta in Hp, Hl, Hf. rewrite Hp, Hl. repeat split; try assumption.
    intros _. rewrite (Hf Hnodir). apply lookup_insert_eq. }
  assert (Hsame : list_widget win = shared_paths win
                  /\ NoDup (shared_paths win)
                  /\ (forall p, p ∈ shared_paths win -> p ∈ shared_paths win)
                  /\ (shared_paths win <> shared_paths win ->
                      w_fs w !! CONFIG_FILE
                      = Some (File (json_dump (JArr (map JStr (shared_paths win)))))))
    by (repeat split; try assumption; [auto|congruence]).
  destruct Hedit as [-> | ->].
  - unfold delete_selected.
    destruct ((0 <=? current_row)
              && (current_row <? Z.of_nat (List.length (shared_paths win)))) eqn:Hrow;
      [|exact Hsame].
    apply andb_true_iff in Hrow as [Hlo Hhi].
    apply Z.leb_le in Hlo. apply Z.ltb_lt in Hhi.
    set (row := Z.to_nat current_row).
    assert (Hlt : (row < List.length (shared_paths win))%nat) by (subst row; lia).
    destruct (lookup_lt_is_Some_2 (shared_paths win) row Hlt) as [x Hx].
    pose proof (take_drop_middle (shared_paths win) row x Hx) as Hmid.
    apply Hsaved; cbn [shared_paths list_widget].
    + now rewrite Hmirror.
    + rewrite <- Hmid in Hnodup. now apply NoDup_drop_middle in Hnodup.
    + intros p Hp. rewrite <- Hmid. apply elem_of_app in Hp as [Hp|Hp].
      * apply elem_of_app. now left.
      * apply elem_of_app. right. now apply list_elem_of_further.
  - unfold clear_all.
    destruct (shared_paths win) as [|p0 rest] eqn:Hpaths.
    + rewrite <- Hpaths in *. exact Hsame.
    + rewrite <- Hpaths in *. apply Hsaved; cbn [shared_paths list_widget].
      * reflexivity.
      * apply NoDup_nil. exact I.
      * intros p Hp. now apply elem_of_nil in Hp.
Qed.

Lemma list_edits_keep_window_in_order_witness :
  let win := {| shared_paths := ["/srv/pub"; "/srv/music"];
                list_widget := ["/srv/pub"; "/srv/music"]; status_label := "" |} in
  let r := delete_selected exn_name sample_dumps 0 (win, empty_world) in
  w_fs (snd r) !! CONFIG_FILE
  = Some (File (sample_dumps (JArr (map JStr (shared_paths (fst r)))))).
Proof.
  assert (Hnodup : NoDup ["/srv/pub"%string; "/srv/music"%string]).
  { apply NoDup_cons. split; [|apply NoDup_singleton].
    intros Hin. apply list_elem_of_singleton in Hin. discriminate Hin. }
  assert (Hnodir : w_fs empty_world !! CONFIG_FILE <> Some Dir)
    by (vm_compute; discriminate).
  apply (proj2 (proj2 (proj2
           (list_edits_keep_window_in_order exn_name sample_dumps 0
              {| shared_paths := ["/srv/pub"; "/srv/music"];
                 list_widget := ["/srv/pub"; "/srv/music"]; status_label := "" |}
              empty_world eq_refl Hnodup Hnodir
              (delete_selected exn_name sample_dumps 0) (or_introl eq_refl))))).
  vm_compute. discriminate.
Defined.
